(** * Smart-Home Energy Monitor: aggregation and view logic of the dashboard

    A shallow embedding of the data-handling part of [src/Dashboard.jsx]:
    [aggregateConsumptionByTime], [aggregateConsumptionByDevice],
    [generateSmartSuggestion], the destructuring of the payload in
    [Dashboard] and its closure [getFilteredReadings].

    Conventions of the embedding.
    - A JavaScript number that carries a consumption is a rational ([Q]):
      the arithmetic is exact.  A sum is the one that the language computes
      whenever the language adds with no rounding; a statement about the
      amount of a sum is one of exact arithmetic.  The not-a-number value
      is kept apart ([NaN]), because comparators and date differences can
      produce it.
    - A [Date] is its time value: milliseconds since the epoch, or no value
      at all for an invalid date.  Its fields are computed as the language
      defines them, the local time being the time plus the offset of the
      host's zone.  A string is parsed by a function that is left open, and
      the ISO string of a date is represented by the instant it denotes.
    - An object used as a map is the list of its own properties in
      insertion order; [Object.keys] reorders them as the language does.
    - An exception is an abrupt completion ([Throw]). *)

From Stdlib Require Import ZArith QArith List String Ascii Bool Lia.
From Stdlib Require Import Permutation Sorted.
Import ListNotations.

(** ** Completions: a value, or a thrown exception *)

Inductive JsError : Type :=
| RangeError
| TypeError.

Inductive completion (A : Type) : Type :=
| Normal (a : A)
| Throw (e : JsError).

Arguments Normal {A} a.
Arguments Throw {A} e.

Definition bind {A B : Type} (c : completion A) (k : A -> completion B)
  : completion B :=
  match c with
  | Normal a => k a
  | Throw e => Throw e
  end.

Notation "x <- c ;; k" := (bind c (fun x => k))
  (at level 61, c at next level, right associativity).

(** [array.forEach] with a callback that updates the state [S] captured by
    its closure; an exception in the callback ends the loop. *)
Fixpoint forEach {A S : Type} (array : list A) (callback : S -> A -> completion S)
  (s : S) : completion S :=
  match array with
  | [] => Normal s
  | item :: rest => s' <- callback s item ;; forEach rest callback s'
  end.

(** ** Values *)

(** The values that the maps of the dashboard can hold.  [Other] stands for
    a value that is neither a number nor [undefined]: a member inherited
    from [Object.prototype], or the string that [+] builds from one.  Every
    such value is truthy and converts to the number [NaN]. *)
Inductive JsValue : Type :=
| Undefined
| Num (q : Q)
| NaN
| Other.

Definition Qltb (x y : Q) : bool := negb (Qle_bool y x).

(** [v || 0] *)
Definition orZero (v : JsValue) : JsValue :=
  match v with
  | Undefined => Num 0
  | Num q => if Qeq_bool q 0 then Num 0 else Num q
  | NaN => Num 0
  | Other => Other
  end.

(** [v + c] for a number [c]: addition on numbers, concatenation on
    strings and objects. *)
Definition plus (v : JsValue) (c : Q) : JsValue :=
  match v with
  | Num q => Num (q + c)
  | Undefined | NaN => NaN
  | Other => Other
  end.

(** [a - b]: both operands are converted to numbers. *)
Definition minus (a b : JsValue) : JsValue :=
  match a, b with
  | Num x, Num y => Num (x - y)
  | _, _ => NaN
  end.

(** ** Array.prototype.sort

    The sort is stable.  [after x y] says that the comparison of [x] with
    [y] is positive, so that [x] has to come after [y].  With a comparator
    that is not consistent the language leaves the order to the
    implementation; the embedding then gives the order of this insertion
    sort. *)
Section ArraySort.
Context {A : Type}.
Variable after : A -> A -> bool.

Fixpoint insert (x : A) (sorted : list A) : list A :=
  match sorted with
  | [] => [x]
  | y :: rest => if after x y then y :: insert x rest else x :: sorted
  end.

Fixpoint sort (array : list A) : list A :=
  match array with
  | [] => []
  | x :: rest => insert x (sort rest)
  end.
End ArraySort.

(** A comparator [comparefn] returns a number; [NaN] counts as [+0]. *)
Definition positive (v : JsValue) : bool :=
  match v with
  | Num q => Qltb 0 q
  | _ => false
  end.

Definition sortWith {A : Type} (comparefn : A -> A -> JsValue) : list A -> list A :=
  sort (fun a b => positive (comparefn a b)).

(** ** Objects used as maps *)
Module Obj.
Section Object.
Context {K : Type}.
(** equality of property keys *)
Variable eqb : K -> K -> bool.
(** the array index that a key denotes, if it is a canonical one *)
Variable arrayIndex : K -> option N.
(** keys found on [Object.prototype] *)
Variable inherited : K -> bool.
(** the key [__proto__], whose setter ignores primitive values *)
Variable accessor : K -> bool.

Definition t : Type := list (K * JsValue).

Definition empty : t := [].

Fixpoint own (o : t) (k : K) : option JsValue :=
  match o with
  | [] => None
  | (k', v) :: rest => if eqb k' k then Some v else own rest k
  end.

(** [o[k]] *)
Definition get (o : t) (k : K) : JsValue :=
  match own o k with
  | Some v => v
  | None => if inherited k then Other else Undefined
  end.

Fixpoint put (o : t) (k : K) (v : JsValue) : t :=
  match o with
  | [] => [(k, v)]
  | (k', v') :: rest =>
      if eqb k' k then (k', v) :: rest else (k', v') :: put rest k v
  end.

(** [o[k] = v], for a primitive [v] *)
Definition set (o : t) (k : K) (v : JsValue) : t :=
  if accessor k then o else put o k v.

Definition indexKeys (o : t) : list (N * K) :=
  flat_map (fun kv => match arrayIndex (fst kv) with
                      | Some n => [(n, fst kv)]
                      | None => []
                      end) o.

Definition nameKeys (o : t) : list K :=
  filter (fun k => match arrayIndex k with
                   | Some _ => false
                   | None => true
                   end) (map fst o).

(** [Object.keys(o)]: array indices in ascending order, then the other
  keys in insertion order. *)
Definition keys (o : t) : list K :=
  map snd (sort (fun a b => N.ltb (fst b) (fst a)) (indexKeys o))
    ++ nameKeys o.

(** [Object.values(o)] *)
Definition values (o : t) : list JsValue :=
  map (get o) (keys o).
End Object.
End Obj.

(** ** Dates *)
Module Date.
Open Scope Z_scope.

Definition msPerMinute : Z := 60000.
Definition msPerHour : Z := 3600000.
Definition msPerDay : Z := 86400000.
Definition maxTime : Z := 8640000000000000.

(** A date is its time value; [None] is the invalid date. *)
Definition t : Type := option Z.

Definition TimeClip (time : Z) : t :=
  if Z.abs time <=? maxTime then Some time else None.

(** [new Date(number)] *)
Definition ofNumber (time : Z) : t := TimeClip time.

(** [new Date(string)], given what [Date.parse] makes of the string *)
Definition ofString (parsed : option Z) : t :=
  match parsed with
  | Some time => TimeClip time
  | None => None
  end.

(** [a > b] on dates *)
Definition gt (a b : t) : bool :=
  match a, b with
  | Some x, Some y => y <? x
  | _, _ => false
  end.

(** [a - b] on dates *)
Definition diff (a b : t) : JsValue :=
  match a, b with
  | Some x, Some y => Num (inject_Z (x - y))
  | _, _ => NaN
  end.

(** *** Days, years and months, as the language defines them *)

Definition Day (time : Z) : Z := time / msPerDay.

Definition DaysInYear (y : Z) : Z :=
  if negb (y mod 4 =? 0) then 365
  else if negb (y mod 100 =? 0) then 366
  else if negb (y mod 400 =? 0) then 365
  else 366.

Definition DayFromYear (y : Z) : Z :=
  365 * (y - 1970) + (y - 1969) / 4 - (y - 1901) / 100 + (y - 1601) / 400.

(** The year of a day: the largest [y] with [DayFromYear y <= day]
    ([YearFromDay_spec] below).  The mean length of a year gives it within
    one year. *)
Definition YearFromDay (day : Z) : Z :=
  let y := 1970 + (400 * day) / 146097 in
  if DayFromYear (y + 1) <=? day then y + 1
  else if DayFromYear y <=? day then y
  else y - 1.

Definition YearFromTime (time : Z) : Z := YearFromDay (Day time).

Definition InLeapYear (time : Z) : Z :=
  if DaysInYear (YearFromTime time) =? 366 then 1 else 0.

Definition DayWithinYear (time : Z) : Z :=
  Day time - DayFromYear (YearFromTime time).

Definition MonthFromTime (time : Z) : Z :=
  let d := DayWithinYear time in
  let leap := InLeapYear time in
  if d <? 31 then 0
  else if d <? 59 + leap then 1
  else if d <? 90 + leap then 2
  else if d <? 120 + leap then 3
  else if d <? 151 + leap then 4
  else if d <? 181 + leap then 5
  else if d <? 212 + leap then 6
  else if d <? 243 + leap then 7
  else if d <? 273 + leap then 8
  else if d <? 304 + leap then 9
  else if d <? 334 + leap then 10
  else 11.

(** the number of days of a year that come before a month *)
Definition daysBefore (month leap : Z) : Z :=
  match month with
  | 0 => 0
  | 1 => 31
  | 2 => 59 + leap
  | 3 => 90 + leap
  | 4 => 120 + leap
  | 5 => 151 + leap
  | 6 => 181 + leap
  | 7 => 212 + leap
  | 8 => 243 + leap
  | 9 => 273 + leap
  | 10 => 304 + leap
  | _ => 334 + leap
  end.

Definition DateFromTime (time : Z) : Z :=
  DayWithinYear time - daysBefore (MonthFromTime time) (InLeapYear time) + 1.

Definition HourFromTime (time : Z) : Z := (time / msPerHour) mod 24.
Definition MinFromTime (time : Z) : Z := (time / msPerMinute) mod 60.

Definition MakeTime (hour min sec ms : Z) : Z :=
  hour * msPerHour + min * msPerMinute + sec * 1000 + ms.

(** The day of a date, months beyond the year carried over. *)
Definition MakeDay (year month date : Z) : Z :=
  let ym := year + month / 12 in
  let mn := month mod 12 in
  let leap := if DaysInYear ym =? 366 then 1 else 0 in
  DayFromYear ym + daysBefore mn leap + date - 1.

Definition MakeDate (day time : Z) : Z := day * msPerDay + time.

(** A year from 0 to 99 given to the constructor stands for 1900 to 1999. *)
Definition MakeFullYear (year : Z) : Z :=
  if (0 <=? year) && (year <=? 99) then 1900 + year else year.

Section Zone.
(** The offset of local time: [LocalTZA t true] at the instant [t],
    [LocalTZA t false] at the local time [t]. *)
Variable LocalTZA : Z -> bool -> Z.

Definition LocalTime (time : Z) : Z := time + LocalTZA time true.
Definition UTC (time : Z) : Z := time - LocalTZA time false.

Definition getFullYear (d : t) : option Z :=
  option_map (fun time => YearFromTime (LocalTime time)) d.

Definition getMonth (d : t) : option Z :=
  option_map (fun time => MonthFromTime (LocalTime time)) d.

Definition getDate (d : t) : option Z :=
  option_map (fun time => DateFromTime (LocalTime time)) d.

Definition getHours (d : t) : option Z :=
  option_map (fun time => HourFromTime (LocalTime time)) d.

Definition getMinutes (d : t) : option Z :=
  option_map (fun time => MinFromTime (LocalTime time)) d.

(** [new Date(year, month, date, hours, minutes)]; a field that is not a
    number makes the date invalid. *)
Definition ofFields (year month date hours minutes : option Z) : t :=
  match year, month, date, hours, minutes with
  | Some y, Some m, Some dt, Some h, Some min =>
      TimeClip (UTC (MakeDate (MakeDay (MakeFullYear y) m dt) (MakeTime h min 0 0)))
  | _, _, _, _, _ => None
  end.
End Zone.

(** [toISOString()]: the string is represented by the instant that it
    denotes.  For the years 0000 to 9999 the order of the strings is the
    order of the instants. *)
Definition toISOString (d : t) : completion Z :=
  match d with
  | Some time => Normal time
  | None => Throw RangeError
  end.
End Date.

(** ** The payload *)

Record Reading : Type := {
  device_id : string;
  location : string;
  timestamp : string;
  consumption_kwh : Q;
  status : string;
  anomaly_detected : bool
}.

(** ** Property keys *)

(** The keys of [consumptionByMinute] are ISO strings: none is an array
    index, none is found on [Object.prototype]. *)
Definition Label : Type := Z.

Definition digit (c : ascii) : option N :=
  let n := N_of_ascii c in
  if (48 <=? n)%N && (n <=? 57)%N then Some (n - 48)%N else None.

Fixpoint digits (s : string) (acc : N) : option N :=
  match s with
  | EmptyString => Some acc
  | String c rest =>
      match digit c with
      | Some d => digits rest (10 * acc + d)%N
      | None => None
      end
  end.

(** A canonical numeric string below 2^32 - 1. *)
Definition arrayIndex (s : string) : option N :=
  match s with
  | EmptyString => None
  | String c rest =>
      if Ascii.eqb c "0"%char && negb (String.eqb rest EmptyString) then None
      else match digits s 0 with
           | Some n => if (n <? 4294967295)%N then Some n else None
           | None => None
           end
  end.

Definition objectPrototypeNames : list string :=
  [ "constructor"; "hasOwnProperty"; "isPrototypeOf"; "propertyIsEnumerable";
    "toLocaleString"; "toString"; "valueOf"; "__defineGetter__";
    "__defineSetter__"; "__lookupGetter__"; "__lookupSetter__";
    "__proto__" ]%string.

Definition inherited (s : string) : bool :=
  existsb (String.eqb s) objectPrototypeNames.

Definition accessor (s : string) : bool := String.eqb s "__proto__".

Record ChartData (L : Type) : Type := {
  labels : list L;
  values : list JsValue
}.

Arguments labels {L} c.
Arguments values {L} c.

(** ** Helper functions for data aggregation *)
Section Aggregation.
Variable LocalTZA : Z -> bool -> Z.
(** [Date.parse]: the instant that a string denotes, if it denotes one *)
Variable parse : string -> option Z.
(** [Date.now()] *)
Variable now : Z.

Definition noIndex (k : Label) : option N := None.
Definition notInherited (k : Label) : bool := false.

Definition getByMinute := Obj.get Z.eqb notInherited.
Definition setByMinute := Obj.set Z.eqb notInherited.
Definition keysByMinute := Obj.keys (K := Label) noIndex.

Definition getByDevice := Obj.get String.eqb inherited.
Definition setByDevice := Obj.set String.eqb accessor.
Definition keysByDevice := Obj.keys arrayIndex.

Definition startTimeOf (hours : Z) : Date.t :=
  Date.ofNumber (now - hours * 60 * 60 * 1000)%Z.

Definition minuteKeyOf (itemTime : Date.t) : completion Label :=
  Date.toISOString
    (Date.ofFields LocalTZA (Date.getFullYear LocalTZA itemTime)
       (Date.getMonth LocalTZA itemTime) (Date.getDate LocalTZA itemTime)
       (Date.getHours LocalTZA itemTime) (Date.getMinutes LocalTZA itemTime)).

(** the callback of [readings.forEach] in [aggregateConsumptionByTime] *)
Definition addToMinute (startTime : Date.t) (consumptionByMinute : Obj.t)
  (item : Reading) : completion Obj.t :=
  let itemTime := Date.ofString (parse (timestamp item)) in
  if Date.gt itemTime startTime then
    minuteKey <- minuteKeyOf itemTime ;;
    Normal (setByMinute consumptionByMinute minuteKey
              (plus (orZero (getByMinute consumptionByMinute minuteKey))
                 (consumption_kwh item)))
  else Normal consumptionByMinute.

Definition aggregateConsumptionByTime (readings : list Reading) (hours : Z)
  : completion (ChartData Label) :=
  let startTime := startTimeOf hours in
  consumptionByMinute <- forEach readings (addToMinute startTime) Obj.empty ;;
  let labels := sort Z.gtb (keysByMinute consumptionByMinute) in
  let values := map (fun key => getByMinute consumptionByMinute key) labels in
  Normal {| labels := labels; values := values |}.

(** the callback of [readings.forEach] in [aggregateConsumptionByDevice],
    which throws nothing *)
Definition addToDevice (startTime : Date.t) (consumptionByDevice : Obj.t)
  (item : Reading) : Obj.t :=
  let itemTime := Date.ofString (parse (timestamp item)) in
  if Date.gt itemTime startTime then
    setByDevice consumptionByDevice (device_id item)
      (plus (orZero (getByDevice consumptionByDevice (device_id item)))
         (consumption_kwh item))
  else consumptionByDevice.

Definition aggregateConsumptionByDevice (readings : list Reading) (hours : Z)
  : ChartData string :=
  let startTime := startTimeOf hours in
  let consumptionByDevice :=
    fold_left (addToDevice startTime) readings Obj.empty in
  let sortedDevices :=
    sortWith (fun a b => minus (getByDevice consumptionByDevice b)
                           (getByDevice consumptionByDevice a))
      (keysByDevice consumptionByDevice) in
  let labels := firstn 5 sortedDevices in
  let values := map (fun device => getByDevice consumptionByDevice device) labels in
  {| labels := labels; values := values |}.
End Aggregation.

(** ** Smart suggestion based on consumption *)

Inductive Suggestion : Type :=
| HighUsage
| ModerateUsage
| LowUsage.

(** The categories of the rule, each with the advisory string that the
    function returns for it. *)
Definition advice (s : Suggestion) : string :=
  match s with
  | HighUsage =>
      "Consider turning off unused appliances or using energy-saving mode."
  | ModerateUsage =>
      "Moderate usage. Try using appliances during off-peak hours to save energy."
  | LowUsage => "Great! Your energy usage is low. Keep it up!"
  end.

Definition generateSmartSuggestion (consumption : Q) : string :=
  if Qltb 5 consumption then
    "Consider turning off unused appliances or using energy-saving mode."
  else if Qle_bool 2 consumption && Qle_bool consumption 5 then
    "Moderate usage. Try using appliances during off-peak hours to save energy."
  else
    "Great! Your energy usage is low. Keep it up!".

(** ** The view state and the filtered readings *)

(** [cardView]: 'date', 'consumption' or 'anomalies'. *)
Inductive CardView : Type :=
| view_date
| view_consumption
| view_anomalies.

(** [consumptionFilter]: [null] ([None]), 'high', 'medium' or 'low'. *)
Inductive ConsumptionFilter : Type :=
| high
| medium
| low.

Definition isHigh (item : Reading) : bool := Qltb 5 (consumption_kwh item).
Definition isMedium (item : Reading) : bool :=
  Qle_bool 2 (consumption_kwh item) && Qle_bool (consumption_kwh item) 5.
Definition isLow (item : Reading) : bool := Qltb (consumption_kwh item) 2.

Definition tier (f : ConsumptionFilter) : Reading -> bool :=
  match f with
  | high => isHigh
  | medium => isMedium
  | low => isLow
  end.

Definition byConsumption (a b : Reading) : JsValue :=
  minus (Num (consumption_kwh b)) (Num (consumption_kwh a)).

Definition byDate (parse : string -> option Z) (a b : Reading) : JsValue :=
  Date.diff (Date.ofString (parse (timestamp b)))
    (Date.ofString (parse (timestamp a))).

(** [getFilteredReadings] on the contents of the arrays: what the returned
    array holds, given what [recentReadings] holds. *)
Definition getFilteredReadings (parse : string -> option Z)
  (recentReadings : list Reading)
  (cardView : CardView) (consumptionFilter : option ConsumptionFilter)
  : list Reading :=
  let filtered := recentReadings in
  let filtered :=
    match cardView with
    | view_anomalies => filter (fun item => anomaly_detected item) filtered
    | view_consumption => sortWith byConsumption filtered
    | view_date => sortWith (byDate parse) filtered
    end in
  match consumptionFilter with
  | Some f => filter (tier f) filtered
  | None => filtered
  end.

(** ** The same closure on a heap

    Arrays are mutable and are passed by reference; so are the readings
    that they hold.  [spread] and [filter] allocate a new array, [sort]
    rearranges the array that it is called on. *)
Module Heap.
Definition ref : Type := nat.

Record t : Type := {
  objects : ref -> Reading;
  arrays : list (list ref)
}.

Definition array (h : t) (a : ref) : list ref := nth a (arrays h) [].

(** what an array holds *)
Definition contents (h : t) (a : ref) : list Reading :=
  map (objects h) (array h a).

Definition alloc (h : t) (elements : list ref) : ref * t :=
  (List.length (arrays h),
   {| objects := objects h; arrays := arrays h ++ [elements] |}).

Fixpoint update (l : list (list ref)) (a : ref) (elements : list ref)
  : list (list ref) :=
  match l, a with
  | [], _ => []
  | _ :: rest, O => elements :: rest
  | x :: rest, S a' => x :: update rest a' elements
  end.

Definition store (h : t) (a : ref) (elements : list ref) : t :=
  {| objects := objects h; arrays := update (arrays h) a elements |}.

(** [[...a]] *)
Definition spread (h : t) (a : ref) : ref * t := alloc h (array h a).

(** [a.filter(callback)] *)
Definition filterArray (h : t) (a : ref) (callback : Reading -> bool)
  : ref * t :=
  alloc h (filter (fun r => callback (objects h r)) (array h a)).

(** [a.sort(comparefn)], in place *)
Definition sortArray (h : t) (a : ref) (comparefn : Reading -> Reading -> JsValue)
  : t :=
  store h a
    (sortWith (fun x y => comparefn (objects h x) (objects h y)) (array h a)).

Definition getFilteredReadings (parse : string -> option Z) (h : t)
  (recentReadings : ref)
  (cardView : CardView) (consumptionFilter : option ConsumptionFilter)
  : ref * t :=
  let (filtered, h) := spread h recentReadings in
  let (filtered, h) :=
    match cardView with
    | view_anomalies =>
        filterArray h filtered (fun item => anomaly_detected item)
    | view_consumption => (filtered, sortArray h filtered byConsumption)
    | view_date => (filtered, sortArray h filtered (byDate parse))
    end in
  match consumptionFilter with
  | Some f => filterArray h filtered (tier f)
  | None => (filtered, h)
  end.
End Heap.

(** ** The payload and the component *)

Module DailySummary.
Record t : Type := {
  date : string;
  total_consumption_kwh : Q;
  total_cost_usd : Q;
  peak_device_daily : option string;
  peak_device_consumption_daily : option Q
}.
End DailySummary.

Module Anomaly.
Record t : Type := {
  timestamp : string;
  device_id : string;
  anomaly_message : string
}.
End Anomaly.

(** A property of the payload: not there ([undefined]), [null], or a value
    of the expected shape. *)
Inductive Property (A : Type) : Type :=
| Missing
| Null
| Holds (a : A).

Arguments Missing {A}.
Arguments Null {A}.
Arguments Holds {A} a.

(** A default in a destructuring pattern replaces [undefined] only. *)
Definition orDefault {A : Type} (default : A) (p : Property A) : Property A :=
  match p with
  | Missing => Holds default
  | Null => Null
  | Holds a => Holds a
  end.

(** Reading a member of, iterating or listing the keys of a value throws
    on [undefined] and on [null]. *)
Definition target {A : Type} (p : Property A) : completion A :=
  match p with
  | Holds a => Normal a
  | Missing | Null => Throw TypeError
  end.

Record ApiData : Type := {
  recentReadings : Property (list Reading);
  dailySummaries : Property (list DailySummary.t);
  anomalies : Property (list Anomaly.t);
  consumptionByDevice : Property (Obj.t (K := string))
}.

(** What the component computes from the payload and shows. *)
Record Rendered : Type := {
  todaySummary : option DailySummary.t;
  yesterdaySummary : option DailySummary.t;
  lineChartData : ChartData Label;
  barChartData : ChartData string;
  pieChartLabels : list string;
  pieChartData : list JsValue;
  filteredReadings : list Reading;
  anomalyCount : nat;
  anomalyList : list Anomaly.t;
  summaryRows : list DailySummary.t;
  readingCards : list (Reading * string)
}.

Section Component.
Variable LocalTZA : Z -> bool -> Z.
Variable parse : string -> option Z.
Variable now : Z.
(** the first ten characters of the ISO string of [now], and of the day
    before *)
Variables today yesterday : string.

Definition byDay (a b : DailySummary.t) : JsValue :=
  Date.diff (Date.ofString (parse (DailySummary.date b)))
    (Date.ofString (parse (DailySummary.date a))).

Definition Dashboard (apiData : ApiData) (cardView : CardView)
  (consumptionFilter : option ConsumptionFilter) (timeFrame : Z)
  : completion Rendered :=
  let recentReadings := orDefault [] (recentReadings apiData) in
  let dailySummaries := orDefault [] (dailySummaries apiData) in
  let anomalies := orDefault [] (anomalies apiData) in
  let consumptionByDevice := orDefault Obj.empty (consumptionByDevice apiData) in
  todaySummary <-
    (summaries <- target dailySummaries ;;
     Normal (find (fun s => String.eqb (DailySummary.date s) today) summaries)) ;;
  yesterdaySummary <-
    (summaries <- target dailySummaries ;;
     Normal (find (fun s => String.eqb (DailySummary.date s) yesterday) summaries)) ;;
  consumptionTrendData <-
    (readings <- target recentReadings ;;
     aggregateConsumptionByTime LocalTZA parse now readings timeFrame) ;;
  deviceConsumptionBarData <-
    (readings <- target recentReadings ;;
     Normal (aggregateConsumptionByDevice parse now readings 1)) ;;
  pieLabels <-
    (o <- target consumptionByDevice ;; Normal (Obj.keys arrayIndex o)) ;;
  pieData <-
    (o <- target consumptionByDevice ;;
     Normal (Obj.values String.eqb arrayIndex inherited o)) ;;
  filteredReadings <-
    (readings <- target recentReadings ;;
     Normal (getFilteredReadings parse readings cardView consumptionFilter)) ;;
  anomalyCount <- (a <- target anomalies ;; Normal (List.length a)) ;;
  anomalyList <- (a <- target anomalies ;; Normal (firstn 5 a)) ;;
  summaryRows <-
    (summaries <- target dailySummaries ;; Normal (sortWith byDay summaries)) ;;
  Normal {|
    todaySummary := todaySummary;
    yesterdaySummary := yesterdaySummary;
    lineChartData := consumptionTrendData;
    barChartData := deviceConsumptionBarData;
    pieChartLabels := pieLabels;
    pieChartData := pieData;
    filteredReadings := filteredReadings;
    anomalyCount := anomalyCount;
    anomalyList := anomalyList;
    summaryRows := summaryRows;
    readingCards :=
      map (fun item => (item, generateSmartSuggestion (consumption_kwh item)))
        (firstn 20 filteredReadings)
  |}.
End Component.

(** ** Notions used in the statements *)

(** Two readings in descending order of consumption. *)
Definition descending (a b : Reading) : Prop :=
  consumption_kwh b <= consumption_kwh a.

(** The number that a value is, 0 if it is none. *)
Definition valueOf (v : JsValue) : Q :=
  match v with
  | Num q => q
  | _ => 0
  end.

Definition Qsum (l : list Q) : Q := fold_right Qplus 0 l.

(** The sum of the numbers that an object holds. *)
Definition objSum {K : Type} (o : Obj.t (K := K)) : Q :=
  Qsum (map (fun kv => valueOf (snd kv)) o).

(** Every own property holds a number. *)
Definition numeric {K : Type} (o : Obj.t (K := K)) : Prop :=
  Forall (fun kv => exists q, snd kv = Num q) o.

(** The cutoff of a window of [hours] hours: [Date.now() - hours * 60 * 60 * 1000] *)
Definition cutoff (now hours : Z) : Z := (now - hours * 60 * 60 * 1000)%Z.

(** The readings that the aggregators keep: those whose timestamp denotes
    an instant later than [startTime]. *)
Definition kept (parse : string -> option Z) (startTime : Date.t) (item : Reading)
  : bool :=
  Date.gt (Date.ofString (parse (timestamp item))) startTime.

Definition inWindow (parse : string -> option Z) (now hours : Z) (item : Reading)
  : bool :=
  kept parse (startTimeOf now hours) item.

(** The host's zone keeps one offset from UTC. *)
Definition fixedZone (LocalTZA : Z -> bool -> Z) (offset : Z) : Prop :=
  forall time isUTC, LocalTZA time isUTC = offset.

(** An instant that a [Date] can hold. *)
Definition validTime (time : Z) : Prop := (Z.abs time <= Date.maxTime)%Z.

(** A reading whose timestamp denotes an instant later than [instant]. *)
Definition laterThan (parse : string -> option Z) (instant : Z) (item : Reading)
  : bool :=
  match Date.ofString (parse (timestamp item)) with
  | Some time => (instant <? time)%Z
  | None => false
  end.

(** The start of the minute of UTC that holds an instant. *)
Definition minuteStart (time : Z) : Z := (time - time mod Date.msPerMinute)%Z.

(** The instant at which the local minute of an instant starts, as the
    host has it: the local time, less its seconds, read as a local time. *)
Definition localMinute (LocalTZA : Z -> bool -> Z) (time : Z) : Z :=
  Date.UTC LocalTZA (minuteStart (Date.LocalTime LocalTZA time)).

(** The zone of a host, with or without daylight saving time: its offsets
    from UTC lie between [lo] and [hi], less than a day away. *)
Definition hostZone (LocalTZA : Z -> bool -> Z) (lo hi : Z) : Prop :=
  ((- Date.msPerDay <= lo)%Z /\ (hi <= Date.msPerDay)%Z) /\
  (forall time isUTC, (lo <= LocalTZA time isUTC <= hi)%Z).

(** A reading whose timestamp, if it denotes an instant, denotes one that
    is [margin] or more before the last instant that a date can hold (in
    September of the year 275760). *)
Definition beforeEnd (parse : string -> option Z) (margin : Z) (item : Reading)
  : Prop :=
  forall time,
    Date.ofString (parse (timestamp item)) = Some time ->
    (time + margin <= Date.maxTime)%Z.

(** The multiple of [1 / 2^k] that a number is, if it is one. *)
Definition unitsOf (k : nat) (q : Q) : option Z :=
  let n := (Qnum q * 2 ^ Z.of_nat k)%Z in
  if (n mod Zpos (Qden q) =? 0)%Z then Some (n / Zpos (Qden q))%Z else None.

(** The sum of the absolute values of the consumptions, in units of
    [1 / 2^k], if they all are multiples of it. *)
Fixpoint magnitude (k : nat) (readings : list Reading) : option Z :=
  match readings with
  | [] => Some 0%Z
  | item :: rest =>
      match unitsOf k (consumption_kwh item), magnitude k rest with
      | Some n, Some total => Some (Z.abs n + total)%Z
      | _, _ => None
      end
  end.

(** Consumptions that the binary floating point arithmetic of the language
    adds with no rounding, in whatever order and grouping: they are
    multiples of [1 / 2^k] whose absolute values add up to less than
    [2^53] units, so that every sum of some of them has 53 bits at most. *)
Definition exactSums (k : nat) (readings : list Reading) : bool :=
  (k <=? 1074)%nat
  && match magnitude k readings with
     | Some total => (total <? 2 ^ 53)%Z
     | None => false
     end.

(** The payload with each missing key holding the empty collection. *)
Definition withDefaults (apiData : ApiData) : ApiData :=
  {| recentReadings := orDefault [] (recentReadings apiData);
     dailySummaries := orDefault [] (dailySummaries apiData);
     anomalies := orDefault [] (anomalies apiData);
     consumptionByDevice := orDefault Obj.empty (consumptionByDevice apiData) |}.

(** No key of the payload holds [null]. *)
Definition noNull (apiData : ApiData) : Prop :=
  recentReadings apiData <> Null /\
  dailySummaries apiData <> Null /\
  anomalies apiData <> Null /\
  consumptionByDevice apiData <> Null.

(** The payload with no key, and the one with four empty collections. *)
Definition noKeys : ApiData :=
  {| recentReadings := Missing; dailySummaries := Missing;
     anomalies := Missing; consumptionByDevice := Missing |}.

Definition allEmpty : ApiData :=
  {| recentReadings := Holds []; dailySummaries := Holds [];
     anomalies := Holds []; consumptionByDevice := Holds Obj.empty |}.

(** What the component shows when there is nothing to show. *)
Definition nothing : Rendered :=
  {| todaySummary := None; yesterdaySummary := None;
     lineChartData := {| labels := []; values := [] |};
     barChartData := {| labels := []; values := [] |};
     pieChartLabels := []; pieChartData := [];
     filteredReadings := []; anomalyCount := O; anomalyList := [];
     summaryRows := []; readingCards := [] |}.

(** The heap [h'] is the heap [h] with new arrays after it: the readings and
    the arrays of [h] are as they were. *)
Definition extends (h h' : Heap.t) : Prop :=
  Heap.objects h' = Heap.objects h /\
  exists more, Heap.arrays h' = Heap.arrays h ++ more.

(** ** Sample data *)
Module Sample.
Open Scope string_scope.

(** a host on UTC *)
Definition utc (time : Z) (isUTC : bool) : Z := 0%Z.

(** [Date.parse] on the timestamps of the samples *)
Definition parse (s : string) : option Z :=
  if String.eqb s "2024-01-01T11:00:45.000Z" then Some 1704106845000%Z
  else if String.eqb s "2024-01-01T11:55:30.000Z" then Some 1704110130000%Z
  else if String.eqb s "2024-01-01T11:55:10.000Z" then Some 1704110110000%Z
  else if String.eqb s "2024-01-01T10:00:00.000Z" then Some 1704103200000%Z
  else None.

(** 2024-01-01T12:00:30.000Z *)
Definition now : Z := 1704110430000%Z.

Definition reading (device time : string) (kwh : Q) (anomaly : bool) : Reading :=
  {| device_id := device; location := "Kitchen"; timestamp := time;
     consumption_kwh := kwh; status := "ON"; anomaly_detected := anomaly |}.

(** fifteen seconds inside the window of one hour *)
Definition early : Reading := reading "A" "2024-01-01T11:00:45.000Z" 6 false.

Definition readings : list Reading :=
  [ reading "A" "2024-01-01T11:55:30.000Z" 6 false;
    reading "B" "2024-01-01T11:55:10.000Z" 1 true;
    reading "C" "2024-01-01T10:00:00.000Z" 3 false;
    reading "D" "not a date" (7 # 2) true ].

(** two devices with the same total *)
Definition tied : list Reading :=
  [ reading "A" "2024-01-01T11:55:30.000Z" 1 false;
    reading "B" "2024-01-01T11:55:10.000Z" 1 false ].

(** a device named like a member of [Object.prototype] *)
Definition oddlyNamed : list Reading :=
  [ reading "constructor" "2024-01-01T11:55:30.000Z" 6 false ].

(** one array, which holds the four readings *)
Definition heap : Heap.t :=
  {| Heap.objects := fun r => nth r readings early;
     Heap.arrays := [[0; 1; 2; 3]%nat] |}.

(** a payload whose readings are [null] *)
Definition nullReadings : ApiData :=
  {| recentReadings := Null; dailySummaries := Holds [];
     anomalies := Holds []; consumptionByDevice := Holds Obj.empty |}.

(** a payload with the readings and nothing else *)
Definition readingsOnly : ApiData :=
  {| recentReadings := Holds readings; dailySummaries := Missing;
     anomalies := Missing; consumptionByDevice := Missing |}.
End Sample.


(** A host with daylight saving time, and a reading in the hour that its
    clocks show twice. *)
Module Hosts.
Open Scope string_scope.

(** 2024-03-10T07:00:00Z and 2024-11-03T06:00:00Z, between which New York
    keeps daylight saving time in 2024 *)
Definition dstStart : Z := 1710054000000%Z.
Definition dstEnd : Z := 1730613600000%Z.

Definition edt : Z := (-4 * Date.msPerHour)%Z.
Definition est : Z := (-5 * Date.msPerHour)%Z.

(** New York, with the rule of 2024.  A local time that the clocks skip or
    show twice is read with the offset before the transition. *)
Definition newYork (time : Z) (isUTC : bool) : Z :=
  if isUTC then
    if (dstStart <=? time)%Z && (time <? dstEnd)%Z then edt else est
  else
    if (dstStart + edt <=? time)%Z && (time <? dstEnd + edt)%Z then edt else est.

Definition parse (s : string) : option Z :=
  if String.eqb s "2024-11-03T06:30:10.000Z" then Some 1730615410000%Z
  else None.

(** 2024-11-03T07:00:00.000Z, one hour after the clocks went back *)
Definition now : Z := 1730617200000%Z.

(** 01:30:10 in New York, for the second time *)
Definition repeated : Reading :=
  Sample.reading "A" "2024-11-03T06:30:10.000Z" 6 false.
End Hosts.
(** ** Further notions used in the statements *)

(** The instant that the timestamp of a reading denotes, 0 if none. *)
Definition timeOf (parse : string -> option Z) (item : Reading) : Z :=
  match Date.ofString (parse (timestamp item)) with
  | Some time => time
  | None => 0%Z
  end.

(** A reading whose timestamp denotes an instant. *)
Definition dated (parse : string -> option Z) (item : Reading) : Prop :=
  exists time, Date.ofString (parse (timestamp item)) = Some time.

(** A reading whose timestamp falls in the minute that starts at [label]. *)
Definition inMinute (parse : string -> option Z) (label : Z) (item : Reading)
  : bool :=
  match Date.ofString (parse (timestamp item)) with
  | Some time => (minuteStart time =? label)%Z
  | None => false
  end.

(** A reading of a device. *)
Definition ofDevice (device : string) (item : Reading) : bool :=
  String.eqb (device_id item) device.

(** The number that an object holds under a key of its own, 0 if none. *)
Definition ownValue {K : Type} (eqb : K -> K -> bool) (o : Obj.t) (k : K) : Q :=
  match Obj.own eqb o k with
  | Some v => valueOf v
  | None => 0
  end.

(** The first instant of the year 10000: from there on an ISO string has
    a sign and six digits of year, and the order of the strings is no
    longer the order of the instants. *)
Definition year10000 : Z := 253402300800000%Z.

(** The categories of the rule, from low to high. *)
Definition rank (s : Suggestion) : nat :=
  match s with
  | LowUsage => 0
  | ModerateUsage => 1
  | HighUsage => 2
  end.

(** The category of a consumption filter. *)
Definition categoryOf (f : ConsumptionFilter) : Suggestion :=
  match f with
  | high => HighUsage
  | medium => ModerateUsage
  | low => LowUsage
  end.

(** ** The table of the daily summaries, on a heap

    The component sorts [dailySummaries] where it stands: the array of the
    payload when the payload has one.  [h] holds the arrays of summaries,
    a reference is the index of its array. *)
Module Table.
Definition ref : Type := nat.

Definition store : Type := list (list DailySummary.t).

Definition array (h : store) (a : ref) : list DailySummary.t := nth a h [].

Fixpoint update (h : store) (a : ref) (elements : list DailySummary.t) : store :=
  match h, a with
  | [], _ => []
  | _ :: rest, O => elements :: rest
  | x :: rest, S a' => x :: update rest a' elements
  end.

(** [a.sort(comparefn)], in place *)
Definition sortArray (h : store) (a : ref)
  (comparefn : DailySummary.t -> DailySummary.t -> JsValue) : store :=
  update h a (sortWith comparefn (array h a)).

(** What a render reads from and does to [dailySummaries]: the summaries of
    today and of yesterday are looked up, then the array is sorted and its
    rows are shown. *)
Definition render (parse : string -> option Z) (today yesterday : string)
  (h : store) (dailySummaries : ref)
  : (option DailySummary.t * option DailySummary.t * list DailySummary.t) * store :=
  let todaySummary :=
    find (fun s => String.eqb (DailySummary.date s) today) (array h dailySummaries) in
  let yesterdaySummary :=
    find (fun s => String.eqb (DailySummary.date s) yesterday)
      (array h dailySummaries) in
  let h := sortArray h dailySummaries (byDay parse) in
  ((todaySummary, yesterdaySummary, array h dailySummaries), h).
End Table.

(** The instant that the date of a summary denotes, 0 if none. *)
Definition dayOf (parse : string -> option Z) (s : DailySummary.t) : Z :=
  match Date.ofString (parse (DailySummary.date s)) with
  | Some time => time
  | None => 0%Z
  end.

(** A summary whose date denotes an instant. *)
Definition dayed (parse : string -> option Z) (s : DailySummary.t) : Prop :=
  exists time, Date.ofString (parse (DailySummary.date s)) = Some time.

(** The summary of a day. *)
Definition ofDay (day : string) (s : DailySummary.t) : bool :=
  String.eqb (DailySummary.date s) day.

(** ** The application: fetching and choosing the view *)
From Stdlib Require Import DecimalString.

Module App.
(** What [response.json()] gives, as far as the application looks at it:
    an array by its length, an object by the four keys of the dashboard
    and the number of its other keys. *)
Inductive Body : Type :=
| BodyNull
| BodyBool (b : bool)
| BodyNumber (q : Q)
| BodyString (s : string)
| BodyArray (length : nat)
| BodyObject (fields : ApiData) (others : nat).

(** How a call of [fetchData] ends: [fetch] rejects, or it gives a response
    with a status, whose body parses as JSON or does not. *)
Inductive Outcome : Type :=
| Rejected (message : string)
| Responded (status : nat) (json : string + Body).

Record State : Type := {
  apiData : Body;
  isLoading : bool;
  error : option string
}.

(** [useState(null)], [useState(true)], [useState(null)] *)
Definition initial : State :=
  {| apiData := BodyNull; isLoading := true; error := None |}.

(** [response.ok] *)
Definition ok (status : nat) : bool :=
  (200 <=? status)%nat && (status <=? 299)%nat.

Definition httpError (status : nat) : string :=
  ("HTTP error! status: " ++ NilEmpty.string_of_uint (Nat.to_uint status))%string.

Definition failed (s : State) (message : string) : State :=
  {| apiData := apiData s; isLoading := false; error := Some message |}.

(** The state after a call of [fetchData] has come to its end. *)
Definition fetchData (s : State) (o : Outcome) : State :=
  match o with
  | Rejected message => failed s message
  | Responded status json =>
      if ok status then
        match json with
        | inr data => {| apiData := data; isLoading := false; error := error s |}
        | inl message => failed s message
        end
      else failed s (httpError status)
  end.

(** The state after the calls that have ended so far, in the order in
    which they ended. *)
Definition run (outcomes : list Outcome) : State :=
  fold_left fetchData outcomes initial.

Definition truthy (data : Body) : bool :=
  match data with
  | BodyNull => false
  | BodyBool b => b
  | BodyNumber q => negb (Qeq_bool q 0)
  | BodyString s => negb (String.eqb s EmptyString)
  | BodyArray _ => true
  | BodyObject _ _ => true
  end.

Definition present {A : Type} (p : Property A) : nat :=
  match p with
  | Missing => 0
  | _ => 1
  end.

(** [Object.keys(data).length] *)
Definition keysLength (data : Body) : nat :=
  match data with
  | BodyNull => 0
  | BodyBool _ => 0
  | BodyNumber _ => 0
  | BodyString s => String.length s
  | BodyArray length => length
  | BodyObject fields others =>
      present (recentReadings fields) + present (dailySummaries fields)
      + present (anomalies fields) + present (consumptionByDevice fields) + others
  end.

(** The four keys as the destructuring in [Dashboard] finds them. *)
Definition fieldsOf (data : Body) : ApiData :=
  match data with
  | BodyObject fields _ => fields
  | _ => {| recentReadings := Missing; dailySummaries := Missing;
            anomalies := Missing; consumptionByDevice := Missing |}
  end.

Inductive View : Type :=
| Loading
| Failed (message : string)
| NoData
| Board (shown : completion Rendered).

(** A string is truthy when it is not empty. *)
Definition shownError (error : option string) : option string :=
  match error with
  | Some message => if String.eqb message EmptyString then None else Some message
  | None => None
  end.

Section Render.
Variable LocalTZA : Z -> bool -> Z.
Variable parse : string -> option Z.
Variable now : Z.
Variables today yesterday : string.
(** the state of the dashboard *)
Variable cardView : CardView.
Variable consumptionFilter : option ConsumptionFilter.
Variable timeFrame : Z.

Definition render (s : State) : View :=
  if isLoading s then Loading
  else match shownError (error s) with
       | Some message => Failed message
       | None =>
           if negb (truthy (apiData s)) || (keysLength (apiData s) =? 0)%nat
           then NoData
           else Board (Dashboard LocalTZA parse now today yesterday
                         (fieldsOf (apiData s)) cardView consumptionFilter timeFrame)
       end.
End Render.
End App.

(** The message of a call that failed. *)
Definition failure (o : App.Outcome) : option string :=
  match o with
  | App.Rejected message => Some message
  | App.Responded status json =>
      if App.ok status then
        match json with
        | inl message => Some message
        | inr _ => None
        end
      else Some (App.httpError status)
  end.

(** The body of a call that succeeded. *)
Definition success (o : App.Outcome) : option App.Body :=
  match o with
  | App.Responded status (inr data) => if App.ok status then Some data else None
  | _ => None
  end.

(** The last element of a list that [f] maps to something. *)
Definition lastSome {A B : Type} (f : A -> option B) (l : list A) : option B :=
  fold_left (fun found x => match f x with Some b => Some b | None => found end)
    l None.


(** ** The controls of the dashboard

    The state of the component and the buttons that change it: five for
    the time frame, three for the view and three for the consumption
    filter, which are rendered in the consumption view only. *)
Module Controls.
Inductive TimeFrame : Type :=
| hour1
| hours3
| hours6
| hours12
| hours24.

Definition hoursOf (choice : TimeFrame) : Z :=
  match choice with
  | hour1 => 1
  | hours3 => 3
  | hours6 => 6
  | hours12 => 12
  | hours24 => 24
  end%Z.

Inductive Button : Type :=
| TimeFrameButton (choice : TimeFrame)
| ViewButton (view : CardView)
| ConsumptionButton (tier : ConsumptionFilter).

Record State : Type := {
  cardView : CardView;
  consumptionFilter : option ConsumptionFilter;
  timeFrame : Z
}.

(** [useState('date')], [useState(null)], [useState(1)] *)
Definition initial : State :=
  {| cardView := view_date; consumptionFilter := None; timeFrame := 1%Z |}.

(** [cardView === 'consumption' && ...] for the consumption buttons *)
Definition rendered (s : State) (b : Button) : bool :=
  match b with
  | ConsumptionButton _ =>
      match cardView s with
      | view_consumption => true
      | _ => false
      end
  | _ => true
  end.

Definition onClick (s : State) (b : Button) : State :=
  match b with
  | TimeFrameButton choice =>
      {| cardView := cardView s; consumptionFilter := consumptionFilter s;
         timeFrame := hoursOf choice |}
  | ViewButton view =>
      {| cardView := view; consumptionFilter := consumptionFilter s;
         timeFrame := timeFrame s |}
  | ConsumptionButton tier =>
      {| cardView := cardView s; consumptionFilter := Some tier;
         timeFrame := timeFrame s |}
  end.

(** A click on a button of the screen; a button that is not rendered
    cannot be clicked. *)
Definition click (s : State) (b : Button) : State :=
  if rendered s b then onClick s b else s.

Definition run (clicks : list Button) : State := fold_left click clicks initial.
End Controls.

(** ** More sample data *)
Module Payloads.
Open Scope string_scope.

Definition totals : Obj.t (K := string) :=
  [ ("fridge", Num 3); ("7", Num 1); ("oven", Num 2) ].

(** a payload with the totals of the devices and nothing else *)
Definition totalsOnly : ApiData :=
  {| recentReadings := Missing; dailySummaries := Missing;
     anomalies := Missing; consumptionByDevice := Holds totals |}.

(** a payload whose totals are [null] *)
Definition nullTotals : ApiData :=
  {| recentReadings := Holds Sample.readings; dailySummaries := Missing;
     anomalies := Holds []; consumptionByDevice := Null |}.

Definition summary (day : string) (kwh : Q) : DailySummary.t :=
  {| DailySummary.date := day; DailySummary.total_consumption_kwh := kwh;
     DailySummary.total_cost_usd := kwh * (3 # 20);
     DailySummary.peak_device_daily := Some "A";
     DailySummary.peak_device_consumption_daily := Some kwh |}.

(** the days as the calendar of [Sample.parse] knows them *)
Definition parseDay (s : string) : option Z :=
  if String.eqb s "2023-12-30" then Some 1703894400000%Z
  else if String.eqb s "2023-12-31" then Some 1703980800000%Z
  else if String.eqb s "2024-01-01" then Some 1704067200000%Z
  else None.

(** a store of one array, which holds three summaries, two of one day *)
Definition table : Table.store :=
  [ [ summary "2023-12-31" 40; summary "2024-01-01" 12; summary "2023-12-30" 35;
      summary "2024-01-01" 13 ] ].

(** a call that got the answer 503, one that got a payload with the
    readings, and one that got an object of two keys the dashboard does not
    know *)
Definition unavailable : App.Outcome :=
  App.Responded 503 (inr (App.BodyObject Sample.readingsOnly 0)).

Definition answered : App.Outcome :=
  App.Responded 200 (inr (App.BodyObject Sample.readingsOnly 0)).

Definition unknownKeys : App.Outcome :=
  App.Responded 200 (inr (App.BodyObject noKeys 2)).

(** six devices in the window, the sixth of least consumption *)
Definition six : list Reading :=
  [ Sample.reading "A" "2024-01-01T11:55:30.000Z" 6 false;
    Sample.reading "B" "2024-01-01T11:55:30.000Z" 5 false;
    Sample.reading "C" "2024-01-01T11:55:30.000Z" 4 false;
    Sample.reading "D" "2024-01-01T11:55:30.000Z" 3 false;
    Sample.reading "E" "2024-01-01T11:55:30.000Z" 2 false;
    Sample.reading "F" "2024-01-01T11:55:30.000Z" (1 # 2) false ].

(** three readings, two of them of one instant *)
Definition twins : list Reading :=
  [ Sample.reading "A" "2024-01-01T11:55:30.000Z" 6 false;
    Sample.reading "C" "2024-01-01T10:00:00.000Z" 3 false;
    Sample.reading "B" "2024-01-01T11:55:30.000Z" 1 true ].
End Payloads.
(** * Properties *)

(** ** The functions on the sample data

    At 12:00:30, with a window of one hour: the readings of A and B fall
    in the minute 11:55, the reading of C is too old and the timestamp of D
    denotes no instant. *)

Example sample_trend :
  aggregateConsumptionByTime Sample.utc Sample.parse Sample.now Sample.readings 1
  = Normal {| labels := [1704110100000%Z]; values := [Num 7] |}.
Proof. vm_compute. reflexivity. Qed.

Example sample_ranking :
  aggregateConsumptionByDevice Sample.parse Sample.now Sample.readings 1
  = {| labels := ["A"; "B"]%string; values := [Num 6; Num 1] |}.
Proof. vm_compute. reflexivity. Qed.

Example sample_high_tier :
  getFilteredReadings Sample.parse Sample.readings view_date (Some high)
  = [Sample.reading "A" "2024-01-01T11:55:30.000Z" 6 false].
Proof. vm_compute. reflexivity. Qed.

Example sample_by_date :
  map device_id
    (getFilteredReadings Sample.parse (rev (firstn 3 Sample.readings)) view_date None)
  = ["A"; "B"; "C"]%string.
Proof. vm_compute. reflexivity. Qed.

(** The fields of 2000-02-29T12:34:56.789Z on a host on UTC, and the date
    that the constructor makes of a year below 100. *)
Example sample_fields :
  let d := Date.ofNumber 951827696789%Z in
  (Date.getFullYear Sample.utc d, Date.getMonth Sample.utc d,
   Date.getDate Sample.utc d, Date.getHours Sample.utc d,
   Date.getMinutes Sample.utc d)
  = (Some 2000, Some 1, Some 29, Some 12, Some 34)%Z.
Proof. vm_compute. reflexivity. Qed.

Example sample_minute_key :
  minuteKeyOf Sample.utc (Date.ofNumber 951827696789%Z) = Normal 951827640000%Z.
Proof. vm_compute. reflexivity. Qed.

Example sample_two_digit_year :
  Date.ofFields Sample.utc (Some 50%Z) (Some 0%Z) (Some 1%Z) (Some 0%Z) (Some 0%Z)
  = Some (-631152000000)%Z.
Proof. vm_compute. reflexivity. Qed.

(** The total of a device named like a member of [Object.prototype] is
    not a number: [+] appends to the member that the lookup finds. *)
Example sample_inherited_name :
  aggregateConsumptionByDevice Sample.parse Sample.now Sample.oddlyNamed 1
  = {| labels := ["constructor"%string]; values := [Other] |}.
Proof. vm_compute. reflexivity. Qed.

(** ** Comparisons on rationals *)

Lemma Qltb_lt (x y : Q) : Qltb x y = true <-> x < y.
Proof.
  unfold Qltb. rewrite negb_true_iff. split.
  - intros H. apply Qnot_le_lt. intros Hle.
    apply Qle_bool_iff in Hle. congruence.
  - intros H. destruct (Qle_bool y x) eqn:E; [|reflexivity].
    apply Qle_bool_iff in E. exfalso. exact (Qlt_not_le _ _ H E).
Qed.

Lemma Qltb_ge (x y : Q) : Qltb x y = false <-> y <= x.
Proof.
  unfold Qltb. rewrite negb_false_iff. apply Qle_bool_iff.
Qed.

Lemma positive_minus (a b : Q) : positive (minus (Num b) (Num a)) = Qltb a b.
Proof.
  simpl. apply eq_true_iff_eq. rewrite !Qltb_lt.
  rewrite <- (Qlt_minus_iff a b). reflexivity.
Qed.

(** ** The suggestion rule *)

Lemma advice_injective (s s' : Suggestion) : advice s = advice s' -> s = s'.
Proof. destruct s, s'; simpl; intros H; try reflexivity; discriminate H. Qed.

Lemma suggestion_high (x : Q) :
  5 < x -> generateSmartSuggestion x = advice HighUsage.
Proof.
  intros H. unfold generateSmartSuggestion.
  apply Qltb_lt in H. rewrite H. reflexivity.
Qed.

Lemma suggestion_moderate (x : Q) :
  2 <= x -> x <= 5 -> generateSmartSuggestion x = advice ModerateUsage.
Proof.
  intros H2 H5. unfold generateSmartSuggestion.
  apply Qltb_ge in H5. rewrite H5.
  apply Qle_bool_iff in H2. rewrite H2.
  apply Qltb_ge in H5. apply Qle_bool_iff in H5. rewrite H5. reflexivity.
Qed.

Lemma suggestion_low (x : Q) :
  x < 2 -> generateSmartSuggestion x = advice LowUsage.
Proof.
  intros H. unfold generateSmartSuggestion.
  assert (H5 : Qltb 5 x = false).
  { apply Qltb_ge. apply Qlt_le_weak. apply Qlt_trans with 2; [exact H|reflexivity]. }
  rewrite H5.
  assert (H2 : Qle_bool 2 x = false).
  { apply Qltb_lt in H. unfold Qltb in H. apply negb_true_iff in H. exact H. }
  rewrite H2. reflexivity.
Qed.

(** C6.  The rule has the stated boundaries: above 5 the advice is the one
    for high usage, from 2 to 5 (both included) the one for moderate usage,
    and for every other consumption (below 2, negative or not) the one for
    low usage; so 5.0 and 2.0 are moderate, 5.01 is high and 1.99 is low. *)
Theorem suggestion_boundaries (x : Q) :
  (5 < x -> generateSmartSuggestion x = advice HighUsage) /\
  (2 <= x /\ x <= 5 -> generateSmartSuggestion x = advice ModerateUsage) /\
  (~ 5 < x -> ~ (2 <= x /\ x <= 5) ->
   x < 2 /\ generateSmartSuggestion x = advice LowUsage) /\
  generateSmartSuggestion 5 = advice ModerateUsage /\
  generateSmartSuggestion (501 # 100) = advice HighUsage /\
  generateSmartSuggestion 2 = advice ModerateUsage /\
  generateSmartSuggestion (199 # 100) = advice LowUsage.
Proof.
  split; [apply suggestion_high|].
  split; [intros [H2 H5]; apply suggestion_moderate; assumption|].
  split.
  - intros Hhigh Hmid.
    assert (Hlow : x < 2).
    { apply Qnot_le_lt. intros H2. apply Hmid. split; [exact H2|].
      apply Qnot_lt_le. exact Hhigh. }
    split; [exact Hlow|apply suggestion_low; exact Hlow].
  - repeat split; reflexivity.
Qed.

Lemma suggestion_boundaries_witness :
  generateSmartSuggestion 6 = advice HighUsage /\
  generateSmartSuggestion 3 = advice ModerateUsage /\
  generateSmartSuggestion (-1) = advice LowUsage.
Proof.
  split; [|split].
  - apply (proj1 (suggestion_boundaries 6)). reflexivity.
  - apply (proj1 (proj2 (suggestion_boundaries 3))).
    split; discriminate.
  - apply (proj1 (proj2 (proj2 (suggestion_boundaries (-1))))).
    + intros H. discriminate H.
    + intros [H _]. apply H. reflexivity.
Defined.

(** ** The stable sort *)
Section SortFacts.
Context {A : Type}.
Variable after : A -> A -> bool.

Lemma insert_perm (x : A) (l : list A) :
  Permutation (x :: l) (insert after x l).
Proof.
  induction l as [|y l IH]; simpl.
  - apply Permutation_refl.
  - destruct (after x y).
    + apply Permutation_trans with (y :: x :: l).
      * apply perm_swap.
      * apply perm_skip. exact IH.
    + apply Permutation_refl.
Qed.

Lemma sort_perm (l : list A) : Permutation l (sort after l).
Proof.
  induction l as [|x l IH]; simpl.
  - apply perm_nil.
  - apply Permutation_trans with (x :: sort after l).
    + apply perm_skip. exact IH.
    + apply insert_perm.
Qed.

Lemma sort_In (x : A) (l : list A) : In x (sort after l) <-> In x l.
Proof.
  split; apply Permutation_in.
  - apply Permutation_sym. apply sort_perm.
  - apply sort_perm.
Qed.

Lemma sort_length (l : list A) : List.length (sort after l) = List.length l.
Proof. symmetry. apply Permutation_length. apply sort_perm. Qed.

Variable R : A -> A -> Prop.
Hypothesis R_trans : forall x y z, R x y -> R y z -> R x z.
Hypothesis after_false : forall x y, after x y = false -> R x y.
Hypothesis after_true : forall x y, after x y = true -> R y x.

Lemma insert_sorted (x : A) (l : list A) :
  StronglySorted R l -> StronglySorted R (insert after x l).
Proof.
  induction 1 as [|y l Hl IH Hy]; simpl.
  - constructor; constructor.
  - destruct (after x y) eqn:E.
    + constructor; [exact IH|].
      apply (Permutation_Forall (insert_perm x l)).
      constructor; [apply after_true; exact E|exact Hy].
    + assert (Hxy : R x y) by (apply after_false; exact E).
      constructor.
      * constructor; assumption.
      * constructor; [exact Hxy|].
        apply Forall_impl with (P := R y); [|exact Hy].
        intros z Hz. exact (R_trans _ _ _ Hxy Hz).
Qed.

Lemma sort_sorted (l : list A) : StronglySorted R (sort after l).
Proof.
  induction l as [|x l IH]; simpl.
  - constructor.
  - apply insert_sorted. exact IH.
Qed.
End SortFacts.

Lemma map_insert {A B : Type} (f : A -> B) (after : B -> B -> bool)
  (x : A) (l : list A) :
  map f (insert (fun a b => after (f a) (f b)) x l) = insert after (f x) (map f l).
Proof.
  induction l as [|y l IH]; simpl.
  - reflexivity.
  - destruct (after (f x) (f y)); simpl; [rewrite IH|]; reflexivity.
Qed.

Lemma map_sort {A B : Type} (f : A -> B) (after : B -> B -> bool) (l : list A) :
  map f (sort (fun a b => after (f a) (f b)) l) = sort after (map f l).
Proof.
  induction l as [|x l IH]; simpl.
  - reflexivity.
  - rewrite map_insert, IH. reflexivity.
Qed.

Lemma filter_sorted {A : Type} (R : A -> A -> Prop) (p : A -> bool) (l : list A) :
  StronglySorted R l -> StronglySorted R (filter p l).
Proof.
  induction 1 as [|x l Hl IH Hx]; simpl.
  - constructor.
  - destruct (p x).
    + constructor; [exact IH|].
      apply Forall_forall. intros y Hy. apply filter_In in Hy.
      rewrite Forall_forall in Hx. apply Hx. apply Hy.
    + exact IH.
Qed.

Lemma firstn_sorted {A : Type} (R : A -> A -> Prop) (n : nat) (l : list A) :
  StronglySorted R l -> StronglySorted R (firstn n l).
Proof.
  intros H. revert n. induction H as [|x l Hl IH Hx]; intros [|n]; simpl;
    try constructor.
  - apply IH.
  - apply Forall_forall. intros y Hy.
    rewrite Forall_forall in Hx. apply Hx.
    rewrite <- (firstn_skipn n l). apply in_or_app. left. exact Hy.
Qed.

Lemma filter_perm {A : Type} (p : A -> bool) (l l' : list A) :
  Permutation l l' -> Permutation (filter p l) (filter p l').
Proof.
  induction 1 as [|x l l' H IH|x y l|l l' l'' H1 IH1 H2 IH2]; simpl.
  - apply perm_nil.
  - destruct (p x); [apply perm_skip|]; exact IH.
  - destruct (p x), (p y); try apply Permutation_refl. apply perm_swap.
  - exact (Permutation_trans IH1 IH2).
Qed.

Lemma filter_split_perm {A : Type} (p : A -> bool) (l : list A) :
  Permutation l (filter p l ++ filter (fun x => negb (p x)) l).
Proof.
  induction l as [|x l IH]; simpl.
  - apply perm_nil.
  - destruct (p x); simpl.
    + apply perm_skip. exact IH.
    + apply Permutation_cons_app. exact IH.
Qed.

(** ** The filtered readings *)

Lemma sortWith_byConsumption_sorted (l : list Reading) :
  StronglySorted descending (sortWith byConsumption l).
Proof.
  apply sort_sorted; unfold descending, byConsumption.
  - intros x y z Hxy Hyz. exact (Qle_trans _ _ _ Hyz Hxy).
  - intros x y H. rewrite positive_minus in H. apply Qltb_ge in H. exact H.
  - intros x y H. rewrite positive_minus in H. apply Qltb_lt in H.
    apply Qlt_le_weak. exact H.
Qed.

(** C4.  In the anomalies view with no consumption filter, the closure
    returns exactly the readings whose [anomaly_detected] is set: each one
    returned has the flag, each one of the input that has it is returned,
    and they come in the order of the input (the result is the input with
    the others struck out). *)
Theorem anomalies_view_exact (parse : string -> option Z) (readings : list Reading) :
  let result := getFilteredReadings parse readings view_anomalies None in
  Forall (fun item => anomaly_detected item = true) result /\
  (forall item, In item readings /\ anomaly_detected item = true <-> In item result) /\
  result = filter anomaly_detected readings /\
  (forall item, anomaly_detected item = true ->
     forall before rest, readings = before ++ item :: rest ->
       result = getFilteredReadings parse before view_anomalies None
                  ++ item :: getFilteredReadings parse rest view_anomalies None).
Proof.
  simpl. unfold getFilteredReadings.
  split; [|split; [|split]].
  - apply Forall_forall. intros item H. apply filter_In in H. apply H.
  - intros item. rewrite filter_In. reflexivity.
  - reflexivity.
  - intros item Hitem before rest ->.
    rewrite filter_app. simpl. rewrite Hitem. reflexivity.
Qed.

Lemma anomalies_view_exact_witness :
  getFilteredReadings Sample.parse Sample.readings view_anomalies None
  = getFilteredReadings Sample.parse
      [Sample.reading "A" "2024-01-01T11:55:30.000Z" 6 false] view_anomalies None
    ++ Sample.reading "B" "2024-01-01T11:55:10.000Z" 1 true
       :: getFilteredReadings Sample.parse
            [Sample.reading "C" "2024-01-01T10:00:00.000Z" 3 false;
             Sample.reading "D" "not a date" (7 # 2) true] view_anomalies None.
Proof.
  apply (proj2 (proj2 (proj2 (anomalies_view_exact Sample.parse Sample.readings)))).
  - reflexivity.
  - reflexivity.
Defined.

(** C5.  In the consumption view with the filter on high, every reading
    returned has a consumption above 5.0, every reading of the input above
    5.0 is returned (as often as it occurs), and the result is in
    descending order of consumption. *)
Theorem high_consumption_view (parse : string -> option Z) (readings : list Reading) :
  let result := getFilteredReadings parse readings view_consumption (Some high) in
  Forall (fun item => 5 < consumption_kwh item) result /\
  (forall item, In item readings /\ 5 < consumption_kwh item <-> In item result) /\
  Permutation (filter isHigh readings) result /\
  StronglySorted descending result.
Proof.
  simpl. unfold getFilteredReadings. simpl.
  split; [|split; [|split]].
  - apply Forall_forall. intros item H. apply filter_In in H.
    apply Qltb_lt. apply H.
  - intros item. rewrite filter_In. unfold sortWith. rewrite sort_In.
    unfold isHigh. rewrite Qltb_lt. reflexivity.
  - apply filter_perm. apply sort_perm.
  - apply filter_sorted. apply sortWith_byConsumption_sorted.
Qed.

(** ** The three tiers *)

Lemma tier_cases (item : Reading) :
  (5 < consumption_kwh item /\
   isHigh item = true /\ isMedium item = false /\ isLow item = false) \/
  (2 <= consumption_kwh item /\ consumption_kwh item <= 5 /\
   isHigh item = false /\ isMedium item = true /\ isLow item = false) \/
  (consumption_kwh item < 2 /\
   isHigh item = false /\ isMedium item = false /\ isLow item = true).
Proof.
  unfold isHigh, isMedium, isLow.
  set (c := consumption_kwh item).
  destruct (Qlt_le_dec 5 c) as [H5|H5].
  - left. split; [exact H5|]. split; [apply Qltb_lt; exact H5|]. split.
    + apply andb_false_iff. right.
      apply Qltb_lt in H5. unfold Qltb in H5. apply negb_true_iff in H5. exact H5.
    + apply Qltb_ge. apply Qlt_le_weak. apply Qlt_trans with 5; [reflexivity|exact H5].
  - right. destruct (Qlt_le_dec c 2) as [H2|H2].
    + right. split; [exact H2|]. split; [apply Qltb_ge; exact H5|]. split.
      * apply andb_false_iff. left.
        apply Qltb_lt in H2. unfold Qltb in H2. apply negb_true_iff in H2. exact H2.
      * apply Qltb_lt. exact H2.
    + left. split; [exact H2|]. split; [exact H5|].
      split; [apply Qltb_ge; exact H5|]. split.
      * apply andb_true_iff. split; apply Qle_bool_iff; assumption.
      * apply Qltb_ge. exact H2.
Qed.


Lemma getFilteredReadings_tier (parse : string -> option Z) (readings : list Reading)
  (cardView : CardView) (f : ConsumptionFilter) :
  getFilteredReadings parse readings cardView (Some f)
  = filter (tier f) (getFilteredReadings parse readings cardView None).
Proof. reflexivity. Qed.


(** ** Objects *)
Section ObjFacts.
Context {K : Type}.
Variable eqb : K -> K -> bool.
Hypothesis eqb_eq : forall a b, eqb a b = true <-> a = b.

Lemma eqb_refl (k : K) : eqb k k = true.
Proof. apply eqb_eq. reflexivity. Qed.

Lemma own_none (o : Obj.t) (k : K) :
  Obj.own eqb o k = None <-> ~ In k (map fst o).
Proof.
  induction o as [|[k' v'] o IH]; simpl.
  - tauto.
  - destruct (eqb k' k) eqn:E.
    + apply eqb_eq in E. split; [discriminate|]. intros H. exfalso. auto.
    + rewrite IH. split.
      * intros H [H'|H']; [|auto]. apply eqb_eq in H'. congruence.
      * tauto.
Qed.

Lemma own_In (o : Obj.t) (k : K) (v : JsValue) :
  NoDup (map fst o) -> In (k, v) o -> Obj.own eqb o k = Some v.
Proof.
  induction o as [|[k' v'] o IH]; simpl; intros Hnd Hin; [contradiction|].
  inversion Hnd as [|? ? Hnotin Hnd']; subst.
  destruct Hin as [Heq|Hin].
  - inversion Heq; subst. rewrite eqb_refl. reflexivity.
  - destruct (eqb k' k) eqn:E.
    + apply eqb_eq in E. subst k'. exfalso. apply Hnotin.
      apply (in_map fst) in Hin. exact Hin.
    + apply IH; assumption.
Qed.

Lemma own_some_In (o : Obj.t) (k : K) (v : JsValue) :
  Obj.own eqb o k = Some v -> In (k, v) o.
Proof.
  induction o as [|[k' v'] o IH]; simpl; [discriminate|].
  destruct (eqb k' k) eqn:E.
  - apply eqb_eq in E. intros H. inversion H; subst. left. reflexivity.
  - intros H. right. apply IH. exact H.
Qed.

Lemma put_keys (o : Obj.t) (k : K) (v : JsValue) :
  map fst (Obj.put eqb o k v)
  = if existsb (fun k' => eqb k' k) (map fst o) then map fst o
    else map fst o ++ [k].
Proof.
  induction o as [|[k' v'] o IH]; simpl.
  - reflexivity.
  - destruct (eqb k' k) eqn:E; simpl.
    + reflexivity.
    + rewrite IH. destruct (existsb _ _); reflexivity.
Qed.

Lemma put_keys_In (o : Obj.t) (k k' : K) (v : JsValue) :
  In k' (map fst (Obj.put eqb o k v)) <-> k' = k \/ In k' (map fst o).
Proof.
  rewrite put_keys. destruct (existsb _ _) eqn:E.
  - split; [tauto|]. intros [->|H]; [|exact H].
    apply existsb_exists in E. destruct E as (x & Hx & Hxk).
    apply eqb_eq in Hxk. subst x. exact Hx.
  - rewrite in_app_iff. simpl. intuition auto.
Qed.

Lemma put_NoDup (o : Obj.t) (k : K) (v : JsValue) :
  NoDup (map fst o) -> NoDup (map fst (Obj.put eqb o k v)).
Proof.
  intros Hnd. rewrite put_keys. destruct (existsb _ _) eqn:E; [exact Hnd|].
  apply NoDup_app; [exact Hnd|repeat constructor; intros []|].
  intros x Hx [Heq|[]]. subst x.
  assert (Hex : existsb (fun k' => eqb k' k) (map fst o) = true).
  { apply existsb_exists. exists k. split; [exact Hx|apply eqb_refl]. }
  congruence.
Qed.

Lemma put_numeric (o : Obj.t) (k : K) (q : Q) :
  numeric o -> numeric (Obj.put eqb o k (Num q)).
Proof.
  unfold numeric. induction 1 as [|[k' v'] o Hv Ho IH]; simpl.
  - repeat constructor. exists q. reflexivity.
  - destruct (eqb k' k).
    + constructor; [exists q; reflexivity|exact Ho].
    + constructor; assumption.
Qed.

(** Storing a value moves the sum by the difference with the value that
    was there. *)
Lemma put_sum (o : Obj.t) (k : K) (v : JsValue) :
  objSum (Obj.put eqb o k v)
  == objSum o + valueOf v
     - valueOf (match Obj.own eqb o k with Some w => w | None => Undefined end).
Proof.
  unfold objSum. induction o as [|[k' v'] o IH]; simpl.
  - ring.
  - destruct (eqb k' k); simpl.
    + ring.
    + rewrite IH. ring.
Qed.

Lemma numeric_own (o : Obj.t) (k : K) (v : JsValue) :
  numeric o -> Obj.own eqb o k = Some v -> exists q, v = Num q.
Proof.
  intros Hnum Hown. apply own_some_In in Hown.
  unfold numeric in Hnum. rewrite Forall_forall in Hnum.
  exact (Hnum _ Hown).
Qed.
End ObjFacts.

Lemma keys_perm {K : Type} (arrayIndex : K -> option N) (o : Obj.t) :
  Permutation (Obj.keys arrayIndex o) (map fst o).
Proof.
  unfold Obj.keys.
  apply Permutation_trans
    with (map snd (Obj.indexKeys arrayIndex o) ++ Obj.nameKeys arrayIndex o).
  - apply Permutation_app_tail. apply Permutation_map.
    apply Permutation_sym. apply sort_perm.
  - unfold Obj.indexKeys, Obj.nameKeys.
    induction o as [|[k v] o IH]; simpl.
    + apply perm_nil.
    + destruct (arrayIndex k); simpl.
      * apply perm_skip. exact IH.
      * apply Permutation_sym. apply Permutation_cons_app.
        apply Permutation_sym. exact IH.
Qed.

Lemma Qsum_perm (l l' : list Q) : Permutation l l' -> Qsum l == Qsum l'.
Proof.
  induction 1 as [|x l l' H IH|x y l|l l' l'' H1 IH1 H2 IH2]; simpl.
  - reflexivity.
  - rewrite IH. reflexivity.
  - ring.
  - rewrite IH1. exact IH2.
Qed.

Lemma numeric_values (vs : list JsValue) :
  Forall (fun v => exists q, v = Num q) vs -> vs = map Num (map valueOf vs).
Proof.
  induction 1 as [|v vs [q ->] H IH]; simpl.
  - reflexivity.
  - rewrite <- IH. reflexivity.
Qed.

(** ** The calendar *)

Lemma DayFromYear_estimate (y : Z) :
  (146097 * (y - 1970) - 506 <= 400 * Date.DayFromYear y
   <= 146097 * (y - 1970) + 589)%Z.
Proof.
  unfold Date.DayFromYear.
  pose proof (Z.div_mod (y - 1969) 4 ltac:(lia)).
  pose proof (Z.mod_pos_bound (y - 1969) 4 ltac:(lia)).
  pose proof (Z.div_mod (y - 1901) 100 ltac:(lia)).
  pose proof (Z.mod_pos_bound (y - 1901) 100 ltac:(lia)).
  pose proof (Z.div_mod (y - 1601) 400 ltac:(lia)).
  pose proof (Z.mod_pos_bound (y - 1601) 400 ltac:(lia)).
  lia.
Qed.

(** A year starts when the year before it ends. *)
Lemma DayFromYear_next (y : Z) :
  (Date.DayFromYear (y + 1) = Date.DayFromYear y + Date.DaysInYear y)%Z.
Proof.
  unfold Date.DayFromYear, Date.DaysInYear.
  replace (y + 1 - 1970)%Z with (y - 1970 + 1)%Z by lia.
  replace (y + 1 - 1969)%Z with (y - 1968)%Z by lia.
  replace (y + 1 - 1901)%Z with (y - 1900)%Z by lia.
  replace (y + 1 - 1601)%Z with (y - 1600)%Z by lia.
  destruct (Z.eqb_spec (y mod 4) 0) as [E4|E4];
    destruct (Z.eqb_spec (y mod 100) 0) as [E100|E100];
    destruct (Z.eqb_spec (y mod 400) 0) as [E400|E400]; cbn [negb];
    Z.div_mod_to_equations; lia.
Qed.

(** [YearFromDay] is the year in which a day falls. *)
Lemma YearFromDay_spec (day : Z) :
  (Date.DayFromYear (Date.YearFromDay day) <= day
   < Date.DayFromYear (Date.YearFromDay day + 1))%Z.
Proof.
  unfold Date.YearFromDay.
  set (y := (1970 + (400 * day) / 146097)%Z).
  pose proof (DayFromYear_estimate (y + 2)).
  pose proof (DayFromYear_estimate (y + 1)).
  pose proof (DayFromYear_estimate y).
  pose proof (DayFromYear_estimate (y - 1)).
  assert (Hy : (146097 * (y - 1970) <= 400 * day < 146097 * (y - 1970) + 146097)%Z).
  { unfold y. pose proof (Z.div_mod (400 * day) 146097 ltac:(lia)).
    pose proof (Z.mod_pos_bound (400 * day) 146097 ltac:(lia)). lia. }
  destruct (Date.DayFromYear (y + 1) <=? day)%Z eqn:E1.
  - apply Z.leb_le in E1. replace (y + 1 + 1)%Z with (y + 2)%Z by lia. lia.
  - apply Z.leb_gt in E1. destruct (Date.DayFromYear y <=? day)%Z eqn:E2.
    + apply Z.leb_le in E2. lia.
    + apply Z.leb_gt in E2. replace (y - 1 + 1)%Z with y by lia. lia.
Qed.

Lemma YearFromTime_recent (time : Z) :
  (0 <= time)%Z -> (1969 <= Date.YearFromTime time)%Z.
Proof.
  intros H. unfold Date.YearFromTime, Date.YearFromDay, Date.Day, Date.msPerDay.
  assert (Hd : (0 <= time / 86400000)%Z) by (apply Z.div_pos; lia).
  assert (Hy : (0 <= 400 * (time / 86400000) / 146097)%Z) by (apply Z.div_pos; lia).
  repeat match goal with
         | |- context [if ?c then _ else _] => destruct c
         end; lia.
Qed.

Lemma MonthFromTime_range (time : Z) : (0 <= Date.MonthFromTime time <= 11)%Z.
Proof.
  unfold Date.MonthFromTime.
  repeat match goal with
         | |- context [if ?c then _ else _] => destruct c
         end; lia.
Qed.

(** The year, the month and the date of a time give its day back. *)
Lemma MakeDay_fields (time : Z) :
  Date.MakeDay (Date.YearFromTime time) (Date.MonthFromTime time)
    (Date.DateFromTime time)
  = Date.Day time.
Proof.
  pose proof (MonthFromTime_range time) as Hm.
  unfold Date.MakeDay, Date.DateFromTime, Date.DayWithinYear, Date.InLeapYear.
  rewrite Z.div_small, Z.mod_small, Z.add_0_r by lia.
  lia.
Qed.

Lemma MakeFullYear_recent (year : Z) : (100 <= year)%Z -> Date.MakeFullYear year = year.
Proof.
  intros H. unfold Date.MakeFullYear.
  destruct (Z.leb_spec year 99); [lia|]. rewrite andb_false_r. reflexivity.
Qed.

(** ** Minutes *)

Lemma minute_of_day (time : Z) :
  Date.MakeDate (Date.Day time)
    (Date.MakeTime (Date.HourFromTime time) (Date.MinFromTime time) 0 0)
  = (Date.msPerMinute * (time / Date.msPerMinute))%Z.
Proof.
  unfold Date.MakeDate, Date.MakeTime, Date.Day, Date.HourFromTime,
    Date.MinFromTime, Date.msPerDay, Date.msPerHour, Date.msPerMinute.
  set (q := (time / 60000)%Z).
  assert (Hh : (time / 3600000 = q / 60)%Z).
  { unfold q. rewrite Z.div_div by lia. reflexivity. }
  assert (Hd : (time / 86400000 = q / 60 / 24)%Z).
  { unfold q. rewrite !Z.div_div by lia. reflexivity. }
  rewrite Hh, Hd.
  pose proof (Z.div_mod q 60 ltac:(lia)) as H1.
  pose proof (Z.div_mod (q / 60) 24 ltac:(lia)) as H2.
  lia.
Qed.

(** From 1970 on, the fields of a time, with no seconds, make the start of
    its minute. *)
Lemma minute_of_fields (time : Z) :
  (0 <= time)%Z ->
  Date.MakeDate
    (Date.MakeDay (Date.MakeFullYear (Date.YearFromTime time))
       (Date.MonthFromTime time) (Date.DateFromTime time))
    (Date.MakeTime (Date.HourFromTime time) (Date.MinFromTime time) 0 0)
  = (Date.msPerMinute * (time / Date.msPerMinute))%Z.
Proof.
  intros H. pose proof (YearFromTime_recent time H).
  rewrite MakeFullYear_recent by lia.
  rewrite MakeDay_fields. apply minute_of_day.
Qed.

Lemma minuteStart_bounds (time : Z) :
  (time - Date.msPerMinute < minuteStart time <= time)%Z.
Proof.
  unfold minuteStart, Date.msPerMinute.
  pose proof (Z.mod_pos_bound time 60000 ltac:(lia)). lia.
Qed.

Lemma minuteStart_valid (time : Z) : validTime time -> validTime (minuteStart time).
Proof.
  unfold validTime, minuteStart, Date.maxTime, Date.msPerMinute. intros H.
  pose proof (Z.mod_pos_bound time 60000 ltac:(lia)) as Hm.
  pose proof (Z.div_mod time 60000 ltac:(lia)) as Hd.
  assert (Hq : (-144000000000 <= time / 60000)%Z).
  { apply Z.div_le_lower_bound; lia. }
  lia.
Qed.

Lemma TimeClip_valid (time : Z) : validTime time -> Date.TimeClip time = Some time.
Proof.
  unfold validTime, Date.TimeClip. intros H.
  apply Z.leb_le in H. rewrite H. reflexivity.
Qed.

Lemma TimeClip_some (time time' : Z) :
  Date.TimeClip time = Some time' -> time' = time /\ validTime time.
Proof.
  unfold Date.TimeClip, validTime.
  destruct (Z.abs time <=? Date.maxTime)%Z eqn:E; [|discriminate].
  intros H. inversion H; subst. split; [reflexivity|]. apply Z.leb_le. exact E.
Qed.

Lemma ofString_some (parsed : option Z) (time : Z) :
  Date.ofString parsed = Some time -> parsed = Some time /\ validTime time.
Proof.
  destruct parsed as [t|]; simpl; [|discriminate].
  intros H. apply TimeClip_some in H. destruct H as [-> H].
  split; [reflexivity|exact H].
Qed.

Section Zones.
Variable LocalTZA : Z -> bool -> Z.
Variable offset : Z.
Hypothesis zone : fixedZone LocalTZA offset.

(** In a zone of fixed offset, from 1970 on, the key of a date is the
    instant at which its local minute starts. *)
Lemma minuteKeyOf_fixed (time : Z) :
  (0 <= time + offset)%Z ->
  minuteKeyOf LocalTZA (Some time)
  = Date.toISOString
      (Date.TimeClip
         (Date.msPerMinute * ((time + offset) / Date.msPerMinute) - offset)%Z).
Proof.
  intros H.
  unfold minuteKeyOf, Date.ofFields, Date.getFullYear, Date.getMonth,
    Date.getDate, Date.getHours, Date.getMinutes. cbn [option_map].
  unfold Date.UTC, Date.LocalTime. rewrite (zone time true).
  rewrite minute_of_fields by exact H.
  rewrite (zone _ false). reflexivity.
Qed.

Hypothesis whole : (offset mod Date.msPerMinute = 0)%Z.

Lemma minuteKeyOf_minuteStart (time : Z) :
  validTime time -> (0 <= time + offset)%Z ->
  minuteKeyOf LocalTZA (Some time) = Normal (minuteStart time).
Proof.
  intros Hv Hrecent. rewrite minuteKeyOf_fixed by exact Hrecent.
  assert (E : (Date.msPerMinute * ((time + offset) / Date.msPerMinute) - offset
               = minuteStart time)%Z).
  { unfold minuteStart. revert whole. unfold Date.msPerMinute. intros whole.
    pose proof (Z.div_mod offset 60000 ltac:(lia)) as Ho.
    rewrite whole in Ho.
    replace (time + offset)%Z with (time + (offset / 60000) * 60000)%Z by lia.
    rewrite Z.div_add by lia.
    pose proof (Z.div_mod time 60000 ltac:(lia)). lia. }
  rewrite E. rewrite TimeClip_valid by (apply minuteStart_valid; exact Hv).
  reflexivity.
Qed.
End Zones.

Lemma minuteStart_div (time : Z) :
  minuteStart time = (Date.msPerMinute * (time / Date.msPerMinute))%Z.
Proof.
  unfold minuteStart, Date.msPerMinute.
  pose proof (Z.div_mod time 60000 ltac:(lia)). lia.
Qed.

Lemma minuteStart_nonneg (time : Z) : (0 <= time -> 0 <= minuteStart time)%Z.
Proof.
  intros H. rewrite minuteStart_div. unfold Date.msPerMinute.
  pose proof (Z.div_pos time 60000 H ltac:(lia)). lia.
Qed.

Section AnyZone.
Variable LocalTZA : Z -> bool -> Z.

(** In any zone, from 1970 on (local time), the key of a date is the
    instant at which its local minute starts, if that is a date. *)
Lemma minuteKeyOf_local (time : Z) :
  (0 <= time + LocalTZA time true)%Z ->
  minuteKeyOf LocalTZA (Some time)
  = Date.toISOString (Date.TimeClip (localMinute LocalTZA time)).
Proof.
  intros H.
  unfold minuteKeyOf, Date.ofFields, Date.getFullYear, Date.getMonth,
    Date.getDate, Date.getHours, Date.getMinutes. cbn [option_map].
  rewrite (minute_of_fields (Date.LocalTime LocalTZA time) H).
  unfold localMinute. rewrite minuteStart_div. reflexivity.
Qed.

Variables lo hi : Z.
Hypothesis host : hostZone LocalTZA lo hi.

Lemma localMinute_bounds (time : Z) :
  (time - Date.msPerMinute - (hi - lo) < localMinute LocalTZA time
   <= time + (hi - lo))%Z.
Proof.
  destruct host as (_ & Hzone).
  unfold localMinute, Date.UTC, Date.LocalTime.
  pose proof (Hzone time true) as Ha.
  pose proof (Hzone (minuteStart (time + LocalTZA time true)) false) as Hb.
  pose proof (minuteStart_bounds (time + LocalTZA time true)) as Hm.
  lia.
Qed.

Lemma minuteKeyOf_host (time : Z) :
  (0 <= time + lo)%Z -> (time + (hi - lo) <= Date.maxTime)%Z ->
  minuteKeyOf LocalTZA (Some time) = Normal (localMinute LocalTZA time).
Proof.
  intros Hrecent Hv.
  pose proof (localMinute_bounds time) as [_ Hle].
  destruct host as ((Hlo & Hhi) & Hzone).
  pose proof (Hzone time true) as Ha.
  rewrite minuteKeyOf_local by lia.
  assert (Hvalid : validTime (localMinute LocalTZA time)).
  { unfold validTime in *. unfold localMinute, Date.UTC, Date.LocalTime in *.
    pose proof (Hzone (minuteStart (time + LocalTZA time true)) false) as Hb.
    pose proof (minuteStart_nonneg (time + LocalTZA time true) ltac:(lia)) as Hm.
    revert Hlo Hhi Hv Hle. unfold Date.msPerDay, Date.maxTime. lia. }
  rewrite (TimeClip_valid _ Hvalid). reflexivity.
Qed.
End AnyZone.

Lemma localMinute_fixed (LocalTZA : Z -> bool -> Z) (offset time : Z) :
  fixedZone LocalTZA offset -> (offset mod Date.msPerMinute = 0)%Z ->
  localMinute LocalTZA time = minuteStart time.
Proof.
  intros zone whole. unfold localMinute, Date.UTC, Date.LocalTime.
  rewrite (zone time true), (zone _ false).
  unfold minuteStart. revert whole. unfold Date.msPerMinute. intros whole.
  pose proof (Z.div_mod offset 60000 ltac:(lia)) as Ho. rewrite whole in Ho.
  replace (time + offset)%Z with (time + (offset / 60000) * 60000)%Z by lia.
  rewrite Z_mod_plus_full. lia.
Qed.

(** A zone of fixed offset, less than a day from UTC, is the zone of a
    host. *)
Lemma fixedZone_hostZone (LocalTZA : Z -> bool -> Z) (offset : Z) :
  fixedZone LocalTZA offset ->
  (- Date.msPerDay <= offset <= Date.msPerDay)%Z ->
  hostZone LocalTZA offset offset.
Proof.
  intros zone Hday.
  split; [exact Hday|].
  intros time isUTC. rewrite (zone time isUTC). lia.
Qed.

(** In a zone that keeps one offset every reading is far enough from the end
    of the range of dates. *)
Lemma beforeEnd_zero (parse : string -> option Z) (readings : list Reading) :
  Forall (beforeEnd parse 0) readings.
Proof.
  apply Forall_forall. intros item _ time Et.
  apply ofString_some in Et. destruct Et as [_ Hv].
  unfold validTime in Hv. lia.
Qed.

(** The sample host on New York time. *)
Lemma newYork_hostZone : hostZone Hosts.newYork Hosts.est Hosts.edt.
Proof.
  split; [split; vm_compute; discriminate|].
  intros time isUTC. unfold Hosts.newYork.
  destruct isUTC; destruct (_ && _); vm_compute; split; discriminate.
Qed.

(** ** The loop of [aggregateConsumptionByTime] *)

Lemma Zeqb_eq (a b : Z) : Z.eqb a b = true <-> a = b.
Proof. apply Z.eqb_eq. Qed.

Lemma orZero_plus_own {K : Type} (eqb : K -> K -> bool) (o : Obj.t) (k : K) (c : Q) :
  (forall a b, eqb a b = true <-> a = b) ->
  numeric o ->
  exists q,
    plus (orZero (match Obj.own eqb o k with Some v => v | None => Undefined end)) c
    = Num q /\
    q == valueOf (match Obj.own eqb o k with Some v => v | None => Undefined end) + c.
Proof.
  intros eqb_eq Hnum. destruct (Obj.own eqb o k) as [v|] eqn:E.
  - destruct (numeric_own eqb eqb_eq o k v Hnum E) as [q ->]. simpl.
    destruct (Qeq_bool q 0) eqn:Eq; simpl.
    + exists (0 + c). split; [reflexivity|].
      apply Qeq_bool_iff in Eq. rewrite Eq. reflexivity.
    + exists (q + c). split; reflexivity.
  - simpl. exists (0 + c). split; reflexivity.
Qed.

Section ByMinute.
Variable LocalTZA : Z -> bool -> Z.
Variable parse : string -> option Z.
Variable startTime : Date.t.

Lemma keysByMinute_fst (o : Obj.t) : keysByMinute o = map fst o.
Proof.
  unfold keysByMinute, Obj.keys, Obj.indexKeys, Obj.nameKeys, noIndex.
  assert (E : flat_map (fun kv : Label * JsValue => @nil (N * Label)) o = []).
  { induction o as [|kv o IH]; simpl; [reflexivity|exact IH]. }
  rewrite E. simpl.
  induction (map fst o) as [|k l IH]; simpl; [reflexivity|].
  rewrite IH. reflexivity.
Qed.

Lemma accumulate_minute (o : Obj.t) (k : Label) (c : Q) :
  numeric o -> NoDup (map fst o) ->
  let o' := setByMinute o k (plus (orZero (getByMinute o k)) c) in
  numeric o' /\ NoDup (map fst o') /\ objSum o' == objSum o + c /\
  (forall k', In k' (map fst o') <-> k' = k \/ In k' (map fst o)).
Proof.
  intros Hnum Hnd. unfold setByMinute, getByMinute, Obj.set, Obj.get, notInherited.
  destruct (orZero_plus_own Z.eqb o k c Zeqb_eq Hnum) as (q & Hq & Hsum).
  simpl. rewrite Hq.
  split; [apply put_numeric; exact Hnum|].
  split; [apply put_NoDup; [exact Zeqb_eq|exact Hnd]|].
  split.
  - rewrite put_sum. simpl valueOf at 1. rewrite Hsum. ring.
  - intros k'. apply put_keys_In. exact Zeqb_eq.
Qed.

Lemma addToMinute_normal (o o' : Obj.t) (item : Reading) :
  addToMinute LocalTZA parse startTime o item = Normal o' ->
  numeric o -> NoDup (map fst o) ->
  numeric o' /\ NoDup (map fst o') /\
  objSum o' ==
    objSum o
    + (if Date.gt (Date.ofString (parse (timestamp item))) startTime
       then consumption_kwh item else 0) /\
  (forall k, In k (map fst o') ->
     In k (map fst o) \/
     (Date.gt (Date.ofString (parse (timestamp item))) startTime = true /\
      minuteKeyOf LocalTZA (Date.ofString (parse (timestamp item))) = Normal k)).
Proof.
  unfold addToMinute. intros H Hnum Hnd.
  destruct (Date.gt _ _) eqn:Egt.
  - destruct (minuteKeyOf LocalTZA _) as [k|e] eqn:Ek; simpl in H; [|discriminate].
    inversion H; subst o'. clear H.
    destruct (accumulate_minute o k (consumption_kwh item) Hnum Hnd)
      as (H1 & H2 & H3 & H4).
    split; [exact H1|]. split; [exact H2|]. split; [exact H3|].
    intros k' Hk'. apply H4 in Hk'. destruct Hk' as [->|Hk'].
    + right. split; reflexivity.
    + left. exact Hk'.
  - inversion H; subst o'.
    split; [exact Hnum|]. split; [exact Hnd|]. split; [ring|].
    intros k Hk. left. exact Hk.
Qed.

Lemma forEach_addToMinute (readings : list Reading) :
  forall o o' : Obj.t,
    forEach readings (addToMinute LocalTZA parse startTime) o = Normal o' ->
    numeric o -> NoDup (map fst o) ->
    numeric o' /\ NoDup (map fst o') /\
    objSum o' ==
      objSum o
      + Qsum (map consumption_kwh
                (filter (fun item =>
                           Date.gt (Date.ofString (parse (timestamp item))) startTime)
                   readings)) /\
    (forall k, In k (map fst o') ->
       In k (map fst o) \/
       exists item,
         In item readings /\
         Date.gt (Date.ofString (parse (timestamp item))) startTime = true /\
         minuteKeyOf LocalTZA (Date.ofString (parse (timestamp item))) = Normal k).
Proof.
  induction readings as [|item rest IH]; simpl; intros o o' H Hnum Hnd.
  - inversion H; subst o'.
    split; [exact Hnum|]. split; [exact Hnd|]. split; [ring|].
    intros k Hk. left. exact Hk.
  - destruct (addToMinute LocalTZA parse startTime o item) as [o1|e] eqn:E1;
      simpl in H; [|discriminate].
    destruct (addToMinute_normal o o1 item E1 Hnum Hnd) as (N1 & D1 & S1 & K1).
    destruct (IH o1 o' H N1 D1) as (N2 & D2 & S2 & K2).
    split; [exact N2|]. split; [exact D2|]. split.
    + rewrite S2, S1.
      destruct (Date.gt _ _); simpl; ring.
    + intros k Hk. destruct (K2 k Hk) as [Hk1|(item' & Hin & Hgt & Hkey)].
      * destruct (K1 k Hk1) as [Hk0|[Hgt Hkey]].
        -- left. exact Hk0.
        -- right. exists item. split; [left; reflexivity|]. split; assumption.
      * right. exists item'. split; [right; exact Hin|]. split; assumption.
Qed.
End ByMinute.

Lemma get_own_key {K : Type} (eqb : K -> K -> bool) (inherited : K -> bool)
  (o : Obj.t) (kv : K * JsValue) :
  (forall a b, eqb a b = true <-> a = b) ->
  NoDup (map fst o) -> In kv o -> Obj.get eqb inherited o (fst kv) = snd kv.
Proof.
  intros eqb_eq Hnd Hin. unfold Obj.get. destruct kv as [k v]. simpl.
  rewrite (own_In eqb eqb_eq o k v Hnd Hin). reflexivity.
Qed.

Lemma get_keys {K : Type} (eqb : K -> K -> bool) (inherited : K -> bool) (o : Obj.t) :
  (forall a b, eqb a b = true <-> a = b) ->
  NoDup (map fst o) -> map (Obj.get eqb inherited o) (map fst o) = map snd o.
Proof.
  intros eqb_eq Hnd. rewrite map_map. apply map_ext_in.
  intros kv Hin. apply get_own_key; assumption.
Qed.

Lemma numeric_snd {K : Type} (o : Obj.t (K := K)) :
  numeric o -> Forall (fun v => exists q, v = Num q) (map snd o).
Proof.
  unfold numeric. induction 1; simpl; constructor; assumption.
Qed.

(** ** The time series *)
Section TimeSeries.
Variable LocalTZA : Z -> bool -> Z.
Variable parse : string -> option Z.
Variable now : Z.

(** Whatever the zone: when the function returns, the values are numbers,
    their sum is the sum over the readings kept, and each label is the
    key of a reading kept. *)
Lemma aggregateConsumptionByTime_normal (readings : list Reading) (hours : Z)
  (series : ChartData Label) :
  aggregateConsumptionByTime LocalTZA parse now readings hours = Normal series ->
  exists qs,
    values series = map Num qs /\
    Qsum qs == Qsum (map consumption_kwh (filter (inWindow parse now hours) readings)) /\
    NoDup (labels series) /\
    List.length (labels series) = List.length qs /\
    forall label, In label (labels series) ->
      exists item,
        In item readings /\ inWindow parse now hours item = true /\
        minuteKeyOf LocalTZA (Date.ofString (parse (timestamp item))) = Normal label.
Proof.
  unfold aggregateConsumptionByTime. intros H.
  destruct (forEach readings _ Obj.empty) as [o|e] eqn:E; simpl in H; [|discriminate].
  inversion H; subst series; clear H. simpl.
  destruct (forEach_addToMinute LocalTZA parse (startTimeOf now hours) readings
              Obj.empty o E (Forall_nil _) (NoDup_nil _)) as (Hnum & Hnd & Hsum & Hkeys).
  rewrite keysByMinute_fst.
  assert (Hperm : Permutation (sort Z.gtb (map fst o)) (map fst o)).
  { apply Permutation_sym. apply sort_perm. }
  assert (Hvals : Permutation (map (fun key => getByMinute o key) (sort Z.gtb (map fst o)))
                    (map snd o)).
  { rewrite <- (get_keys Z.eqb notInherited o Zeqb_eq Hnd).
    apply Permutation_map. exact Hperm. }
  exists (map valueOf (map (fun key => getByMinute o key) (sort Z.gtb (map fst o)))).
  split; [|split; [|split; [|split]]].
  - apply numeric_values.
    apply (Permutation_Forall (Permutation_sym Hvals)). apply numeric_snd. exact Hnum.
  - rewrite (Qsum_perm _ _ (Permutation_map valueOf Hvals)).
    rewrite map_map. fold (objSum o). rewrite Hsum.
    unfold objSum, Obj.empty. simpl. rewrite Qplus_0_l. reflexivity.
  - apply (Permutation_NoDup (Permutation_sym Hperm)). exact Hnd.
  - rewrite !length_map. reflexivity.
  - intros label Hin. apply (Permutation_in _ Hperm) in Hin.
    destruct (Hkeys label Hin) as [[]|H]. exact H.
Qed.

Variable offset : Z.
Hypothesis zone : fixedZone LocalTZA offset.
Hypothesis whole : (offset mod Date.msPerMinute = 0)%Z.

Lemma forEach_addToMinute_total (startTime : Date.t) (readings : list Reading) :
  (forall start, startTime = Some start -> 0 <= start + offset)%Z ->
  forall o : Obj.t,
  exists o', forEach readings (addToMinute LocalTZA parse startTime) o = Normal o'.
Proof.
  intros Hstart.
  induction readings as [|item rest IH]; simpl; intros o.
  - exists o. reflexivity.
  - unfold addToMinute at 1.
    destruct (Date.gt _ startTime) eqn:Egt.
    + destruct (Date.ofString (parse (timestamp item))) as [time|] eqn:Et;
        [|discriminate Egt].
      destruct startTime as [start|]; [|discriminate Egt].
      simpl in Egt. apply Z.ltb_lt in Egt.
      pose proof (Hstart start eq_refl) as Hrecent.
      apply ofString_some in Et. destruct Et as [_ Hv].
      rewrite (minuteKeyOf_minuteStart LocalTZA offset zone whole time Hv)
        by lia.
      simpl. apply IH.
    + simpl. apply IH.
Qed.

Lemma aggregateConsumptionByTime_total (readings : list Reading) (hours : Z) :
  (0 <= cutoff now hours + offset)%Z ->
  exists series,
    aggregateConsumptionByTime LocalTZA parse now readings hours = Normal series.
Proof.
  intros Hrecent.
  assert (Hstart : (forall start, startTimeOf now hours = Some start ->
                      0 <= start + offset)%Z).
  { intros start Hs. unfold startTimeOf, Date.ofNumber in Hs.
    fold (cutoff now hours) in Hs. apply TimeClip_some in Hs.
    destruct Hs as [-> _]. exact Hrecent. }
  unfold aggregateConsumptionByTime.
  destruct (forEach_addToMinute_total (startTimeOf now hours) readings Hstart
              Obj.empty) as [o ->].
  simpl. eexists. reflexivity.
Qed.

Lemma inWindow_later (hours : Z) (item : Reading) :
  inWindow parse now hours item = true ->
  exists time,
    Date.ofString (parse (timestamp item)) = Some time /\
    validTime time /\ (cutoff now hours < time)%Z.
Proof.
  unfold inWindow, kept, startTimeOf, Date.ofNumber. fold (cutoff now hours).
  destruct (Date.ofString (parse (timestamp item))) as [time|] eqn:Et;
    [|discriminate].
  destruct (Date.TimeClip (cutoff now hours)) as [c|] eqn:Ec; [|discriminate].
  apply TimeClip_some in Ec. destruct Ec as [-> _].
  simpl. intros H. apply Z.ltb_lt in H.
  exists time. split; [reflexivity|]. split; [|exact H].
  apply ofString_some in Et. apply Et.
Qed.

Lemma inWindow_laterThan (hours : Z) (item : Reading) :
  validTime (cutoff now hours) ->
  inWindow parse now hours item = laterThan parse (cutoff now hours) item.
Proof.
  intros Hv. unfold inWindow, kept, laterThan, startTimeOf, Date.ofNumber.
  fold (cutoff now hours). rewrite (TimeClip_valid _ Hv).
  destruct (Date.ofString (parse (timestamp item))); reflexivity.
Qed.
End TimeSeries.

Section HostSeries.
Variable LocalTZA : Z -> bool -> Z.
Variable parse : string -> option Z.
Variable now : Z.
Variables lo hi : Z.
Hypothesis host : hostZone LocalTZA lo hi.

Lemma forEach_addToMinute_host (startTime : Date.t) (readings : list Reading) :
  (forall start, startTime = Some start -> 0 <= start + lo)%Z ->
  Forall (beforeEnd parse (hi - lo)) readings ->
  forall o : Obj.t,
  exists o', forEach readings (addToMinute LocalTZA parse startTime) o = Normal o'.
Proof.
  intros Hstart Hend.
  induction Hend as [|item rest Hitem Hrest IH]; simpl; intros o.
  - exists o. reflexivity.
  - unfold addToMinute at 1.
    destruct (Date.gt _ startTime) eqn:Egt.
    + destruct (Date.ofString (parse (timestamp item))) as [time|] eqn:Et;
        [|discriminate Egt].
      destruct startTime as [start|]; [|discriminate Egt].
      simpl in Egt. apply Z.ltb_lt in Egt.
      pose proof (Hstart start eq_refl) as Hrecent.
      pose proof (Hitem time Et) as Hv.
      rewrite (minuteKeyOf_host LocalTZA lo hi host time) by lia.
      simpl. apply IH.
    + simpl. apply IH.
Qed.

(** On every host, for a window that starts in 1970 or later, the function
    returns. *)
Lemma aggregateConsumptionByTime_host (readings : list Reading) (hours : Z) :
  (0 <= cutoff now hours + lo)%Z ->
  Forall (beforeEnd parse (hi - lo)) readings ->
  exists series,
    aggregateConsumptionByTime LocalTZA parse now readings hours = Normal series.
Proof.
  intros Hrecent Hend.
  assert (Hstart : (forall start, startTimeOf now hours = Some start ->
                      0 <= start + lo)%Z).
  { intros start Hs. unfold startTimeOf, Date.ofNumber in Hs.
    fold (cutoff now hours) in Hs. apply TimeClip_some in Hs.
    destruct Hs as [-> _]. exact Hrecent. }
  unfold aggregateConsumptionByTime.
  destruct (forEach_addToMinute_host (startTimeOf now hours) readings Hstart Hend
              Obj.empty) as [o ->].
  simpl. eexists. reflexivity.
Qed.
End HostSeries.

(** With no reading kept no key is made, whatever the zone. *)
Lemma forEach_addToMinute_none (LocalTZA : Z -> bool -> Z)
  (parse : string -> option Z) (startTime : Date.t) (readings : list Reading) :
  filter (kept parse startTime) readings = [] ->
  forall o : Obj.t,
    forEach readings (addToMinute LocalTZA parse startTime) o = Normal o.
Proof.
  induction readings as [|item rest IH]; simpl; intros Hnone o; [reflexivity|].
  unfold addToMinute at 1. fold (kept parse startTime item).
  destruct (kept parse startTime item); [discriminate Hnone|].
  simpl. apply IH. exact Hnone.
Qed.

Lemma aggregateConsumptionByTime_none (LocalTZA : Z -> bool -> Z)
  (parse : string -> option Z) (now : Z) (readings : list Reading) (hours : Z) :
  filter (inWindow parse now hours) readings = [] ->
  aggregateConsumptionByTime LocalTZA parse now readings hours
  = Normal {| labels := []; values := [] |}.
Proof.
  intros Hnone. unfold aggregateConsumptionByTime.
  rewrite (forEach_addToMinute_none LocalTZA parse (startTimeOf now hours) readings
             Hnone Obj.empty).
  reflexivity.
Qed.

(** C1 (as the code has it).  On every host, for a window that starts in
    1970 or later and readings that do not reach the end of the range of
    dates, the function returns a series, and each of its labels is the
    instant at which the local minute of a reading starts that is strictly
    later than the cutoff.  The label is later than the cutoff less one
    minute and less the difference between the greatest and the least
    offset of the host's zone, and it is later than the reading by that
    difference at most: on a host whose zone keeps one offset it is later
    than the cutoff less one minute, and it is the start of the minute of
    the reading when the offset is of whole minutes.  It can be at or
    before the cutoff itself. *)
Theorem bucket_labels_minute_of_kept_reading (LocalTZA : Z -> bool -> Z)
  (parse : string -> option Z) (now : Z) (readings : list Reading) (hours lo hi : Z) :
  hostZone LocalTZA lo hi ->
  (0 <= cutoff now hours + lo)%Z ->
  Forall (beforeEnd parse (hi - lo)) readings ->
  exists series,
    aggregateConsumptionByTime LocalTZA parse now readings hours = Normal series /\
    forall label, In label (labels series) ->
      (cutoff now hours - Date.msPerMinute - (hi - lo) < label)%Z /\
      exists item time,
        In item readings /\
        Date.ofString (parse (timestamp item)) = Some time /\
        (cutoff now hours < time)%Z /\
        label = localMinute LocalTZA time /\
        (label <= time + (hi - lo))%Z /\
        (lo = hi -> (lo mod Date.msPerMinute = 0)%Z -> label = minuteStart time).
Proof.
  intros host recent Hend.
  destruct (aggregateConsumptionByTime_host LocalTZA parse now lo hi host
              readings hours recent Hend) as [series Hs].
  exists series. split; [exact Hs|].
  intros label Hin.
  destruct (aggregateConsumptionByTime_normal LocalTZA parse now readings hours
              series Hs) as (qs & _ & _ & _ & _ & Hlabels).
  destruct (Hlabels label Hin) as (item & Hitem & Hwin & Hkey).
  destruct (inWindow_later parse now hours item Hwin) as (time & Et & Hv & Hlt).
  rewrite Et in Hkey.
  rewrite Forall_forall in Hend. pose proof (Hend item Hitem time Et) as Hmargin.
  rewrite (minuteKeyOf_host LocalTZA lo hi host time) in Hkey by lia.
  inversion Hkey; subst label.
  pose proof (localMinute_bounds LocalTZA lo hi host time) as [Hlow Hup].
  split; [lia|].
  exists item, time.
  split; [exact Hitem|]. split; [exact Et|]. split; [exact Hlt|].
  split; [reflexivity|]. split; [exact Hup|].
  intros Hfixed whole. apply (localMinute_fixed LocalTZA lo); [|exact whole].
  intros t isUTC. destruct host as (_ & Hzone).
  pose proof (Hzone t isUTC). lia.
Qed.

Lemma bucket_labels_minute_of_kept_reading_witness :
  exists series,
    aggregateConsumptionByTime Hosts.newYork Hosts.parse Hosts.now
      [Hosts.repeated] 1 = Normal series /\
    forall label, In label (labels series) ->
      (cutoff Hosts.now 1 - Date.msPerMinute - (Hosts.edt - Hosts.est) < label)%Z /\
      exists item time,
        In item [Hosts.repeated] /\
        Date.ofString (Hosts.parse (timestamp item)) = Some time /\
        (cutoff Hosts.now 1 < time)%Z /\
        label = localMinute Hosts.newYork time /\
        (label <= time + (Hosts.edt - Hosts.est))%Z /\
        (Hosts.est = Hosts.edt -> (Hosts.est mod Date.msPerMinute = 0)%Z ->
         label = minuteStart time).
Proof.
  apply (bucket_labels_minute_of_kept_reading Hosts.newYork Hosts.parse Hosts.now
           [Hosts.repeated] 1 Hosts.est Hosts.edt).
  - exact newYork_hostZone.
  - vm_compute. discriminate.
  - repeat constructor. intros time Et. vm_compute in Et. inversion Et; subst time.
    vm_compute. discriminate.
Defined.

(** C1 as stated fails.  On a host on UTC a reading fifteen seconds after
    the cutoff is kept, and the label of its bucket, the start of its
    minute, is thirty seconds before the cutoff.  On a host with daylight
    saving time the label can be earlier still: in New York, one hour after
    the clocks went back, the reading of 06:30:10Z is kept by the window of
    one hour, whose cutoff is 06:00:00Z, and its label is 05:30:00Z, the
    first of the two instants at which the clocks showed 01:30. *)
Lemma bucket_label_before_cutoff :
  (exists series label,
     aggregateConsumptionByTime Sample.utc Sample.parse Sample.now
       [Sample.early] 1 = Normal series /\
     In label (labels series) /\
     (label <= cutoff Sample.now 1)%Z) /\
  (exists series label,
     aggregateConsumptionByTime Hosts.newYork Hosts.parse Hosts.now
       [Hosts.repeated] 1 = Normal series /\
     In label (labels series) /\
     (label + 30 * Date.msPerMinute = cutoff Hosts.now 1)%Z).
Proof.
  split.
  - exists {| labels := [1704106800000%Z]; values := [Num 6] |}, 1704106800000%Z.
    split; [vm_compute; reflexivity|].
    split; [left; reflexivity|].
    vm_compute. discriminate.
  - exists {| labels := [1730611800000%Z]; values := [Num 6] |}, 1730611800000%Z.
    split; [vm_compute; reflexivity|].
    split; [left; reflexivity|].
    vm_compute. reflexivity.
Qed.

(** C2.  The sum of the values of the series is the sum of the
    consumptions of the readings whose timestamp is strictly later than the
    cutoff, on every host and in every zone; with no such reading (the
    empty list, or readings that are all at or before the cutoff) the
    series is empty.  The function returns the series on every host, for a
    window that starts in 1970 or later and readings that do not reach the
    end of the range of dates.  The sums are those of exact arithmetic, and
    the cutoff is an instant that a date can hold. *)
Theorem bucket_sum_conservation (LocalTZA : Z -> bool -> Z)
  (parse : string -> option Z) (now : Z) (readings : list Reading) (hours : Z) :
  validTime (cutoff now hours) ->
  (forall series,
     aggregateConsumptionByTime LocalTZA parse now readings hours = Normal series ->
     exists qs,
       values series = map Num qs /\
       List.length (labels series) = List.length qs /\
       Qsum qs ==
         Qsum (map consumption_kwh
                 (filter (laterThan parse (cutoff now hours)) readings))) /\
  (filter (laterThan parse (cutoff now hours)) readings = [] ->
   aggregateConsumptionByTime LocalTZA parse now readings hours
   = Normal {| labels := []; values := [] |}) /\
  aggregateConsumptionByTime LocalTZA parse now [] hours
  = Normal {| labels := []; values := [] |} /\
  (forall lo hi,
     hostZone LocalTZA lo hi -> (0 <= cutoff now hours + lo)%Z ->
     Forall (beforeEnd parse (hi - lo)) readings ->
     exists series,
       aggregateConsumptionByTime LocalTZA parse now readings hours = Normal series).
Proof.
  intros Hcut.
  assert (Hfilter : filter (inWindow parse now hours) readings
                    = filter (laterThan parse (cutoff now hours)) readings).
  { apply filter_ext. intros item. apply inWindow_laterThan. exact Hcut. }
  split; [|split; [|split]].
  - intros series Hs.
    destruct (aggregateConsumptionByTime_normal LocalTZA parse now readings hours
                series Hs) as (qs & Hvals & Hsum & _ & Hlen & _).
    exists qs. split; [exact Hvals|]. split; [exact Hlen|].
    rewrite <- Hfilter. exact Hsum.
  - intros Hnone. apply aggregateConsumptionByTime_none.
    rewrite Hfilter. exact Hnone.
  - reflexivity.
  - intros lo hi host recent Hend.
    apply (aggregateConsumptionByTime_host LocalTZA parse now lo hi host); assumption.
Qed.

Lemma bucket_sum_conservation_witness :
  exists series qs,
    aggregateConsumptionByTime Hosts.newYork Hosts.parse Hosts.now
      [Hosts.repeated] 1 = Normal series /\
    values series = map Num qs /\
    List.length (labels series) = List.length qs /\
    Qsum qs ==
      Qsum (map consumption_kwh
              (filter (laterThan Hosts.parse (cutoff Hosts.now 1)) [Hosts.repeated])).
Proof.
  assert (Hcut : validTime (cutoff Hosts.now 1)).
  { unfold validTime. vm_compute. discriminate. }
  destruct (bucket_sum_conservation Hosts.newYork Hosts.parse Hosts.now
              [Hosts.repeated] 1 Hcut) as (Hsum & _ & _ & Hreturns).
  assert (recent : (0 <= cutoff Hosts.now 1 + Hosts.est)%Z).
  { vm_compute. discriminate. }
  assert (Hend : Forall (beforeEnd Hosts.parse (Hosts.edt - Hosts.est))
                   [Hosts.repeated]).
  { repeat constructor. intros time Et. vm_compute in Et. inversion Et; subst time.
    vm_compute. discriminate. }
  destruct (Hreturns Hosts.est Hosts.edt newYork_hostZone recent Hend) as [series Hs].
  destruct (Hsum series Hs) as (qs & Hvals & Hlen & Hqs).
  exists series, qs.
  split; [exact Hs|]. split; [exact Hvals|]. split; [exact Hlen|exact Hqs].
Defined.

(** ** The ranking of the devices *)

Lemma String_eqb_eq (a b : string) : String.eqb a b = true <-> a = b.
Proof. apply String.eqb_eq. Qed.

Lemma accessor_inherited (s : string) : accessor s = true -> inherited s = true.
Proof.
  unfold accessor. intros H. apply String.eqb_eq in H. subst s. reflexivity.
Qed.

Section ByDevice.
Variable parse : string -> option Z.
Variable startTime : Date.t.

Lemma addToDevice_keys (o : Obj.t) (item : Reading) :
  NoDup (map fst o) ->
  NoDup (map fst (addToDevice parse startTime o item)) /\
  forall k, In k (map fst (addToDevice parse startTime o item)) ->
    In k (map fst o) \/ (kept parse startTime item = true /\ device_id item = k).
Proof.
  intros Hnd. unfold addToDevice, kept.
  destruct (Date.gt _ _); [|split; [exact Hnd|intros k Hk; left; exact Hk]].
  unfold setByDevice, Obj.set.
  destruct (accessor (device_id item)).
  - split; [exact Hnd|intros k Hk; left; exact Hk].
  - split; [apply put_NoDup; [exact String_eqb_eq|exact Hnd]|].
    intros k Hk. apply (put_keys_In String.eqb String_eqb_eq) in Hk.
    destruct Hk as [->|Hk]; [right; split; reflexivity|left; exact Hk].
Qed.

Lemma addToDevice_numeric (o : Obj.t) (item : Reading) :
  inherited (device_id item) = false ->
  numeric o -> numeric (addToDevice parse startTime o item).
Proof.
  intros Hid Hnum. unfold addToDevice.
  destruct (Date.gt _ _); [|exact Hnum].
  unfold setByDevice, Obj.set, getByDevice, Obj.get.
  destruct (accessor (device_id item)); [exact Hnum|].
  rewrite Hid.
  destruct (orZero_plus_own String.eqb o (device_id item) (consumption_kwh item)
              String_eqb_eq Hnum) as (q & -> & _).
  apply put_numeric. exact Hnum.
Qed.

Lemma fold_addToDevice_keys (readings : list Reading) :
  forall o : Obj.t,
    NoDup (map fst o) ->
    NoDup (map fst (fold_left (addToDevice parse startTime) readings o)) /\
    forall k, In k (map fst (fold_left (addToDevice parse startTime) readings o)) ->
      In k (map fst o) \/ In k (map device_id (filter (kept parse startTime) readings)).
Proof.
  induction readings as [|item rest IH]; simpl; intros o Hnd.
  - split; [exact Hnd|intros k Hk; left; exact Hk].
  - destruct (addToDevice_keys o item Hnd) as [Hnd1 Hk1].
    destruct (IH _ Hnd1) as [Hnd2 Hk2].
    split; [exact Hnd2|].
    intros k Hk. destruct (Hk2 k Hk) as [H|H].
    + destruct (Hk1 k H) as [H0|[Hkept Hid]]; [left; exact H0|].
      right. rewrite Hkept. left. exact Hid.
    + right. destruct (kept parse startTime item); [right|]; exact H.
Qed.

Lemma fold_addToDevice_numeric (readings : list Reading) :
  Forall (fun item => inherited (device_id item) = false) readings ->
  forall o : Obj.t,
    numeric o -> numeric (fold_left (addToDevice parse startTime) readings o).
Proof.
  induction 1 as [|item rest Hid Hrest IH]; simpl; intros o Hnum.
  - exact Hnum.
  - apply IH. apply addToDevice_numeric; assumption.
Qed.
End ByDevice.

Lemma sort_numbers_descending (qs : list Q) :
  StronglySorted (fun a b => b <= a)
    (sort (fun a b => positive (minus (Num b) (Num a))) qs).
Proof.
  apply sort_sorted.
  - intros x y z Hxy Hyz. exact (Qle_trans _ _ _ Hyz Hxy).
  - intros x y H. rewrite positive_minus in H. apply Qltb_ge in H. exact H.
  - intros x y H. rewrite positive_minus in H. apply Qltb_lt in H.
    apply Qlt_le_weak. exact H.
Qed.

(** C3 (as the code has it).  The ranking has at most five entries and at
    most as many as there are distinct devices among the readings in the
    window.  When no device is named like a member of [Object.prototype],
    its values are numbers in descending order; two neighbours can be
    equal. *)
Theorem top_devices_ranking (parse : string -> option Z) (now : Z)
  (readings : list Reading) (hours : Z) :
  let ranking := aggregateConsumptionByDevice parse now readings hours in
  (List.length (labels ranking)
   <= Nat.min 5
        (List.length
           (nodup string_dec
              (map device_id (filter (inWindow parse now hours) readings)))))%nat /\
  List.length (values ranking) = List.length (labels ranking) /\
  (Forall (fun item => inherited (device_id item) = false) readings ->
   exists qs,
     values ranking = map Num qs /\ StronglySorted (fun a b => b <= a) qs).
Proof.
  unfold aggregateConsumptionByDevice. cbv zeta. cbn [labels values].
  set (o := fold_left (addToDevice parse (startTimeOf now hours)) readings Obj.empty).
  set (f := fun device : string => getByDevice o device).
  destruct (fold_addToDevice_keys parse (startTimeOf now hours) readings Obj.empty
              (NoDup_nil _)) as [Hnd Hkeys].
  fold o in Hnd, Hkeys.
  split; [|split].
  - rewrite length_firstn. apply Nat.min_le_compat_l.
    unfold sortWith. rewrite sort_length.
    unfold keysByDevice. rewrite (Permutation_length (keys_perm arrayIndex o)).
    apply NoDup_incl_length; [exact Hnd|].
    intros k Hk. apply nodup_In.
    destruct (Hkeys k Hk) as [[]|H]. exact H.
  - apply length_map.
  - intros Hids.
    assert (Hnum : numeric o).
    { apply fold_addToDevice_numeric; [exact Hids|constructor]. }
    assert (Hvals : Permutation (map f (keysByDevice o)) (map snd o)).
    { rewrite <- (get_keys String.eqb inherited o String_eqb_eq Hnd).
      apply Permutation_map. apply keys_perm. }
    assert (Hall : Forall (fun v => exists q, v = Num q) (map f (keysByDevice o))).
    { apply (Permutation_Forall (Permutation_sym Hvals)). apply numeric_snd. exact Hnum. }
    apply numeric_values in Hall.
    set (qs0 := map valueOf (map f (keysByDevice o))) in Hall.
    exists (firstn 5 (sort (fun a b => positive (minus (Num b) (Num a))) qs0)).
    split.
    + rewrite <- !firstn_map. f_equal.
      transitivity (sort (fun x y => positive (minus y x)) (map f (keysByDevice o))).
      * exact (map_sort f (fun x y => positive (minus y x)) (keysByDevice o)).
      * rewrite Hall. symmetry.
        exact (map_sort Num (fun x y => positive (minus y x)) qs0).
    + apply firstn_sorted. apply sort_numbers_descending.
Qed.

Lemma top_devices_ranking_witness :
  exists qs,
    values (aggregateConsumptionByDevice Sample.parse Sample.now Sample.readings 1)
    = map Num qs /\
    StronglySorted (fun a b => b <= a) qs.
Proof.
  apply (proj2 (proj2 (top_devices_ranking Sample.parse Sample.now
                         Sample.readings 1))).
  repeat constructor.
Defined.

(** C3 as stated fails: two devices with the same total are both ranked,
    and the second value is not below the first. *)
Lemma ranking_with_equal_totals :
  values (aggregateConsumptionByDevice Sample.parse Sample.now Sample.tied 1)
  = [Num 1; Num 1] /\
  ~ 1 < 1.
Proof.
  split; [vm_compute; reflexivity|].
  intros H. discriminate H.
Qed.

(** ** The closure on the heap *)

Lemma update_app_last (l : list (list Heap.ref)) (e e' : list Heap.ref) :
  Heap.update (l ++ [e]) (List.length l) e' = l ++ [e'].
Proof.
  induction l as [|x l IH]; simpl.
  - reflexivity.
  - rewrite IH. reflexivity.
Qed.

Lemma firstn_app_exact {A : Type} (l more : list A) :
  firstn (List.length l) (l ++ more) = l.
Proof.
  induction l as [|x l IH]; simpl.
  - reflexivity.
  - rewrite IH. reflexivity.
Qed.

Lemma map_filter {A B : Type} (g : A -> B) (p : B -> bool) (l : list A) :
  map g (filter (fun x => p (g x)) l) = filter p (map g l).
Proof.
  induction l as [|x l IH]; simpl.
  - reflexivity.
  - destruct (p (g x)); simpl; rewrite IH; reflexivity.
Qed.

Lemma map_sortWith {A B : Type} (g : A -> B) (comparefn : B -> B -> JsValue)
  (l : list A) :
  map g (sortWith (fun x y => comparefn (g x) (g y)) l) = sortWith comparefn (map g l).
Proof.
  unfold sortWith.
  exact (map_sort g (fun a b => positive (comparefn a b)) l).
Qed.

Lemma update_app (l more : list (list Heap.ref)) (a : Heap.ref)
  (e : list Heap.ref) :
  (List.length l <= a)%nat ->
  Heap.update (l ++ more) a e = l ++ Heap.update more (a - List.length l)%nat e.
Proof.
  revert a. induction l as [|x l IH]; simpl; intros a Ha.
  - rewrite Nat.sub_0_r. reflexivity.
  - destruct a as [|a]; [lia|]. simpl. rewrite IH by lia. reflexivity.
Qed.

Lemma update_length (l : list (list Heap.ref)) (a : Heap.ref) (e : list Heap.ref) :
  List.length (Heap.update l a e) = List.length l.
Proof.
  revert a. induction l as [|x l IH]; intros [|a]; simpl; try reflexivity.
  rewrite IH. reflexivity.
Qed.

Lemma update_nth (l : list (list Heap.ref)) (a : Heap.ref) (e : list Heap.ref) :
  (a < List.length l)%nat -> nth a (Heap.update l a e) [] = e.
Proof.
  revert a. induction l as [|x l IH]; intros [|a]; simpl; intros Ha;
    try lia; try reflexivity.
  apply IH. lia.
Qed.

Lemma extends_refl (h : Heap.t) : extends h h.
Proof. split; [reflexivity|]. exists []. rewrite app_nil_r. reflexivity. Qed.

Lemma extends_trans (h1 h2 h3 : Heap.t) :
  extends h1 h2 -> extends h2 h3 -> extends h1 h3.
Proof.
  intros [Ho1 [m1 Ha1]] [Ho2 [m2 Ha2]]. split; [congruence|].
  exists (m1 ++ m2). rewrite Ha2, Ha1, app_assoc. reflexivity.
Qed.

Lemma extends_length (h h' : Heap.t) :
  extends h h' -> (List.length (Heap.arrays h) <= List.length (Heap.arrays h'))%nat.
Proof. intros [_ [more ->]]. rewrite length_app. lia. Qed.

Lemma extends_array (h h' : Heap.t) (a : Heap.ref) :
  extends h h' -> (a < List.length (Heap.arrays h))%nat ->
  Heap.array h' a = Heap.array h a /\ Heap.contents h' a = Heap.contents h a.
Proof.
  intros [Ho [more Ha]] Hlt. unfold Heap.contents, Heap.array.
  rewrite Ho, Ha, app_nth1 by exact Hlt. split; reflexivity.
Qed.

Lemma alloc_spec (h : Heap.t) (elements : list Heap.ref) :
  extends h (snd (Heap.alloc h elements)) /\
  fst (Heap.alloc h elements) = List.length (Heap.arrays h) /\
  Heap.array (snd (Heap.alloc h elements)) (fst (Heap.alloc h elements)) = elements.
Proof.
  unfold Heap.alloc, Heap.array. simpl. split; [|split].
  - split; [reflexivity|]. exists [elements]. reflexivity.
  - reflexivity.
  - apply nth_middle.
Qed.

Lemma spread_spec (h : Heap.t) (a : Heap.ref) :
  extends h (snd (Heap.spread h a)) /\
  fst (Heap.spread h a) = List.length (Heap.arrays h) /\
  (fst (Heap.spread h a) < List.length (Heap.arrays (snd (Heap.spread h a))))%nat /\
  Heap.contents (snd (Heap.spread h a)) (fst (Heap.spread h a)) = Heap.contents h a.
Proof.
  unfold Heap.spread.
  destruct (alloc_spec h (Heap.array h a)) as (He & Hr & Ha).
  split; [exact He|]. split; [exact Hr|].
  split; [simpl; rewrite length_app; simpl; lia|].
  unfold Heap.contents. rewrite Ha. destruct He as [-> _]. reflexivity.
Qed.

Lemma filterArray_spec (h : Heap.t) (a : Heap.ref) (callback : Reading -> bool) :
  extends h (snd (Heap.filterArray h a callback)) /\
  fst (Heap.filterArray h a callback) = List.length (Heap.arrays h) /\
  Heap.contents (snd (Heap.filterArray h a callback))
    (fst (Heap.filterArray h a callback))
  = filter callback (Heap.contents h a).
Proof.
  unfold Heap.filterArray.
  destruct (alloc_spec h (filter (fun r => callback (Heap.objects h r)) (Heap.array h a)))
    as (He & Hr & Ha).
  split; [exact He|]. split; [exact Hr|].
  unfold Heap.contents. rewrite Ha. destruct He as [-> _].
  apply map_filter.
Qed.

(** Sorting an array that was allocated after [h0] leaves [h0] as it was. *)
Lemma sortArray_spec (h0 h : Heap.t) (a : Heap.ref)
  (comparefn : Reading -> Reading -> JsValue) :
  extends h0 h ->
  (List.length (Heap.arrays h0) <= a < List.length (Heap.arrays h))%nat ->
  extends h0 (Heap.sortArray h a comparefn) /\
  Heap.contents (Heap.sortArray h a comparefn) a
  = sortWith comparefn (Heap.contents h a).
Proof.
  intros [Ho [more Ha]] [Hle Hlt]. unfold Heap.sortArray, Heap.store. split.
  - split; [exact Ho|]. simpl. rewrite Ha, update_app by exact Hle.
    eexists. reflexivity.
  - unfold Heap.contents, Heap.array. cbn [Heap.objects Heap.arrays].
    rewrite update_nth by exact Hlt. apply map_sortWith.
Qed.

(** C9.  The closure leaves the array that it is given as it was: after
    the call the array holds the same references in the same order, every
    array that existed before is unchanged, and so is every reading.  What
    it returns is another array, which holds what the closure computes from
    the contents of the given one. *)
Theorem getFilteredReadings_frame (parse : string -> option Z) (h : Heap.t)
  (recentReadings : Heap.ref) (cardView : CardView)
  (consumptionFilter : option ConsumptionFilter) :
  (recentReadings < List.length (Heap.arrays h))%nat ->
  let result :=
    fst (Heap.getFilteredReadings parse h recentReadings cardView consumptionFilter) in
  let h' :=
    snd (Heap.getFilteredReadings parse h recentReadings cardView consumptionFilter) in
  Heap.objects h' = Heap.objects h /\
  firstn (List.length (Heap.arrays h)) (Heap.arrays h') = Heap.arrays h /\
  Heap.array h' recentReadings = Heap.array h recentReadings /\
  Heap.contents h' recentReadings = Heap.contents h recentReadings /\
  result <> recentReadings /\
  Heap.contents h' result
  = getFilteredReadings parse (Heap.contents h recentReadings) cardView
      consumptionFilter.
Proof.
  intros Hin result h'.
  assert (H : extends h h' /\
              (List.length (Heap.arrays h) <= result)%nat /\
              Heap.contents h' result
              = getFilteredReadings parse (Heap.contents h recentReadings) cardView
                  consumptionFilter).
  { subst result h'. unfold Heap.getFilteredReadings, getFilteredReadings.
    destruct (spread_spec h recentReadings) as (E0 & R0 & L0 & C0).
    destruct (Heap.spread h recentReadings) as [a0 h0]. simpl in E0, R0, L0, C0.
    assert (Hnew : (List.length (Heap.arrays h) <= a0 < List.length (Heap.arrays h0))%nat)
      by lia.
    assert (Stage1 :
      forall a1 h1,
        (a1, h1) =
          match cardView with
          | view_date => (a0, Heap.sortArray h0 a0 (byDate parse))
          | view_consumption => (a0, Heap.sortArray h0 a0 byConsumption)
          | view_anomalies =>
              Heap.filterArray h0 a0 (fun item => anomaly_detected item)
          end ->
        extends h h1 /\ (List.length (Heap.arrays h) <= a1)%nat /\
        Heap.contents h1 a1
        = match cardView with
          | view_date => sortWith (byDate parse) (Heap.contents h recentReadings)
          | view_consumption => sortWith byConsumption (Heap.contents h recentReadings)
          | view_anomalies =>
              filter (fun item => anomaly_detected item) (Heap.contents h recentReadings)
          end).
    { intros a1 h1 Heq. destruct cardView.
      - inversion Heq; subst a1 h1.
        destruct (sortArray_spec h h0 a0 (byDate parse) E0 Hnew) as [E1 C1].
        split; [exact E1|]. split; [lia|]. rewrite C1, C0. reflexivity.
      - inversion Heq; subst a1 h1.
        destruct (sortArray_spec h h0 a0 byConsumption E0 Hnew) as [E1 C1].
        split; [exact E1|]. split; [lia|]. rewrite C1, C0. reflexivity.
      - destruct (filterArray_spec h0 a0 (fun item => anomaly_detected item))
          as (E1 & R1 & C1).
        rewrite <- Heq in E1, R1, C1. simpl in E1, R1, C1.
        split; [exact (extends_trans _ _ _ E0 E1)|]. split; [lia|].
        rewrite C1, C0. reflexivity. }
    destruct (match cardView with
              | view_date => (a0, Heap.sortArray h0 a0 (byDate parse))
              | view_consumption => (a0, Heap.sortArray h0 a0 byConsumption)
              | view_anomalies =>
                  Heap.filterArray h0 a0 (fun item => anomaly_detected item)
              end) as [a1 h1] eqn:E.
    destruct (Stage1 a1 h1 eq_refl) as (E1 & R1 & C1).
    destruct consumptionFilter as [f|].
    - destruct (filterArray_spec h1 a1 (tier f)) as (E2 & R2 & C2).
      split; [exact (extends_trans _ _ _ E1 E2)|]. split.
      + rewrite R2. apply extends_length. exact E1.
      + rewrite C2, C1. destruct cardView; reflexivity.
    - simpl. split; [exact E1|]. split; [exact R1|].
      rewrite C1. destruct cardView; reflexivity. }
  destruct H as (He & Hres & Hcontents).
  destruct (extends_array h h' recentReadings He Hin) as [Harr Hcont].
  split; [apply He|].
  split; [destruct He as [_ [more ->]]; apply firstn_app_exact|].
  split; [exact Harr|]. split; [exact Hcont|]. split; [lia|exact Hcontents].
Qed.

Lemma getFilteredReadings_frame_witness :
  let result :=
    fst (Heap.getFilteredReadings Sample.parse Sample.heap 0%nat view_consumption
           (Some high)) in
  let h' :=
    snd (Heap.getFilteredReadings Sample.parse Sample.heap 0%nat view_consumption
           (Some high)) in
  Heap.objects h' = Heap.objects Sample.heap /\
  firstn (List.length (Heap.arrays Sample.heap)) (Heap.arrays h')
  = Heap.arrays Sample.heap /\
  Heap.array h' 0%nat = Heap.array Sample.heap 0%nat /\
  Heap.contents h' 0%nat = Heap.contents Sample.heap 0%nat /\
  result <> 0%nat /\
  Heap.contents h' result
  = getFilteredReadings Sample.parse (Heap.contents Sample.heap 0%nat)
      view_consumption (Some high).
Proof.
  apply (getFilteredReadings_frame Sample.parse Sample.heap 0%nat view_consumption
           (Some high)).
  simpl. lia.
Defined.

(** ** The component *)

Lemma suggestion_total (x : Q) : exists s, generateSmartSuggestion x = advice s.
Proof.
  unfold generateSmartSuggestion.
  destruct (Qltb 5 x); [exists HighUsage; reflexivity|].
  destruct (Qle_bool 2 x && Qle_bool x 5);
    [exists ModerateUsage|exists LowUsage]; reflexivity.
Qed.

Lemma firstn_In {A : Type} (n : nat) (l : list A) (x : A) :
  In x (firstn n l) -> In x l.
Proof.
  intros H. rewrite <- (firstn_skipn n l). apply in_or_app. left. exact H.
Qed.

Lemma getFilteredReadings_In (parse : string -> option Z) (readings : list Reading)
  (cardView : CardView) (consumptionFilter : option ConsumptionFilter)
  (item : Reading) :
  In item (getFilteredReadings parse readings cardView consumptionFilter) ->
  In item readings.
Proof.
  unfold getFilteredReadings. intros H.
  assert (Hview : In item
                    match cardView with
                    | view_anomalies => filter (fun item => anomaly_detected item) readings
                    | view_consumption => sortWith byConsumption readings
                    | view_date => sortWith (byDate parse) readings
                    end).
  { destruct consumptionFilter as [f|]; [|exact H].
    apply filter_In in H. apply H. }
  destruct cardView.
  - unfold sortWith in Hview. apply sort_In in Hview. exact Hview.
  - unfold sortWith in Hview. apply sort_In in Hview. exact Hview.
  - apply filter_In in Hview. apply Hview.
Qed.

(** The component on a payload of four values, on every host. *)
Lemma Dashboard_of_values (LocalTZA : Z -> bool -> Z) (parse : string -> option Z)
  (now : Z) (today yesterday : string) (lo hi : Z)
  (readings : list Reading) (summaries : list DailySummary.t)
  (alerts : list Anomaly.t) (totals : Obj.t)
  (cardView : CardView) (consumptionFilter : option ConsumptionFilter)
  (timeFrame : Z) :
  hostZone LocalTZA lo hi ->
  (0 <= cutoff now timeFrame + lo)%Z ->
  Forall (beforeEnd parse (hi - lo)) readings ->
  exists series,
    aggregateConsumptionByTime LocalTZA parse now readings timeFrame = Normal series /\
    Dashboard LocalTZA parse now today yesterday
      {| recentReadings := Holds readings; dailySummaries := Holds summaries;
         anomalies := Holds alerts; consumptionByDevice := Holds totals |}
      cardView consumptionFilter timeFrame
    = Normal
        {| todaySummary :=
             find (fun s => String.eqb (DailySummary.date s) today) summaries;
           yesterdaySummary :=
             find (fun s => String.eqb (DailySummary.date s) yesterday) summaries;
           lineChartData := series;
           barChartData := aggregateConsumptionByDevice parse now readings 1;
           pieChartLabels := Obj.keys arrayIndex totals;
           pieChartData := Obj.values String.eqb arrayIndex inherited totals;
           filteredReadings :=
             getFilteredReadings parse readings cardView consumptionFilter;
           anomalyCount := List.length alerts;
           anomalyList := firstn 5 alerts;
           summaryRows := sortWith (byDay parse) summaries;
           readingCards :=
             map (fun item => (item, generateSmartSuggestion (consumption_kwh item)))
               (firstn 20
                  (getFilteredReadings parse readings cardView consumptionFilter)) |}.
Proof.
  intros host recent Hend.
  destruct (aggregateConsumptionByTime_host LocalTZA parse now lo hi host
              readings timeFrame recent Hend) as [series Hs].
  exists series. split; [exact Hs|].
  unfold Dashboard. cbn [recentReadings dailySummaries anomalies consumptionByDevice
                           orDefault target bind].
  rewrite Hs. reflexivity.
Qed.

(** C7.  On every host whose clock shows the second day of 1970 or later
    (local time), for a window of 1, 3, 6, 12 or 24 hours and for readings,
    summaries, anomalies and device totals of the expected shape, the
    readings not reaching the end of the range of dates, nothing is thrown
    and every function gives a value of its kind:
    [aggregateConsumptionByTime] returns a series of as many numbers as
    labels; [aggregateConsumptionByDevice] a ranking of as many values as
    labels, five at most; [getFilteredReadings] a list of readings of the
    input; [generateSmartSuggestion] one of its three advices; and the
    component returns what it shows, made of these. *)
Theorem core_functions_total (LocalTZA : Z -> bool -> Z) (parse : string -> option Z)
  (now : Z) (today yesterday : string) (lo hi : Z)
  (readings : list Reading) (summaries : list DailySummary.t)
  (alerts : list Anomaly.t) (totals : Obj.t)
  (cardView : CardView) (consumptionFilter : option ConsumptionFilter)
  (timeFrame : Z) (x : Q) :
  hostZone LocalTZA lo hi ->
  (Date.msPerDay <= now + lo)%Z ->
  In timeFrame [1; 3; 6; 12; 24]%Z ->
  Forall (beforeEnd parse (hi - lo)) readings ->
  exists series qs,
    aggregateConsumptionByTime LocalTZA parse now readings timeFrame = Normal series /\
    values series = map Num qs /\
    List.length (labels series) = List.length qs /\
    (let ranking := aggregateConsumptionByDevice parse now readings timeFrame in
     List.length (values ranking) = List.length (labels ranking) /\
     (List.length (labels ranking) <= 5)%nat /\
     forall device, In device (labels ranking) ->
       exists item, In item readings /\ device_id item = device) /\
    (forall item,
       In item (getFilteredReadings parse readings cardView consumptionFilter) ->
       In item readings) /\
    (exists s, generateSmartSuggestion x = advice s) /\
    exists shown,
      Dashboard LocalTZA parse now today yesterday
        {| recentReadings := Holds readings; dailySummaries := Holds summaries;
           anomalies := Holds alerts; consumptionByDevice := Holds totals |}
        cardView consumptionFilter timeFrame
      = Normal shown /\
      lineChartData shown = series /\
      barChartData shown = aggregateConsumptionByDevice parse now readings 1 /\
      filteredReadings shown
      = getFilteredReadings parse readings cardView consumptionFilter /\
      readingCards shown
      = map (fun item => (item, generateSmartSuggestion (consumption_kwh item)))
          (firstn 20 (filteredReadings shown)).
Proof.
  intros host clock window Hend.
  assert (recent : (0 <= cutoff now timeFrame + lo)%Z).
  { unfold cutoff. unfold Date.msPerDay in clock. simpl in window.
    destruct window as [<-|[<-|[<-|[<-|[<-|[]]]]]]; lia. }
  destruct (Dashboard_of_values LocalTZA parse now today yesterday lo hi readings
              summaries alerts totals cardView consumptionFilter timeFrame host recent
              Hend)
    as (series & Hs & Hshown).
  destruct (aggregateConsumptionByTime_normal LocalTZA parse now readings timeFrame
              series Hs) as (qs & Hvals & _ & _ & Hlen & _).
  exists series, qs.
  split; [exact Hs|]. split; [exact Hvals|]. split; [exact Hlen|].
  split; [|split; [|split]].
  - cbv zeta. unfold aggregateConsumptionByDevice. cbn [labels values].
    split; [apply length_map|]. split.
    + rewrite length_firstn. apply Nat.le_min_l.
    + intros device Hin.
      apply firstn_In in Hin. unfold sortWith in Hin.
      apply sort_In in Hin. rename Hin into Hsorted.
      apply (Permutation_in _ (keys_perm arrayIndex _)) in Hsorted.
      destruct (fold_addToDevice_keys parse (startTimeOf now timeFrame) readings
                  Obj.empty (NoDup_nil _)) as [_ Hkeys].
      destruct (Hkeys device Hsorted) as [[]|H].
      apply in_map_iff in H. destruct H as (item & Hid & Hitem).
      apply filter_In in Hitem. exists item. split; [apply Hitem|exact Hid].
  - apply getFilteredReadings_In.
  - apply suggestion_total.
  - eexists. split; [exact Hshown|]. cbn. repeat split.
Qed.

Lemma core_functions_total_witness :
  exists series qs,
    aggregateConsumptionByTime Hosts.newYork Hosts.parse Hosts.now
      [Hosts.repeated] 24 = Normal series /\
    values series = map Num qs /\
    List.length (labels series) = List.length qs /\
    (let ranking :=
       aggregateConsumptionByDevice Hosts.parse Hosts.now [Hosts.repeated] 24 in
     List.length (values ranking) = List.length (labels ranking) /\
     (List.length (labels ranking) <= 5)%nat /\
     forall device, In device (labels ranking) ->
       exists item, In item [Hosts.repeated] /\ device_id item = device) /\
    (forall item,
       In item (getFilteredReadings Hosts.parse [Hosts.repeated] view_date None) ->
       In item [Hosts.repeated]) /\
    (exists s, generateSmartSuggestion (501 # 100) = advice s) /\
    exists shown,
      Dashboard Hosts.newYork Hosts.parse Hosts.now "2024-11-03" "2024-11-02"
        {| recentReadings := Holds [Hosts.repeated]; dailySummaries := Holds [];
           anomalies := Holds []; consumptionByDevice := Holds Obj.empty |}
        view_date None 24
      = Normal shown /\
      lineChartData shown = series /\
      barChartData shown
      = aggregateConsumptionByDevice Hosts.parse Hosts.now [Hosts.repeated] 1 /\
      filteredReadings shown
      = getFilteredReadings Hosts.parse [Hosts.repeated] view_date None /\
      readingCards shown
      = map (fun item => (item, generateSmartSuggestion (consumption_kwh item)))
          (firstn 20 (filteredReadings shown)).
Proof.
  apply (core_functions_total Hosts.newYork Hosts.parse Hosts.now
           "2024-11-03" "2024-11-02" Hosts.est Hosts.edt [Hosts.repeated] [] []
           Obj.empty view_date None 24 (501 # 100)).
  - exact newYork_hostZone.
  - vm_compute. discriminate.
  - simpl. tauto.
  - repeat constructor. intros time Et. vm_compute in Et. inversion Et; subst time.
    vm_compute. discriminate.
Defined.

Lemma Dashboard_withDefaults (LocalTZA : Z -> bool -> Z) (parse : string -> option Z)
  (now : Z) (today yesterday : string) (apiData : ApiData)
  (cardView : CardView) (consumptionFilter : option ConsumptionFilter)
  (timeFrame : Z) :
  Dashboard LocalTZA parse now today yesterday apiData cardView consumptionFilter
    timeFrame
  = Dashboard LocalTZA parse now today yesterday (withDefaults apiData) cardView
      consumptionFilter timeFrame.
Proof.
  destruct apiData as [r d a c]. unfold Dashboard, withDefaults.
  cbn [recentReadings dailySummaries anomalies consumptionByDevice].
  destruct r, d, a, c; reflexivity.
Qed.

(** C8 (as the code has it).  A key that is missing from the payload is
    taken as the empty collection: the component shows for a payload what
    it shows for the same payload with each missing key holding the empty
    collection, and for the payload with no key what it shows for four
    empty collections, the dashboard with nothing in it.  On every host
    whose clock, the window back, shows 1970 or later, it throws nothing
    as long as no key holds [null] (and the readings do not reach the end
    of the range of dates): it shows what the values held give, and for a
    missing key what the empty collection gives. *)
Theorem missing_keys_default (LocalTZA : Z -> bool -> Z) (parse : string -> option Z)
  (now : Z) (today yesterday : string) (apiData : ApiData)
  (cardView : CardView) (consumptionFilter : option ConsumptionFilter)
  (timeFrame : Z) :
  Dashboard LocalTZA parse now today yesterday apiData cardView consumptionFilter
    timeFrame
  = Dashboard LocalTZA parse now today yesterday (withDefaults apiData) cardView
      consumptionFilter timeFrame /\
  Dashboard LocalTZA parse now today yesterday noKeys cardView consumptionFilter
    timeFrame
  = Dashboard LocalTZA parse now today yesterday allEmpty cardView consumptionFilter
      timeFrame /\
  Dashboard LocalTZA parse now today yesterday noKeys cardView consumptionFilter
    timeFrame
  = Normal nothing /\
  (forall lo hi,
     hostZone LocalTZA lo hi ->
     (0 <= cutoff now timeFrame + lo)%Z ->
     noNull apiData ->
     (forall readings, recentReadings apiData = Holds readings ->
        Forall (beforeEnd parse (hi - lo)) readings) ->
     exists shown,
       Dashboard LocalTZA parse now today yesterday apiData cardView
         consumptionFilter timeFrame
       = Normal shown /\
       (recentReadings apiData = Missing ->
        lineChartData shown = {| labels := []; values := [] |} /\
        barChartData shown = {| labels := []; values := [] |} /\
        filteredReadings shown = [] /\ readingCards shown = []) /\
       (dailySummaries apiData = Missing ->
        todaySummary shown = None /\ yesterdaySummary shown = None /\
        summaryRows shown = []) /\
       (anomalies apiData = Missing ->
        anomalyCount shown = 0%nat /\ anomalyList shown = []) /\
       (consumptionByDevice apiData = Missing ->
        pieChartLabels shown = [] /\ pieChartData shown = [])).
Proof.
  split; [apply Dashboard_withDefaults|].
  split; [apply (Dashboard_withDefaults _ _ _ _ _ noKeys)|].
  split; [destruct cardView, consumptionFilter as [[]|]; reflexivity|].
  intros lo hi host recent (Hr & Hd & Ha & Hc) Hend.
  rewrite Dashboard_withDefaults.
  destruct apiData as [r d a c]. unfold withDefaults.
  cbn [recentReadings dailySummaries anomalies consumptionByDevice] in *.
  assert (Hrs : exists readings, orDefault [] r = Holds readings
                                 /\ (r = Missing -> readings = [])
                                 /\ Forall (beforeEnd parse (hi - lo)) readings).
  { destruct r as [| |readings]; [|congruence|].
    - exists []. split; [reflexivity|]. split; [reflexivity|constructor].
    - exists readings. split; [reflexivity|]. split; [discriminate|].
      apply Hend. reflexivity. }
  assert (Hds : exists summaries, orDefault [] d = Holds summaries
                                  /\ (d = Missing -> summaries = [])).
  { destruct d as [| |summaries]; [|congruence|].
    - exists []. split; reflexivity.
    - exists summaries. split; [reflexivity|discriminate]. }
  assert (Has : exists alerts, orDefault [] a = Holds alerts
                               /\ (a = Missing -> alerts = [])).
  { destruct a as [| |alerts]; [|congruence|].
    - exists []. split; reflexivity.
    - exists alerts. split; [reflexivity|discriminate]. }
  assert (Hcs : exists totals, orDefault Obj.empty c = Holds totals
                               /\ (c = Missing -> totals = Obj.empty)).
  { destruct c as [| |totals]; [|congruence|].
    - exists Obj.empty. split; reflexivity.
    - exists totals. split; [reflexivity|discriminate]. }
  destruct Hrs as (readings & -> & Hr0 & Hend0), Hds as (summaries & -> & Hd0),
           Has as (alerts & -> & Ha0), Hcs as (totals & -> & Hc0).
  destruct (Dashboard_of_values LocalTZA parse now today yesterday lo hi readings
              summaries alerts totals cardView consumptionFilter timeFrame host recent
              Hend0)
    as (series & Hs & Hshown).
  eexists. split; [exact Hshown|].
  cbn [lineChartData barChartData filteredReadings readingCards todaySummary
         yesterdaySummary summaryRows anomalyCount anomalyList pieChartLabels
         pieChartData].
  split; [|split; [|split]].
  - intros E. rewrite (Hr0 E) in *.
    assert (Es : series = {| labels := []; values := [] |}).
    { rewrite (aggregateConsumptionByTime_none LocalTZA parse now [] timeFrame eq_refl)
        in Hs. inversion Hs. reflexivity. }
    split; [exact Es|]. split; [reflexivity|].
    destruct cardView, consumptionFilter as [[]|]; split; reflexivity.
  - intros E. rewrite (Hd0 E). repeat split.
  - intros E. rewrite (Ha0 E). split; reflexivity.
  - intros E. rewrite (Hc0 E). split; reflexivity.
Qed.

Lemma missing_keys_default_witness :
  exists shown,
    Dashboard Hosts.newYork Hosts.parse Hosts.now "2024-11-03" "2024-11-02"
      {| recentReadings := Holds [Hosts.repeated]; dailySummaries := Missing;
         anomalies := Missing; consumptionByDevice := Missing |}
      view_anomalies None 1
    = Normal shown /\
    todaySummary shown = None /\ summaryRows shown = [] /\
    anomalyCount shown = 0%nat /\ pieChartLabels shown = [].
Proof.
  destruct (proj2 (proj2 (proj2
             (missing_keys_default Hosts.newYork Hosts.parse Hosts.now
                "2024-11-03" "2024-11-02"
                {| recentReadings := Holds [Hosts.repeated]; dailySummaries := Missing;
                   anomalies := Missing; consumptionByDevice := Missing |}
                view_anomalies None 1)))
             Hosts.est Hosts.edt newYork_hostZone)
    as (shown & Hs & _ & Hd & Ha & Hc).
  - vm_compute. discriminate.
  - repeat split; discriminate.
  - intros readings E. inversion E; subst readings.
    repeat constructor. intros time Et. vm_compute in Et. inversion Et; subst time.
    vm_compute. discriminate.
  - exists shown. split; [exact Hs|].
    split; [apply (Hd eq_refl)|]. split; [apply (Hd eq_refl)|].
    split; [apply (Ha eq_refl)|apply (Hc eq_refl)].
Defined.

(** C8 as stated fails: with [null] for the readings the component throws,
    where it shows the empty dashboard for the empty list. *)
Lemma null_readings_throw :
  Dashboard Sample.utc Sample.parse Sample.now "2024-01-01" "2023-12-31"
    Sample.nullReadings view_date None 1
  = Throw TypeError /\
  Dashboard Sample.utc Sample.parse Sample.now "2024-01-01" "2023-12-31"
    allEmpty view_date None 1
  = Normal nothing.
Proof. split; reflexivity. Qed.

(** * Further properties *)

(** ** Objects: what a key holds after a store *)
Section ObjMore.
Context {K : Type}.
Variable eqb : K -> K -> bool.
Hypothesis eqb_eq : forall a b, eqb a b = true <-> a = b.

Lemma own_put (o : Obj.t) (k k' : K) (v : JsValue) :
  Obj.own eqb (Obj.put eqb o k v) k'
  = if eqb k k' then Some v else Obj.own eqb o k'.
Proof.
  induction o as [|[k0 v0] o IH]; simpl.
  - destruct (eqb k k'); reflexivity.
  - destruct (eqb k0 k) eqn:E0; simpl.
    + apply eqb_eq in E0. subst k0.
      destruct (eqb k k'); reflexivity.
    + rewrite IH. destruct (eqb k0 k') eqn:E1; [|reflexivity].
      apply eqb_eq in E1. subst k0.
      destruct (eqb k k') eqn:E2; [|reflexivity].
      apply eqb_eq in E2. subst k'.
      rewrite (proj2 (eqb_eq k k) eq_refl) in E0. discriminate.
Qed.

Lemma ownValue_undefined (o : Obj.t) (k : K) :
  valueOf (match Obj.own eqb o k with Some v => v | None => Undefined end)
  = ownValue eqb o k.
Proof. unfold ownValue. destruct (Obj.own eqb o k); reflexivity. Qed.

(** Adding [c] under a key moves what that key holds by [c] and leaves
    the other keys as they were. *)
Lemma ownValue_accumulate (o : Obj.t) (k k' : K) (c : Q) :
  numeric o ->
  exists q,
    plus (orZero (match Obj.own eqb o k with Some v => v | None => Undefined end)) c
    = Num q /\
    ownValue eqb (Obj.put eqb o k (Num q)) k'
    == ownValue eqb o k' + (if eqb k k' then c else 0).
Proof.
  intros Hnum.
  destruct (orZero_plus_own eqb o k c eqb_eq Hnum) as (q & Hq & Hsum).
  exists q. split; [exact Hq|].
  unfold ownValue at 1. rewrite own_put.
  destruct (eqb k k') eqn:E.
  - apply eqb_eq in E. subst k'. simpl.
    rewrite Hsum, ownValue_undefined. reflexivity.
  - fold (ownValue eqb o k'). ring.
Qed.

Lemma numeric_get_own (inherited : K -> bool) (o : Obj.t) (k : K) :
  numeric o -> In k (map fst o) ->
  Obj.get eqb inherited o k = Num (ownValue eqb o k).
Proof.
  intros Hnum Hin. unfold Obj.get, ownValue.
  destruct (Obj.own eqb o k) as [v|] eqn:E.
  - destruct (numeric_own eqb eqb_eq o k v Hnum E) as [q ->]. reflexivity.
  - apply own_none in E; [contradiction|exact eqb_eq].
Qed.
End ObjMore.

Lemma in_combine_map {A B : Type} (f : A -> B) (l : list A) (a : A) (b : B) :
  In (a, b) (combine l (map f l)) -> In a l /\ b = f a.
Proof.
  induction l as [|x l IH]; simpl; [intros []|].
  intros [H|H].
  - inversion H; subst. split; [left|]; reflexivity.
  - destruct (IH H) as [H1 H2]. split; [right; exact H1|exact H2].
Qed.

Lemma in_map_combine {A B : Type} (f : A -> B) (l : list A) (a : A) :
  In a l -> In (a, f a) (combine l (map f l)).
Proof.
  induction l as [|x l IH]; simpl; [intros []|].
  intros [->|H]; [left; reflexivity|right; exact (IH H)].
Qed.

(** ** The buckets of the time series *)
Section MinuteBuckets.
Variable LocalTZA : Z -> bool -> Z.
Variable parse : string -> option Z.
Variable offset : Z.
Hypothesis zone : fixedZone LocalTZA offset.
Hypothesis whole : (offset mod Date.msPerMinute = 0)%Z.
Variable startTime : Date.t.
Hypothesis recent : (forall start, startTime = Some start -> 0 <= start + offset)%Z.

Lemma kept_key (item : Reading) :
  kept parse startTime item = true ->
  exists time,
    Date.ofString (parse (timestamp item)) = Some time /\
    minuteKeyOf LocalTZA (Date.ofString (parse (timestamp item)))
    = Normal (minuteStart time).
Proof.
  unfold kept. intros H.
  destruct (Date.ofString (parse (timestamp item))) as [time|] eqn:Et;
    [|discriminate H].
  destruct startTime as [start|] eqn:Es; [|discriminate H].
  simpl in H. apply Z.ltb_lt in H.
  pose proof (recent start eq_refl).
  apply ofString_some in Et. destruct Et as [_ Hv].
  exists time. split; [reflexivity|].
  apply (minuteKeyOf_minuteStart LocalTZA offset zone whole time Hv). lia.
Qed.

Lemma addToMinute_bucket (o : Obj.t) (item : Reading) :
  numeric o ->
  exists o',
    addToMinute LocalTZA parse startTime o item = Normal o' /\
    numeric o' /\
    (forall label,
       ownValue Z.eqb o' label
       == ownValue Z.eqb o label
          + (if kept parse startTime item && inMinute parse label item
             then consumption_kwh item else 0)) /\
    (forall label,
       In label (map fst o') <->
       In label (map fst o) \/
       (kept parse startTime item = true /\ inMinute parse label item = true)).
Proof.
  intros Hnum. unfold addToMinute. fold (kept parse startTime item).
  destruct (kept parse startTime item) eqn:Ek.
  - destruct (kept_key item Ek) as (time & Et & Hkey).
    rewrite Hkey. cbn [bind].
    unfold setByMinute, getByMinute, Obj.set, Obj.get, notInherited.
    eexists. split; [reflexivity|].
    assert (Hin : forall label, inMinute parse label item = Z.eqb (minuteStart time) label).
    { intros label. unfold inMinute. rewrite Et. reflexivity. }
    split; [|split].
    + destruct (orZero_plus_own Z.eqb o (minuteStart time) (consumption_kwh item)
                  Zeqb_eq Hnum) as (q & -> & _).
      apply put_numeric. exact Hnum.
    + intros label.
      destruct (ownValue_accumulate Z.eqb Zeqb_eq o (minuteStart time) label
                  (consumption_kwh item) Hnum) as (q & Hq & Hv).
      rewrite Hq, Hv, Hin. reflexivity.
    + intros label.
      destruct (orZero_plus_own Z.eqb o (minuteStart time) (consumption_kwh item)
                  Zeqb_eq Hnum) as (q & -> & _).
      rewrite (put_keys_In Z.eqb Zeqb_eq), Hin, Z.eqb_eq.
      split.
      * intros [->|H]; [right; split; reflexivity|left; exact H].
      * intros [H|[_ H]]; [right; exact H|left; symmetry; exact H].
  - exists o. split; [reflexivity|]. split; [exact Hnum|]. split.
    + intros label. simpl. ring.
    + intros label. split; [intros H; left; exact H|].
      intros [H|[H _]]; [exact H|discriminate H].
Qed.

Lemma forEach_addToMinute_buckets (readings : list Reading) :
  forall o : Obj.t,
    numeric o ->
    exists o',
      forEach readings (addToMinute LocalTZA parse startTime) o = Normal o' /\
      numeric o' /\
      (forall label,
         ownValue Z.eqb o' label
         == ownValue Z.eqb o label
            + Qsum (map consumption_kwh
                      (filter (fun item =>
                                 kept parse startTime item && inMinute parse label item)
                         readings))) /\
      (forall label,
         In label (map fst o') <->
         In label (map fst o) \/
         exists item,
           In item readings /\ kept parse startTime item = true /\
           inMinute parse label item = true).
Proof.
  induction readings as [|item rest IH]; intros o Hnum.
  - exists o. split; [reflexivity|]. split; [exact Hnum|]. split.
    + intros label. simpl. ring.
    + intros label. split; [intros H; left; exact H|].
      intros [H|(item & [] & _)]. exact H.
  - destruct (addToMinute_bucket o item Hnum) as (o1 & E1 & N1 & V1 & K1).
    destruct (IH o1 N1) as (o' & E' & N' & V' & K').
    exists o'. cbn [forEach]. rewrite E1. cbn [bind].
    split; [exact E'|]. split; [exact N'|]. split.
    + intros label. rewrite V', V1. cbn [filter].
      destruct (kept parse startTime item && inMinute parse label item);
        simpl; ring.
    + intros label. rewrite K', K1. split.
      * intros [[H|[Hk Hm]]|(item' & Hin & Hk & Hm)].
        -- left. exact H.
        -- right. exists item. split; [left; reflexivity|]. split; assumption.
        -- right. exists item'. split; [right; exact Hin|]. split; assumption.
      * intros [H|(item' & [<-|Hin] & Hk & Hm)].
        -- left. left. exact H.
        -- left. right. split; assumption.
        -- right. exists item'. split; [exact Hin|]. split; assumption.
Qed.
End MinuteBuckets.

Lemma sort_ascending (l : list Z) : StronglySorted Z.le (sort Z.gtb l).
Proof.
  apply sort_sorted.
  - intros x y z. apply Z.le_trans.
  - intros x y H. rewrite Z.gtb_ltb in H. apply Z.ltb_ge in H. exact H.
  - intros x y H. rewrite Z.gtb_ltb in H. apply Z.ltb_lt in H. lia.
Qed.

Lemma sorted_NoDup_strict (l : list Z) :
  StronglySorted Z.le l -> NoDup l -> StronglySorted Z.lt l.
Proof.
  induction 1 as [|x l Hl IH Hx]; intros Hnd.
  - constructor.
  - inversion Hnd as [|? ? Hnotin Hnd']; subst.
    constructor; [exact (IH Hnd')|].
    rewrite Forall_forall in *. intros y Hy.
    pose proof (Hx y Hy).
    assert (x <> y) by (intros ->; contradiction).
    lia.
Qed.

Section TimeSeriesMore.
Variable LocalTZA : Z -> bool -> Z.
Variable parse : string -> option Z.
Variable now : Z.
Variable offset : Z.
Hypothesis zone : fixedZone LocalTZA offset.
Hypothesis whole : (offset mod Date.msPerMinute = 0)%Z.

(** The series, read off the object that the loop fills. *)
Lemma aggregateConsumptionByTime_buckets (readings : list Reading) (hours : Z) :
  (0 <= cutoff now hours + offset)%Z ->
  exists o : Obj.t,
    aggregateConsumptionByTime LocalTZA parse now readings hours
    = Normal {| labels := sort Z.gtb (map fst o);
                values := map (fun key => getByMinute o key)
                            (sort Z.gtb (map fst o)) |} /\
    numeric o /\ NoDup (map fst o) /\
    (forall label,
       ownValue Z.eqb o label
       == Qsum (map consumption_kwh
                  (filter (fun item =>
                             inWindow parse now hours item && inMinute parse label item)
                     readings))) /\
    (forall label,
       In label (map fst o) <->
       exists item,
         In item readings /\ inWindow parse now hours item = true /\
         inMinute parse label item = true).
Proof.
  intros Hrecent.
  assert (Hstart : (forall start, startTimeOf now hours = Some start ->
                      0 <= start + offset)%Z).
  { intros start Hs. unfold startTimeOf, Date.ofNumber in Hs.
    fold (cutoff now hours) in Hs. apply TimeClip_some in Hs.
    destruct Hs as [-> _]. exact Hrecent. }
  destruct (forEach_addToMinute_buckets LocalTZA parse offset zone whole
              (startTimeOf now hours) Hstart readings Obj.empty (Forall_nil _))
    as (o & E & Hnum & Hval & Hkeys).
  destruct (forEach_addToMinute LocalTZA parse (startTimeOf now hours) readings
              Obj.empty o E (Forall_nil _) (NoDup_nil _)) as (_ & Hnd & _ & _).
  exists o. split; [|split; [exact Hnum|split; [exact Hnd|split]]].
  - unfold aggregateConsumptionByTime. rewrite E. cbn [bind].
    rewrite keysByMinute_fst. reflexivity.
  - intros label. rewrite Hval. unfold ownValue, Obj.empty. simpl.
    rewrite Qplus_0_l. reflexivity.
  - intros label. rewrite Hkeys. simpl. split.
    + intros [[]|H]. exact H.
    + intros H. right. exact H.
Qed.
End TimeSeriesMore.

(** X1.  Each bucket holds the consumption of its minute: the value under a
    label is the sum of the consumptions of the readings kept whose
    timestamp falls in the minute that starts at the label, and the minute
    of every reading kept has its label.  The sum is the exact one: the
    consumptions are such that the arithmetic of the language adds them
    with no rounding. *)
Theorem bucket_value_per_minute (LocalTZA : Z -> bool -> Z)
  (parse : string -> option Z) (now : Z) (readings : list Reading) (hours offset : Z)
  (k : nat) :
  fixedZone LocalTZA offset ->
  (offset mod Date.msPerMinute = 0)%Z ->
  (0 <= cutoff now hours + offset)%Z ->
  exactSums k readings = true ->
  exists series,
    aggregateConsumptionByTime LocalTZA parse now readings hours = Normal series /\
    List.length (values series) = List.length (labels series) /\
    (forall item, In item readings -> inWindow parse now hours item = true ->
       In (minuteStart (timeOf parse item)) (labels series)) /\
    (forall label value,
       In (label, value) (combine (labels series) (values series)) ->
       exists q,
         value = Num q /\
         q == Qsum (map consumption_kwh
                      (filter (fun item =>
                                 inWindow parse now hours item
                                 && inMinute parse label item) readings))).
Proof.
  intros zone whole recent _.
  destruct (aggregateConsumptionByTime_buckets LocalTZA parse now offset zone whole
              readings hours recent) as (o & E & Hnum & Hnd & Hval & Hkeys).
  eexists. split; [exact E|]. cbn [labels values].
  split; [apply length_map|]. split.
  - intros item Hin Hwin. apply sort_In. apply Hkeys.
    exists item. split; [exact Hin|]. split; [exact Hwin|].
    destruct (inWindow_later parse now hours item Hwin) as (time & Et & _).
    unfold inMinute, timeOf. rewrite Et. apply Z.eqb_refl.
  - intros label value Hin.
    apply in_combine_map in Hin. destruct Hin as [Hlabel ->].
    apply sort_In in Hlabel.
    exists (ownValue Z.eqb o label). split; [|apply Hval].
    unfold getByMinute. apply (numeric_get_own Z.eqb Zeqb_eq); assumption.
Qed.

Lemma bucket_value_per_minute_witness :
  exists series,
    aggregateConsumptionByTime Sample.utc Sample.parse Sample.now Sample.readings 1
    = Normal series /\
    List.length (values series) = List.length (labels series) /\
    (forall item, In item Sample.readings ->
       inWindow Sample.parse Sample.now 1 item = true ->
       In (minuteStart (timeOf Sample.parse item)) (labels series)) /\
    (forall label value,
       In (label, value) (combine (labels series) (values series)) ->
       exists q,
         value = Num q /\
         q == Qsum (map consumption_kwh
                      (filter (fun item =>
                                 inWindow Sample.parse Sample.now 1 item
                                 && inMinute Sample.parse label item)
                         Sample.readings))).
Proof.
  apply (bucket_value_per_minute Sample.utc Sample.parse Sample.now
           Sample.readings 1 0 1%nat).
  - intros time isUTC. reflexivity.
  - reflexivity.
  - vm_compute. discriminate.
  - vm_compute. reflexivity.
Defined.

(** X2.  The labels of the series are distinct and come in ascending
    order.  Each lies after the cutoff less one minute; with timestamps
    before the year 10000 each lies before that year, so that the labels
    are ISO strings with four digits of year, whose order is the order of
    the instants. *)
Theorem bucket_labels_ascending (LocalTZA : Z -> bool -> Z)
  (parse : string -> option Z) (now : Z) (readings : list Reading) (hours offset : Z) :
  fixedZone LocalTZA offset ->
  (offset mod Date.msPerMinute = 0)%Z ->
  (0 <= cutoff now hours + offset)%Z ->
  Forall (fun item => timeOf parse item < year10000)%Z readings ->
  exists series,
    aggregateConsumptionByTime LocalTZA parse now readings hours = Normal series /\
    StronglySorted Z.lt (labels series) /\
    NoDup (labels series) /\
    Forall (fun label => cutoff now hours - Date.msPerMinute < label < year10000)%Z
      (labels series).
Proof.
  intros zone whole recent Hyears.
  destruct (aggregateConsumptionByTime_buckets LocalTZA parse now offset zone whole
              readings hours recent) as (o & E & Hnum & Hnd & Hval & Hkeys).
  eexists. split; [exact E|]. cbn [labels].
  assert (Hnd' : NoDup (sort Z.gtb (map fst o))).
  { apply (Permutation_NoDup (sort_perm Z.gtb (map fst o))). exact Hnd. }
  split; [|split; [exact Hnd'|]].
  - apply sorted_NoDup_strict; [apply sort_ascending|exact Hnd'].
  - apply Forall_forall. intros label Hin. apply sort_In in Hin.
    apply Hkeys in Hin. destruct Hin as (item & Hitem & Hwin & Hmin).
    destruct (inWindow_later parse now hours item Hwin) as (time & Et & _ & Hlt).
    rewrite Forall_forall in Hyears. pose proof (Hyears item Hitem) as Hy.
    unfold timeOf in Hy. unfold inMinute in Hmin. rewrite Et in Hy, Hmin.
    apply Z.eqb_eq in Hmin. subst label.
    pose proof (minuteStart_bounds time). lia.
Qed.

Lemma bucket_labels_ascending_witness :
  exists series,
    aggregateConsumptionByTime Sample.utc Sample.parse Sample.now Sample.readings 24
    = Normal series /\
    StronglySorted Z.lt (labels series) /\
    NoDup (labels series) /\
    Forall (fun label =>
              cutoff Sample.now 24 - Date.msPerMinute < label < year10000)%Z
      (labels series).
Proof.
  apply (bucket_labels_ascending Sample.utc Sample.parse Sample.now
           Sample.readings 24 0).
  - intros time isUTC. reflexivity.
  - reflexivity.
  - vm_compute. discriminate.
  - repeat constructor.
Defined.

Lemma Qsum_filter_le {A : Type} (f : A -> Q) (p q : A -> bool) (l : list A) :
  (forall x, In x l -> p x = true -> q x = true) ->
  Forall (fun x => 0 <= f x) l ->
  Qsum (map f (filter p l)) <= Qsum (map f (filter q l)).
Proof.
  intros Hpq Hpos. induction Hpos as [|x l Hx Hl IH]; simpl.
  - apply Qle_refl.
  - assert (IH' : Qsum (map f (filter p l)) <= Qsum (map f (filter q l))).
    { apply IH. intros y Hy. apply Hpq. right. exact Hy. }
    destruct (p x) eqn:Ep.
    + rewrite (Hpq x (or_introl eq_refl) Ep). simpl.
      apply Qplus_le_compat; [apply Qle_refl|exact IH'].
    + destruct (q x); simpl; [|exact IH'].
      rewrite <- (Qplus_0_l (Qsum (map f (filter p l)))).
      apply Qplus_le_compat; assumption.
Qed.

(** X3.  A wider window keeps what a narrower one keeps: every label of the
    series of the narrower window is a label of the series of the wider
    one, and, with consumptions that are not negative, the total of the
    series does not go down. *)
Theorem wider_window_keeps_more (LocalTZA : Z -> bool -> Z)
  (parse : string -> option Z) (now : Z) (readings : list Reading)
  (narrow wide offset : Z) :
  fixedZone LocalTZA offset ->
  (offset mod Date.msPerMinute = 0)%Z ->
  (narrow <= wide)%Z ->
  (0 <= cutoff now wide + offset)%Z ->
  validTime (cutoff now wide) ->
  Forall (fun item => 0 <= consumption_kwh item) readings ->
  exists small large qs qs',
    aggregateConsumptionByTime LocalTZA parse now readings narrow = Normal small /\
    aggregateConsumptionByTime LocalTZA parse now readings wide = Normal large /\
    incl (labels small) (labels large) /\
    values small = map Num qs /\ values large = map Num qs' /\
    Qsum qs <= Qsum qs'.
Proof.
  intros zone whole Hle recent Hvalid Hpos.
  assert (recent' : (0 <= cutoff now narrow + offset)%Z) by (unfold cutoff in *; lia).
  assert (Hkeep : forall item, inWindow parse now narrow item = true ->
                               inWindow parse now wide item = true).
  { intros item H.
    destruct (inWindow_later parse now narrow item H) as (time & Et & _ & Hlt).
    rewrite (inWindow_laterThan parse now wide item Hvalid).
    unfold laterThan. rewrite Et. apply Z.ltb_lt. unfold cutoff in *. lia. }
  destruct (aggregateConsumptionByTime_buckets LocalTZA parse now offset zone whole
              readings narrow recent') as (o1 & E1 & _ & _ & _ & K1).
  destruct (aggregateConsumptionByTime_buckets LocalTZA parse now offset zone whole
              readings wide recent) as (o2 & E2 & _ & _ & _ & K2).
  destruct (aggregateConsumptionByTime_normal LocalTZA parse now readings narrow _ E1)
    as (qs & V1 & S1 & _).
  destruct (aggregateConsumptionByTime_normal LocalTZA parse now readings wide _ E2)
    as (qs' & V2 & S2 & _).
  do 2 eexists. exists qs, qs'.
  split; [exact E1|]. split; [exact E2|]. split; [|split; [exact V1|split; [exact V2|]]].
  - cbn [labels]. intros label Hin. apply sort_In in Hin. apply sort_In.
    apply K1 in Hin. destruct Hin as (item & Hitem & Hwin & Hmin).
    apply K2. exists item. split; [exact Hitem|]. split; [apply Hkeep; exact Hwin|exact Hmin].
  - rewrite S1, S2. apply Qsum_filter_le; [|exact Hpos].
    intros item _. apply Hkeep.
Qed.

Lemma wider_window_keeps_more_witness :
  exists small large qs qs',
    aggregateConsumptionByTime Sample.utc Sample.parse Sample.now Sample.readings 1
    = Normal small /\
    aggregateConsumptionByTime Sample.utc Sample.parse Sample.now Sample.readings 3
    = Normal large /\
    incl (labels small) (labels large) /\
    values small = map Num qs /\ values large = map Num qs' /\
    Qsum qs <= Qsum qs'.
Proof.
  apply (wider_window_keeps_more Sample.utc Sample.parse Sample.now
           Sample.readings 1 3 0).
  - intros time isUTC. reflexivity.
  - reflexivity.
  - lia.
  - vm_compute. discriminate.
  - unfold validTime. vm_compute. discriminate.
  - repeat constructor; discriminate.
Defined.

(** ** The totals of the devices *)

Section SortOn.
Context {A : Type}.
Variable after : A -> A -> bool.
Variable P : A -> Prop.
Variable R : A -> A -> Prop.
Hypothesis R_trans : forall x y z, P x -> P y -> P z -> R x y -> R y z -> R x z.
Hypothesis after_false : forall x y, P x -> P y -> after x y = false -> R x y.
Hypothesis after_true : forall x y, P x -> P y -> after x y = true -> R y x.

Lemma insert_sorted_on (x : A) (l : list A) :
  P x -> Forall P l -> StronglySorted R l -> StronglySorted R (insert after x l).
Proof.
  intros Px Pl Hs. induction Hs as [|y l Hl IH Hy]; simpl.
  - constructor; constructor.
  - inversion Pl as [|? ? Py Pl']; subst.
    destruct (after x y) eqn:E.
    + constructor; [exact (IH Pl')|].
      apply (Permutation_Forall (insert_perm after x l)).
      constructor; [apply after_true; assumption|exact Hy].
    + assert (Hxy : R x y) by (apply after_false; assumption).
      constructor.
      * constructor; assumption.
      * constructor; [exact Hxy|].
        rewrite Forall_forall in *. intros z Hz.
        apply (R_trans x y z); auto.
Qed.

Lemma sort_sorted_on (l : list A) :
  Forall P l -> StronglySorted R (sort after l).
Proof.
  induction 1 as [|x l Px Pl IH]; simpl.
  - constructor.
  - apply insert_sorted_on; [exact Px| |exact IH].
    apply (Permutation_Forall (sort_perm after l)). exact Pl.
Qed.
End SortOn.

Lemma sorted_app_inv {A : Type} (R : A -> A -> Prop) (l1 l2 : list A) :
  StronglySorted R (l1 ++ l2) ->
  forall a b, In a l1 -> In b l2 -> R a b.
Proof.
  induction l1 as [|x l1 IH]; simpl; intros Hs a b Ha Hb; [destruct Ha|].
  inversion Hs as [|? ? Hs' Hx]; subst.
  destruct Ha as [<-|Ha].
  - rewrite Forall_forall in Hx. apply Hx. apply in_or_app. right. exact Hb.
  - exact (IH Hs' a b Ha Hb).
Qed.

Lemma firstn_NoDup {A : Type} (n : nat) (l : list A) : NoDup l -> NoDup (firstn n l).
Proof.
  intros H. rewrite <- (firstn_skipn n l) in H.
  exact (NoDup_app_remove_r _ _ H).
Qed.

Section DeviceTotals.
Variable parse : string -> option Z.
Variable startTime : Date.t.

Lemma addToDevice_total (o : Obj.t) (item : Reading) :
  inherited (device_id item) = false ->
  numeric o ->
  (forall device,
     ownValue String.eqb (addToDevice parse startTime o item) device
     == ownValue String.eqb o device
        + (if kept parse startTime item && ofDevice device item
           then consumption_kwh item else 0)) /\
  (forall device,
     In device (map fst (addToDevice parse startTime o item)) <->
     In device (map fst o) \/
     (kept parse startTime item = true /\ ofDevice device item = true)).
Proof.
  intros Hid Hnum. unfold addToDevice. fold (kept parse startTime item).
  destruct (kept parse startTime item).
  - unfold setByDevice, getByDevice, Obj.set, Obj.get.
    destruct (accessor (device_id item)) eqn:Ea.
    { apply accessor_inherited in Ea. congruence. }
    rewrite Hid. split.
    + intros device.
      destruct (ownValue_accumulate String.eqb String_eqb_eq o (device_id item)
                  device (consumption_kwh item) Hnum) as (q & Hq & Hv).
      rewrite Hq, Hv. reflexivity.
    + intros device.
      destruct (orZero_plus_own String.eqb o (device_id item) (consumption_kwh item)
                  String_eqb_eq Hnum) as (q & -> & _).
      rewrite (put_keys_In String.eqb String_eqb_eq). unfold ofDevice.
      rewrite String.eqb_eq. split.
      * intros [->|H]; [right; split; reflexivity|left; exact H].
      * intros [H|[_ H]]; [right; exact H|left; symmetry; exact H].
  - split.
    + intros device. simpl. ring.
    + intros device. split; [intros H; left; exact H|].
      intros [H|[H _]]; [exact H|discriminate H].
Qed.

Lemma fold_addToDevice_totals (readings : list Reading) :
  Forall (fun item => inherited (device_id item) = false) readings ->
  forall o : Obj.t,
    numeric o ->
    (forall device,
       ownValue String.eqb (fold_left (addToDevice parse startTime) readings o) device
       == ownValue String.eqb o device
          + Qsum (map consumption_kwh
                    (filter (fun item =>
                               kept parse startTime item && ofDevice device item)
                       readings))) /\
    (forall device,
       In device (map fst (fold_left (addToDevice parse startTime) readings o)) <->
       In device (map fst o) \/
       exists item,
         In item readings /\ kept parse startTime item = true /\
         ofDevice device item = true).
Proof.
  induction 1 as [|item rest Hid Hrest IH]; intros o Hnum.
  - split.
    + intros device. simpl. ring.
    + intros device. simpl. split; [intros H; left; exact H|].
      intros [H|(item & [] & _)]. exact H.
  - destruct (addToDevice_total o item Hid Hnum) as [V1 K1].
    assert (N1 : numeric (addToDevice parse startTime o item))
      by (apply addToDevice_numeric; assumption).
    destruct (IH _ N1) as [V' K'].
    cbn [fold_left]. split.
    + intros device. rewrite V', V1. cbn [filter].
      destruct (kept parse startTime item && ofDevice device item); simpl; ring.
    + intros device. rewrite K', K1. split.
      * intros [[H|[Hk Hm]]|(item' & Hin & Hk & Hm)].
        -- left. exact H.
        -- right. exists item. split; [left; reflexivity|]. split; assumption.
        -- right. exists item'. split; [right; exact Hin|]. split; assumption.
      * intros [H|(item' & [<-|Hin] & Hk & Hm)].
        -- left. left. exact H.
        -- left. right. split; assumption.
        -- right. exists item'. split; [exact Hin|]. split; assumption.
Qed.
End DeviceTotals.

(** The object that the loop of [aggregateConsumptionByDevice] fills. *)
Lemma consumptionByDevice_totals (parse : string -> option Z) (now : Z)
  (readings : list Reading) (hours : Z) :
  Forall (fun item => inherited (device_id item) = false) readings ->
  let o := fold_left (addToDevice parse (startTimeOf now hours)) readings Obj.empty in
  numeric o /\ NoDup (map fst o) /\
  (forall device,
     ownValue String.eqb o device
     == Qsum (map consumption_kwh
                (filter (fun item => inWindow parse now hours item && ofDevice device item)
                   readings))) /\
  (forall device,
     In device (map fst o) <->
     exists item,
       In item readings /\ inWindow parse now hours item = true /\
       ofDevice device item = true).
Proof.
  intros Hids o.
  destruct (fold_addToDevice_totals parse (startTimeOf now hours) readings Hids
              Obj.empty (Forall_nil _)) as [Hval Hkeys].
  fold o in Hval, Hkeys.
  split; [apply fold_addToDevice_numeric; [exact Hids|constructor]|].
  split; [apply fold_addToDevice_keys; constructor|].
  split.
  - intros device. rewrite Hval. unfold ownValue, Obj.empty. simpl.
    rewrite Qplus_0_l. reflexivity.
  - intros device. rewrite Hkeys. simpl. split.
    + intros [[]|H]. exact H.
    + intros H. right. exact H.
Qed.

(** X4.  The ranking lists each device once, a listed device has a reading
    in the window, and its value is the sum of the consumptions of its
    readings in the window (for devices that are not named like a member
    of [Object.prototype]).  The sum is the exact one: the consumptions
    are such that the arithmetic of the language adds them with no
    rounding. *)
Theorem ranking_value_per_device (parse : string -> option Z) (now : Z)
  (readings : list Reading) (hours : Z) (k : nat) :
  Forall (fun item => inherited (device_id item) = false) readings ->
  exactSums k readings = true ->
  let ranking := aggregateConsumptionByDevice parse now readings hours in
  NoDup (labels ranking) /\
  (forall device value,
     In (device, value) (combine (labels ranking) (values ranking)) ->
     (exists item,
        In item readings /\ inWindow parse now hours item = true /\
        device_id item = device) /\
     exists q,
       value = Num q /\
       q == Qsum (map consumption_kwh
                    (filter (fun item =>
                               inWindow parse now hours item && ofDevice device item)
                       readings))).
Proof.
  intros Hids _.
  destruct (consumptionByDevice_totals parse now readings hours Hids)
    as (Hnum & Hnd & Hval & Hkeys).
  unfold aggregateConsumptionByDevice. cbv zeta. cbn [labels values].
  set (o := fold_left (addToDevice parse (startTimeOf now hours)) readings Obj.empty)
    in *.
  assert (Hsorted : forall device,
             In device (firstn 5 (sortWith (fun a b => minus (getByDevice o b)
                                                         (getByDevice o a))
                                    (keysByDevice o))) ->
             In device (map fst o)).
  { intros device H. apply firstn_In in H. unfold sortWith in H.
    apply sort_In in H. exact (Permutation_in _ (keys_perm arrayIndex o) H). }
  split.
  - apply firstn_NoDup. unfold sortWith.
    apply (Permutation_NoDup (sort_perm _ _)).
    apply (Permutation_NoDup (Permutation_sym (keys_perm arrayIndex o))).
    exact Hnd.
  - intros device value Hin. apply in_combine_map in Hin.
    destruct Hin as [Hlabel ->]. apply Hsorted in Hlabel. split.
    + apply Hkeys in Hlabel. destruct Hlabel as (item & Hitem & Hwin & Hdev).
      exists item. split; [exact Hitem|]. split; [exact Hwin|].
      apply String.eqb_eq. exact Hdev.
    + exists (ownValue String.eqb o device). split; [|apply Hval].
      unfold getByDevice. apply (numeric_get_own String.eqb String_eqb_eq); assumption.
Qed.

Lemma ranking_value_per_device_witness :
  let ranking :=
    aggregateConsumptionByDevice Sample.parse Sample.now Sample.readings 1 in
  NoDup (labels ranking) /\
  (forall device value,
     In (device, value) (combine (labels ranking) (values ranking)) ->
     (exists item,
        In item Sample.readings /\
        inWindow Sample.parse Sample.now 1 item = true /\
        device_id item = device) /\
     exists q,
       value = Num q /\
       q == Qsum (map consumption_kwh
                    (filter (fun item =>
                               inWindow Sample.parse Sample.now 1 item
                               && ofDevice device item) Sample.readings))).
Proof.
  apply (ranking_value_per_device Sample.parse Sample.now Sample.readings 1 1%nat).
  - repeat constructor.
  - vm_compute. reflexivity.
Defined.

(** X5.  The ranking keeps the devices of greatest consumption: a device
    with a reading in the window is listed, unless five devices are listed
    whose totals are all at least its own.  So with at most five devices
    in the window every one of them is listed.  The totals are the exact
    ones: the consumptions are such that the arithmetic of the language
    adds them with no rounding. *)
Theorem ranking_keeps_the_greatest (parse : string -> option Z) (now : Z)
  (readings : list Reading) (hours : Z) (k : nat) :
  Forall (fun item => inherited (device_id item) = false) readings ->
  exactSums k readings = true ->
  let ranking := aggregateConsumptionByDevice parse now readings hours in
  let total device :=
    Qsum (map consumption_kwh
            (filter (fun item => inWindow parse now hours item && ofDevice device item)
               readings)) in
  forall item, In item readings -> inWindow parse now hours item = true ->
    In (device_id item) (labels ranking) \/
    (List.length (labels ranking) = 5%nat /\
     forall device, In device (labels ranking) -> total (device_id item) <= total device).
Proof.
  intros Hids _ ranking total item Hitem Hwin.
  destruct (consumptionByDevice_totals parse now readings hours Hids)
    as (Hnum & Hnd & Hval & Hkeys).
  subst ranking. unfold aggregateConsumptionByDevice. cbv zeta. cbn [labels].
  set (o := fold_left (addToDevice parse (startTimeOf now hours)) readings Obj.empty)
    in *.
  set (sorted := sortWith (fun a b => minus (getByDevice o b) (getByDevice o a))
                   (keysByDevice o)).
  assert (Hkey : forall device, In device sorted <-> In device (map fst o)).
  { intros device. unfold sorted, sortWith. rewrite sort_In. split.
    - apply Permutation_in. apply keys_perm.
    - apply Permutation_in. apply Permutation_sym. apply keys_perm. }
  assert (Hsorted : StronglySorted
                      (fun a b => ownValue String.eqb o b <= ownValue String.eqb o a)
                      sorted).
  { unfold sorted, sortWith.
    apply sort_sorted_on with (P := fun device => In device (map fst o)).
    - intros x y z _ _ _ Hxy Hyz. exact (Qle_trans _ _ _ Hyz Hxy).
    - intros x y Hx Hy H. unfold getByDevice in H.
      rewrite !(numeric_get_own String.eqb String_eqb_eq inherited o) in H by assumption.
      rewrite positive_minus in H. apply Qltb_ge in H. exact H.
    - intros x y Hx Hy H. unfold getByDevice in H.
      rewrite !(numeric_get_own String.eqb String_eqb_eq inherited o) in H by assumption.
      rewrite positive_minus in H. apply Qltb_lt in H. apply Qlt_le_weak. exact H.
    - apply Forall_forall. intros device H.
      exact (Permutation_in _ (keys_perm arrayIndex o) H). }
  assert (Hmine : In (device_id item) sorted).
  { apply Hkey. apply Hkeys. exists item. split; [exact Hitem|]. split; [exact Hwin|].
    apply String.eqb_refl. }
  rewrite <- (firstn_skipn 5 sorted) in Hmine, Hsorted.
  apply in_app_or in Hmine. destruct Hmine as [Hin|Hout]; [left; exact Hin|right].
  split.
  - rewrite length_firstn. apply Nat.min_l.
    destruct (Nat.le_gt_cases 5 (List.length sorted)) as [H|H]; [exact H|].
    rewrite skipn_all2 in Hout by lia. destruct Hout.
  - intros device Hdev. unfold total. rewrite <- !Hval.
    exact (sorted_app_inv _ _ _ Hsorted device (device_id item) Hdev Hout).
Qed.

Lemma ranking_keeps_the_greatest_witness :
  let ranking :=
    aggregateConsumptionByDevice Sample.parse Sample.now Payloads.six 1 in
  ~ In "F"%string (labels ranking) /\
  (In "F"%string (labels ranking) \/
   (List.length (labels ranking) = 5%nat /\
    forall device, In device (labels ranking) ->
      Qsum (map consumption_kwh
              (filter (fun item =>
                         inWindow Sample.parse Sample.now 1 item && ofDevice "F" item)
                 Payloads.six))
      <= Qsum (map consumption_kwh
                 (filter (fun item =>
                            inWindow Sample.parse Sample.now 1 item
                            && ofDevice device item) Payloads.six)))).
Proof.
  split.
  - vm_compute. intros [H|[H|[H|[H|[H|[]]]]]]; discriminate H.
  - refine (ranking_keeps_the_greatest Sample.parse Sample.now Payloads.six 1 1%nat _ _
              (Sample.reading "F" "2024-01-01T11:55:30.000Z" (1 # 2) false) _ _).
    + repeat constructor.
    + vm_compute. reflexivity.
    + do 5 right. left. reflexivity.
    + reflexivity.
Defined.

(** ** The order of the filtered readings *)

Lemma positive_inject_Z (z : Z) : positive (Num (inject_Z z)) = (0 <? z)%Z.
Proof.
  simpl. apply eq_true_iff_eq. rewrite Qltb_lt, Z.ltb_lt.
  unfold Qlt. simpl. rewrite Z.mul_1_r. reflexivity.
Qed.

Lemma byDate_dated (parse : string -> option Z) (a b : Reading) :
  dated parse a -> dated parse b ->
  positive (byDate parse a b) = (timeOf parse a <? timeOf parse b)%Z.
Proof.
  intros [ta Ha] [tb Hb]. unfold byDate, timeOf. rewrite Ha, Hb. simpl Date.diff.
  rewrite positive_inject_Z. apply eq_true_iff_eq. rewrite !Z.ltb_lt. lia.
Qed.

(** X6.  In the date view the readings come most recent first, whatever
    the consumption filter, and they are the readings that pass the filter,
    each as often as in the input.  The timestamps all denote instants. *)
Theorem date_view_most_recent_first (parse : string -> option Z)
  (readings : list Reading) (consumptionFilter : option ConsumptionFilter) :
  Forall (dated parse) readings ->
  let result := getFilteredReadings parse readings view_date consumptionFilter in
  Permutation
    (match consumptionFilter with
     | Some f => filter (tier f) readings
     | None => readings
     end) result /\
  StronglySorted (fun a b => (timeOf parse b <= timeOf parse a)%Z) result.
Proof.
  intros Hdated. cbv zeta. unfold getFilteredReadings.
  assert (Hsorted : StronglySorted (fun a b => (timeOf parse b <= timeOf parse a)%Z)
                      (sortWith (byDate parse) readings)).
  { unfold sortWith. apply sort_sorted_on with (P := dated parse).
    - intros x y z _ _ _ Hxy Hyz. lia.
    - intros x y Hx Hy H. rewrite byDate_dated in H by assumption.
      apply Z.ltb_ge in H. exact H.
    - intros x y Hx Hy H. rewrite byDate_dated in H by assumption.
      apply Z.ltb_lt in H. lia.
    - exact Hdated. }
  destruct consumptionFilter as [f|].
  - split; [apply filter_perm; apply sort_perm|].
    apply filter_sorted. exact Hsorted.
  - split; [apply sort_perm|exact Hsorted].
Qed.

Lemma date_view_most_recent_first_witness :
  let result :=
    getFilteredReadings Sample.parse (rev (firstn 3 Sample.readings)) view_date
      (Some medium) in
  Permutation (filter (tier medium) (rev (firstn 3 Sample.readings))) result /\
  StronglySorted
    (fun a b => (timeOf Sample.parse b <= timeOf Sample.parse a)%Z) result.
Proof.
  apply (date_view_most_recent_first Sample.parse (rev (firstn 3 Sample.readings))
           (Some medium)).
  repeat constructor; eexists; vm_compute; reflexivity.
Defined.

Section Stable.
Context {A : Type}.
Variable after : A -> A -> bool.
Variable p : A -> bool.
Hypothesis together : forall x y, p x = true -> p y = true -> after x y = false.

Lemma insert_stable (x : A) (l : list A) :
  filter p (insert after x l) = if p x then x :: filter p l else filter p l.
Proof.
  induction l as [|y l IH]; simpl.
  - destruct (p x); reflexivity.
  - destruct (after x y) eqn:E; simpl.
    + rewrite IH. destruct (p x) eqn:Px; [|reflexivity].
      destruct (p y) eqn:Py; [|reflexivity].
      rewrite (together x y Px Py) in E. discriminate E.
    + destruct (p x); reflexivity.
Qed.

Lemma sort_stable (l : list A) : filter p (sort after l) = filter p l.
Proof.
  induction l as [|x l IH]; simpl.
  - reflexivity.
  - rewrite insert_stable, IH. destruct (p x); reflexivity.
Qed.
End Stable.

(** X7.  The sort keeps ties in the order of the input: in the consumption
    view the readings of one consumption follow one another as they did in
    [recentReadings]. *)
Theorem ties_keep_input_order (parse : string -> option Z) (readings : list Reading)
  (c : Q) :
  filter (fun item => Qeq_bool (consumption_kwh item) c)
    (getFilteredReadings parse readings view_consumption None)
  = filter (fun item => Qeq_bool (consumption_kwh item) c) readings.
Proof.
  unfold getFilteredReadings, sortWith.
  apply sort_stable. intros x y Hx Hy.
  unfold byConsumption. rewrite positive_minus. apply Qltb_ge.
  apply Qeq_bool_iff in Hx, Hy. rewrite Hx, Hy. apply Qle_refl.
Qed.

(** X8.  In the date view the readings of one timestamp follow
    one another as they did in [recentReadings].  The timestamps all denote
    instants: the comparator is then a consistent one, and the order is the
    same on every engine. *)
Theorem same_timestamp_keeps_input_order (parse : string -> option Z)
  (readings : list Reading) (time : string) :
  Forall (dated parse) readings ->
  filter (fun item => String.eqb (timestamp item) time)
    (getFilteredReadings parse readings view_date None)
  = filter (fun item => String.eqb (timestamp item) time) readings.
Proof.
  intros _. unfold getFilteredReadings, sortWith.
  apply sort_stable. intros x y Hx Hy.
  apply String.eqb_eq in Hx, Hy. unfold byDate. rewrite Hx, Hy.
  destruct (Date.ofString (parse time)) as [t|]; [|reflexivity].
  simpl Date.diff. rewrite positive_inject_Z. apply Z.ltb_ge. lia.
Qed.

Lemma same_timestamp_keeps_input_order_witness :
  filter (fun item => String.eqb (timestamp item) "2024-01-01T11:55:30.000Z")
    (getFilteredReadings Sample.parse Payloads.twins view_date None)
  = filter (fun item => String.eqb (timestamp item) "2024-01-01T11:55:30.000Z")
      Payloads.twins.
Proof.
  apply (same_timestamp_keeps_input_order Sample.parse Payloads.twins
           "2024-01-01T11:55:30.000Z").
  repeat constructor; eexists; vm_compute; reflexivity.
Defined.

(** ** What the component shows *)

(** The component on a payload of four values, field by field. *)
Lemma Dashboard_shown (LocalTZA : Z -> bool -> Z) (parse : string -> option Z)
  (now : Z) (today yesterday : string) (offset : Z)
  (readings : list Reading) (summaries : list DailySummary.t)
  (alerts : list Anomaly.t) (totals : Obj.t)
  (cardView : CardView) (consumptionFilter : option ConsumptionFilter)
  (timeFrame : Z) :
  fixedZone LocalTZA offset ->
  (offset mod Date.msPerMinute = 0)%Z ->
  (0 <= cutoff now timeFrame + offset)%Z ->
  exists series,
    aggregateConsumptionByTime LocalTZA parse now readings timeFrame = Normal series /\
    Dashboard LocalTZA parse now today yesterday
      {| recentReadings := Holds readings; dailySummaries := Holds summaries;
         anomalies := Holds alerts; consumptionByDevice := Holds totals |}
      cardView consumptionFilter timeFrame
    = Normal
        {| todaySummary :=
             find (fun s => String.eqb (DailySummary.date s) today) summaries;
           yesterdaySummary :=
             find (fun s => String.eqb (DailySummary.date s) yesterday) summaries;
           lineChartData := series;
           barChartData := aggregateConsumptionByDevice parse now readings 1;
           pieChartLabels := Obj.keys arrayIndex totals;
           pieChartData := Obj.values String.eqb arrayIndex inherited totals;
           filteredReadings :=
             getFilteredReadings parse readings cardView consumptionFilter;
           anomalyCount := List.length alerts;
           anomalyList := firstn 5 alerts;
           summaryRows := sortWith (byDay parse) summaries;
           readingCards :=
             map (fun item => (item, generateSmartSuggestion (consumption_kwh item)))
               (firstn 20
                  (getFilteredReadings parse readings cardView consumptionFilter)) |}.
Proof.
  intros zone whole recent.
  destruct (aggregateConsumptionByTime_total LocalTZA parse now offset zone whole
              readings timeFrame recent) as [series Hs].
  exists series. split; [exact Hs|].
  unfold Dashboard. cbn [recentReadings dailySummaries anomalies consumptionByDevice
                           orDefault target bind].
  rewrite Hs. reflexivity.
Qed.

Lemma tier_advice (f : ConsumptionFilter) (item : Reading) :
  tier f item = true ->
  generateSmartSuggestion (consumption_kwh item) = advice (categoryOf f).
Proof.
  intros H.
  destruct (tier_cases item)
    as [(H5 & Eh & Em & El)|[(H2 & H5 & Eh & Em & El)|(H2 & Eh & Em & El)]];
    destruct f; simpl in H; try congruence; simpl categoryOf.
  - apply suggestion_high. exact H5.
  - apply suggestion_moderate; assumption.
  - apply suggestion_low. exact H2.
Qed.

(** X9.  The cards: there are at most twenty, they are the first readings
    of the filtered list, in its order, each with the suggestion for its
    consumption.  In the consumption view no reading left out consumes more
    than a reading on a card, and under a consumption filter every card
    carries the advice of the filter's category. *)
Theorem cards_show_the_first_twenty (LocalTZA : Z -> bool -> Z)
  (parse : string -> option Z) (now : Z) (today yesterday : string) (offset : Z)
  (readings : list Reading) (summaries : list DailySummary.t)
  (alerts : list Anomaly.t) (totals : Obj.t)
  (cardView : CardView) (consumptionFilter : option ConsumptionFilter)
  (timeFrame : Z) :
  fixedZone LocalTZA offset ->
  (offset mod Date.msPerMinute = 0)%Z ->
  (0 <= cutoff now timeFrame + offset)%Z ->
  exists shown,
    Dashboard LocalTZA parse now today yesterday
      {| recentReadings := Holds readings; dailySummaries := Holds summaries;
         anomalies := Holds alerts; consumptionByDevice := Holds totals |}
      cardView consumptionFilter timeFrame
    = Normal shown /\
    (List.length (readingCards shown) <= 20)%nat /\
    map fst (readingCards shown) = firstn 20 (filteredReadings shown) /\
    (forall item suggestion, In (item, suggestion) (readingCards shown) ->
       suggestion = generateSmartSuggestion (consumption_kwh item)) /\
    (cardView = view_consumption ->
     forall item suggestion left,
       In (item, suggestion) (readingCards shown) ->
       In left (skipn 20 (filteredReadings shown)) ->
       consumption_kwh left <= consumption_kwh item) /\
    (forall f item suggestion,
       consumptionFilter = Some f -> In (item, suggestion) (readingCards shown) ->
       suggestion = advice (categoryOf f)).
Proof.
  intros zone whole recent.
  destruct (Dashboard_shown LocalTZA parse now today yesterday offset readings
              summaries alerts totals cardView consumptionFilter timeFrame
              zone whole recent) as (series & _ & E).
  eexists. split; [exact E|]. cbn [readingCards filteredReadings].
  set (filtered := getFilteredReadings parse readings cardView consumptionFilter).
  assert (Hcard : forall item suggestion,
             In (item, suggestion)
               (map (fun item => (item, generateSmartSuggestion (consumption_kwh item)))
                  (firstn 20 filtered)) ->
             In item (firstn 20 filtered) /\
             suggestion = generateSmartSuggestion (consumption_kwh item)).
  { intros item suggestion H. apply in_map_iff in H.
    destruct H as (x & Hx & Hin). inversion Hx; subst. split; [exact Hin|reflexivity]. }
  split; [rewrite length_map; apply firstn_le_length|].
  split; [rewrite map_map; simpl; apply map_id|].
  split; [intros item suggestion H; apply (Hcard _ _ H)|].
  split.
  - intros -> item suggestion left Hin Hleft.
    apply Hcard in Hin. destruct Hin as [Hin _].
    assert (Hsorted : StronglySorted descending filtered).
    { unfold filtered, getFilteredReadings.
      destruct consumptionFilter; [apply filter_sorted|];
        apply sortWith_byConsumption_sorted. }
    rewrite <- (firstn_skipn 20 filtered) in Hsorted.
    exact (sorted_app_inv _ _ _ Hsorted item left Hin Hleft).
  - intros f item suggestion -> Hin.
    apply Hcard in Hin. destruct Hin as [Hin ->].
    apply firstn_In in Hin. unfold filtered, getFilteredReadings in Hin.
    apply filter_In in Hin. apply tier_advice. apply Hin.
Qed.

Lemma cards_show_the_first_twenty_witness :
  exists shown,
    Dashboard Sample.utc Sample.parse Sample.now "2024-01-01" "2023-12-31"
      {| recentReadings := Holds Sample.readings; dailySummaries := Holds [];
         anomalies := Holds []; consumptionByDevice := Holds Obj.empty |}
      view_consumption (Some medium) 1
    = Normal shown /\
    (List.length (readingCards shown) <= 20)%nat /\
    map fst (readingCards shown) = firstn 20 (filteredReadings shown) /\
    (forall item suggestion, In (item, suggestion) (readingCards shown) ->
       suggestion = generateSmartSuggestion (consumption_kwh item)) /\
    (view_consumption = view_consumption ->
     forall item suggestion left,
       In (item, suggestion) (readingCards shown) ->
       In left (skipn 20 (filteredReadings shown)) ->
       consumption_kwh left <= consumption_kwh item) /\
    (forall f item suggestion,
       Some medium = Some f -> In (item, suggestion) (readingCards shown) ->
       suggestion = advice (categoryOf f)).
Proof.
  apply (cards_show_the_first_twenty Sample.utc Sample.parse Sample.now
           "2024-01-01" "2023-12-31" 0 Sample.readings [] [] Obj.empty
           view_consumption (Some medium) 1).
  - intros time isUTC. reflexivity.
  - reflexivity.
  - vm_compute. discriminate.
Defined.

(** When the component returns, the payload holds no [null] and the line
    chart is the series of the readings. *)
Lemma Dashboard_normal_inv (LocalTZA : Z -> bool -> Z) (parse : string -> option Z)
  (now : Z) (today yesterday : string) (apiData : ApiData)
  (cardView : CardView) (consumptionFilter : option ConsumptionFilter)
  (timeFrame : Z) (shown : Rendered) :
  Dashboard LocalTZA parse now today yesterday apiData cardView consumptionFilter
    timeFrame = Normal shown ->
  exists readings summaries alerts totals series,
    withDefaults apiData
    = {| recentReadings := Holds readings; dailySummaries := Holds summaries;
         anomalies := Holds alerts; consumptionByDevice := Holds totals |} /\
    aggregateConsumptionByTime LocalTZA parse now readings timeFrame = Normal series /\
    shown
    = {| todaySummary :=
           find (fun s => String.eqb (DailySummary.date s) today) summaries;
         yesterdaySummary :=
           find (fun s => String.eqb (DailySummary.date s) yesterday) summaries;
         lineChartData := series;
         barChartData := aggregateConsumptionByDevice parse now readings 1;
         pieChartLabels := Obj.keys arrayIndex totals;
         pieChartData := Obj.values String.eqb arrayIndex inherited totals;
         filteredReadings :=
           getFilteredReadings parse readings cardView consumptionFilter;
         anomalyCount := List.length alerts;
         anomalyList := firstn 5 alerts;
         summaryRows := sortWith (byDay parse) summaries;
         readingCards :=
           map (fun item => (item, generateSmartSuggestion (consumption_kwh item)))
             (firstn 20
                (getFilteredReadings parse readings cardView consumptionFilter)) |}.
Proof.
  destruct apiData as [r d a c]. unfold Dashboard, withDefaults.
  cbn [recentReadings dailySummaries anomalies consumptionByDevice].
  intros H.
  destruct r as [| |r], d as [| |d], a as [| |a], c as [| |c];
    cbn [orDefault target bind] in H; try discriminate H;
    match type of H with
    | context [aggregateConsumptionByTime ?l ?p ?n ?rs ?tf] =>
        destruct (aggregateConsumptionByTime l p n rs tf) as [series|e] eqn:Es
    end;
    cbn [orDefault target bind] in H; try discriminate H;
    inversion H; cbn [orDefault];
    do 5 eexists; (split; [reflexivity|]); (split; [exact Es|]); reflexivity.
Qed.



Lemma combine_map_pairs {A B : Type} (f : A -> B) (l : list A) :
  combine l (map f l) = map (fun a => (a, f a)) l.
Proof.
  induction l as [|x l IH]; simpl; [reflexivity|]. rewrite IH. reflexivity.
Qed.

(** X11.  The pie chart shows each device total of the payload once, under
    its own device: the labels paired with the data are the entries of
    [consumptionByDevice], in the order of [Object.keys], and there are as
    many data as labels.  The keys of the payload's object are distinct. *)
Theorem pie_slices_are_the_device_totals (LocalTZA : Z -> bool -> Z)
  (parse : string -> option Z) (now : Z) (today yesterday : string)
  (apiData : ApiData) (totals : Obj.t)
  (cardView : CardView) (consumptionFilter : option ConsumptionFilter)
  (timeFrame : Z) (shown : Rendered) :
  Dashboard LocalTZA parse now today yesterday apiData cardView consumptionFilter
    timeFrame = Normal shown ->
  consumptionByDevice apiData = Holds totals ->
  NoDup (map fst totals) ->
  List.length (pieChartData shown) = List.length (pieChartLabels shown) /\
  Permutation (combine (pieChartLabels shown) (pieChartData shown)) totals.
Proof.
  intros H Hc Hnd.
  apply Dashboard_normal_inv in H.
  destruct H as (readings & summaries & alerts & totals' & series & Hp & _ & ->).
  destruct apiData as [r d a c]. unfold withDefaults in Hp.
  cbn [consumptionByDevice] in *. subst c. inversion Hp; subst totals'.
  cbn [pieChartLabels pieChartData]. unfold Obj.values.
  assert (Hperm : Permutation
                    (combine (Obj.keys arrayIndex totals)
                       (map (Obj.get String.eqb inherited totals)
                          (Obj.keys arrayIndex totals))) totals).
  { rewrite combine_map_pairs.
    apply Permutation_trans
      with (map (fun k => (k, Obj.get String.eqb inherited totals k)) (map fst totals)).
    - apply Permutation_map. apply keys_perm.
    - rewrite map_map.
      assert (E : map (fun kv : string * JsValue =>
                         (fst kv, Obj.get String.eqb inherited totals (fst kv))) totals
                  = totals).
      { rewrite <- (map_id totals) at 2. apply map_ext_in. intros kv Hin.
        rewrite (get_own_key String.eqb inherited totals kv String_eqb_eq Hnd Hin).
        destruct kv; reflexivity. }
      rewrite E. apply Permutation_refl. }
  split; [apply length_map|exact Hperm].
Qed.

Lemma pie_slices_are_the_device_totals_witness :
  exists shown,
    Dashboard Sample.utc Sample.parse Sample.now "2024-01-01" "2023-12-31"
      Payloads.totalsOnly view_date None 1 = Normal shown /\
    List.length (pieChartData shown) = List.length (pieChartLabels shown) /\
    Permutation (combine (pieChartLabels shown) (pieChartData shown)) Payloads.totals.
Proof.
  eexists. split; [vm_compute; reflexivity|].
  apply (pie_slices_are_the_device_totals Sample.utc Sample.parse Sample.now
           "2024-01-01" "2023-12-31" Payloads.totalsOnly Payloads.totals
           view_date None 1).
  - vm_compute. reflexivity.
  - reflexivity.
  - vm_compute. repeat constructor; simpl; intuition discriminate.
Defined.

(** X12.  A [null] under any of the four keys makes the component throw a
    [TypeError], whatever the other keys hold (on a host whose zone keeps a
    fixed offset of whole minutes and whose clock, the window back, shows
    1970 or later, where nothing else can throw before). *)
Theorem null_key_throws (LocalTZA : Z -> bool -> Z) (parse : string -> option Z)
  (now : Z) (today yesterday : string) (offset : Z) (apiData : ApiData)
  (cardView : CardView) (consumptionFilter : option ConsumptionFilter)
  (timeFrame : Z) :
  fixedZone LocalTZA offset ->
  (offset mod Date.msPerMinute = 0)%Z ->
  (0 <= cutoff now timeFrame + offset)%Z ->
  recentReadings apiData = Null \/ dailySummaries apiData = Null \/
  anomalies apiData = Null \/ consumptionByDevice apiData = Null ->
  Dashboard LocalTZA parse now today yesterday apiData cardView consumptionFilter
    timeFrame = Throw TypeError.
Proof.
  intros zone whole recent Hnull.
  destruct apiData as [r d a c].
  cbn [recentReadings dailySummaries anomalies consumptionByDevice] in Hnull.
  unfold Dashboard.
  cbn [recentReadings dailySummaries anomalies consumptionByDevice].
  destruct d as [| |d]; cbn [orDefault target bind]; try reflexivity;
    destruct r as [| |r]; cbn [orDefault target bind]; try reflexivity;
    match goal with
    | |- context [aggregateConsumptionByTime ?l ?p ?n ?rs ?tf] =>
        destruct (aggregateConsumptionByTime_total l p n offset zone whole rs tf recent)
          as [series ->]
    end;
    cbn [bind];
    destruct c as [| |c]; cbn [orDefault target bind]; try reflexivity;
    destruct a as [| |a]; cbn [orDefault target bind]; try reflexivity;
    exfalso; destruct Hnull as [H|[H|[H|H]]]; discriminate H.
Qed.

Lemma null_key_throws_witness :
  Dashboard Sample.utc Sample.parse Sample.now "2024-01-01" "2023-12-31"
    Payloads.nullTotals view_date None 1 = Throw TypeError.
Proof.
  apply (null_key_throws Sample.utc Sample.parse Sample.now "2024-01-01" "2023-12-31"
           0%Z Payloads.nullTotals view_date None 1).
  - intros time isUTC. reflexivity.
  - reflexivity.
  - vm_compute. discriminate.
  - right. right. right. reflexivity.
Defined.

(** ** The table of the daily summaries *)

Section SortTwice.
Context {A : Type}.
Variable after : A -> A -> bool.
Hypothesis asymmetric : forall x y, after x y = true -> after y x = false.

Lemma insert_head (x : A) (l : list A) (y : A) :
  HdRel (fun a b => after a b = false) y l -> after y x = false ->
  HdRel (fun a b => after a b = false) y (insert after x l).
Proof.
  intros Hl Hx. destruct l as [|z l]; simpl.
  - constructor. exact Hx.
  - destruct (after x z); constructor; [|exact Hx].
    inversion Hl; assumption.
Qed.

Lemma insert_in_order (x : A) (l : list A) :
  Sorted (fun a b => after a b = false) l ->
  Sorted (fun a b => after a b = false) (insert after x l).
Proof.
  induction 1 as [|y l Hl IH Hy]; simpl.
  - constructor; constructor.
  - destruct (after x y) eqn:E.
    + constructor; [exact IH|].
      apply insert_head; [exact Hy|]. apply asymmetric. exact E.
    + constructor; [constructor; assumption|]. constructor. exact E.
Qed.

Lemma sort_in_order (l : list A) :
  Sorted (fun a b => after a b = false) (sort after l).
Proof.
  induction l as [|x l IH]; simpl; [constructor|].
  apply insert_in_order. exact IH.
Qed.

Lemma sort_in_order_id (l : list A) :
  Sorted (fun a b => after a b = false) l -> sort after l = l.
Proof.
  induction 1 as [|x l Hl IH Hx]; simpl; [reflexivity|].
  rewrite IH. destruct Hx as [|y l E]; simpl; [reflexivity|].
  rewrite E. reflexivity.
Qed.

Lemma sort_twice (l : list A) : sort after (sort after l) = sort after l.
Proof. apply sort_in_order_id. apply sort_in_order. Qed.
End SortTwice.

Lemma find_filter {A : Type} (p : A -> bool) (l : list A) :
  find p l = hd_error (filter p l).
Proof.
  induction l as [|x l IH]; simpl; [reflexivity|].
  destruct (p x); [reflexivity|exact IH].
Qed.

Lemma byDay_dayed (parse : string -> option Z) (a b : DailySummary.t) :
  dayed parse a -> dayed parse b ->
  positive (byDay parse a b) = (dayOf parse a <? dayOf parse b)%Z.
Proof.
  intros [ta Ha] [tb Hb]. unfold byDay, dayOf. rewrite Ha, Hb. simpl Date.diff.
  rewrite positive_inject_Z. apply eq_true_iff_eq. rewrite !Z.ltb_lt. lia.
Qed.

Lemma byDay_asymmetric (parse : string -> option Z) (a b : DailySummary.t) :
  positive (byDay parse a b) = true -> positive (byDay parse b a) = false.
Proof.
  unfold byDay.
  destruct (Date.ofString (parse (DailySummary.date a))) as [ta|],
           (Date.ofString (parse (DailySummary.date b))) as [tb|];
    simpl Date.diff; try reflexivity; try discriminate.
  rewrite !positive_inject_Z. intros H. apply Z.ltb_lt in H. apply Z.ltb_ge. lia.
Qed.

Lemma byDay_same_day (parse : string -> option Z) (day : string)
  (a b : DailySummary.t) :
  ofDay day a = true -> ofDay day b = true -> positive (byDay parse a b) = false.
Proof.
  unfold ofDay, byDay. intros Ha Hb. apply String.eqb_eq in Ha, Hb. rewrite Ha, Hb.
  destruct (Date.ofString (parse day)) as [t|]; [|reflexivity].
  simpl Date.diff. rewrite positive_inject_Z. apply Z.ltb_ge. lia.
Qed.

Lemma table_update_same (h : Table.store) (a : Table.ref)
  (elements : list DailySummary.t) :
  (a < List.length h)%nat -> Table.array (Table.update h a elements) a = elements.
Proof.
  unfold Table.array. revert a. induction h as [|x h IH]; intros [|a] Ha; simpl in *;
    try lia; [reflexivity|]. apply IH. lia.
Qed.

Lemma table_update_other (h : Table.store) (a b : Table.ref)
  (elements : list DailySummary.t) :
  b <> a -> Table.array (Table.update h a elements) b = Table.array h b.
Proof.
  unfold Table.array. revert a b.
  induction h as [|x h IH]; intros [|a] [|b] Hab; simpl; try reflexivity;
    try congruence.
  apply IH. congruence.
Qed.

Lemma table_update_length (h : Table.store) (a : Table.ref)
  (elements : list DailySummary.t) :
  List.length (Table.update h a elements) = List.length h.
Proof.
  revert a. induction h as [|x h IH]; intros [|a]; simpl; try reflexivity.
  rewrite IH. reflexivity.
Qed.

Lemma table_update_twice (h : Table.store) (a : Table.ref)
  (elements : list DailySummary.t) :
  Table.update (Table.update h a elements) a elements = Table.update h a elements.
Proof.
  revert a. induction h as [|x h IH]; intros [|a]; simpl; try reflexivity.
  rewrite IH. reflexivity.
Qed.

(** X13.  The table sorts the array of the payload where it stands.  After
    a render the array [dailySummaries] itself holds the same summaries, the
    most recent day first, and every other array is as it was; what a
    lookup by day finds in it is what it found before the render.  The
    dates all denote instants. *)
Theorem table_sorts_the_payload_in_place (parse : string -> option Z)
  (today yesterday : string) (h : Table.store) (dailySummaries : Table.ref) :
  (dailySummaries < List.length h)%nat ->
  Forall (dayed parse) (Table.array h dailySummaries) ->
  let h' := snd (Table.render parse today yesterday h dailySummaries) in
  Permutation (Table.array h dailySummaries) (Table.array h' dailySummaries) /\
  StronglySorted (fun a b => (dayOf parse b <= dayOf parse a)%Z)
    (Table.array h' dailySummaries) /\
  (forall other, other <> dailySummaries -> Table.array h' other = Table.array h other) /\
  (forall day,
     find (ofDay day) (Table.array h' dailySummaries)
     = find (ofDay day) (Table.array h dailySummaries)).
Proof.
  intros Hin Hdayed. cbv zeta. unfold Table.render. cbn [snd].
  unfold Table.sortArray. rewrite (table_update_same _ _ _ Hin).
  split; [|split; [|split]].
  - unfold sortWith. apply sort_perm.
  - unfold sortWith. apply sort_sorted_on with (P := dayed parse).
    + intros x y z _ _ _ Hxy Hyz. lia.
    + intros x y Hx Hy H. rewrite (byDay_dayed parse x y Hx Hy) in H.
      apply Z.ltb_ge in H. exact H.
    + intros x y Hx Hy H. rewrite (byDay_dayed parse x y Hx Hy) in H.
      apply Z.ltb_lt in H. lia.
    + exact Hdayed.
  - intros other Hother. apply table_update_other. exact Hother.
  - intros day. rewrite !find_filter. f_equal. unfold sortWith.
    apply sort_stable. intros x y. apply byDay_same_day.
Qed.

Lemma table_sorts_the_payload_in_place_witness :
  let h' := snd (Table.render Payloads.parseDay "2024-01-01" "2023-12-31"
                   Payloads.table 0%nat) in
  Permutation (Table.array Payloads.table 0%nat) (Table.array h' 0%nat) /\
  StronglySorted
    (fun a b => (dayOf Payloads.parseDay b <= dayOf Payloads.parseDay a)%Z)
    (Table.array h' 0%nat) /\
  (forall other, other <> 0%nat ->
     Table.array h' other = Table.array Payloads.table other) /\
  (forall day,
     find (ofDay day) (Table.array h' 0%nat)
     = find (ofDay day) (Table.array Payloads.table 0%nat)).
Proof.
  apply (table_sorts_the_payload_in_place Payloads.parseDay "2024-01-01" "2023-12-31"
           Payloads.table 0%nat).
  - simpl. lia.
  - repeat constructor; eexists; vm_compute; reflexivity.
Defined.

(** X14.  A second render of the same payload shows what the first one
    showed and leaves the payload as the first one left it: the summaries
    of today and of yesterday and the rows are the same, and so is every
    array.  The dates all denote instants. *)
Theorem second_render_shows_the_same (parse : string -> option Z)
  (today yesterday : string) (h : Table.store) (dailySummaries : Table.ref) :
  (dailySummaries < List.length h)%nat ->
  Forall (dayed parse) (Table.array h dailySummaries) ->
  let first := Table.render parse today yesterday h dailySummaries in
  Table.render parse today yesterday (snd first) dailySummaries = first.
Proof.
  intros Hin Hdayed. cbv zeta. unfold Table.render. cbn [snd].
  unfold Table.sortArray.
  rewrite !(table_update_same _ _ _ Hin).
  assert (Hin' : (dailySummaries <
                  List.length (Table.update h dailySummaries
                                 (sortWith (byDay parse)
                                    (Table.array h dailySummaries))))%nat)
    by (rewrite table_update_length; exact Hin).
  rewrite !(table_update_same _ _ _ Hin').
  assert (Htwice : sortWith (byDay parse)
                     (sortWith (byDay parse) (Table.array h dailySummaries))
                   = sortWith (byDay parse) (Table.array h dailySummaries)).
  { unfold sortWith. apply sort_twice. intros x y. apply byDay_asymmetric. }
  assert (Hfind : forall day,
             find (fun s => String.eqb (DailySummary.date s) day)
               (sortWith (byDay parse) (Table.array h dailySummaries))
             = find (fun s => String.eqb (DailySummary.date s) day)
                 (Table.array h dailySummaries)).
  { intros day. rewrite !find_filter. f_equal. unfold sortWith.
    apply (sort_stable _ (ofDay day)). intros x y. apply byDay_same_day. }
  rewrite Htwice, !Hfind, table_update_twice. reflexivity.
Qed.

Lemma second_render_shows_the_same_witness :
  let first := Table.render Payloads.parseDay "2024-01-01" "2023-12-31"
                 Payloads.table 0%nat in
  Table.render Payloads.parseDay "2024-01-01" "2023-12-31" (snd first) 0%nat = first.
Proof.
  apply (second_render_shows_the_same Payloads.parseDay "2024-01-01" "2023-12-31"
           Payloads.table 0%nat).
  - simpl. lia.
  - repeat constructor; eexists; vm_compute; reflexivity.
Defined.

(** ** The application *)

Lemma lastSome_app {A B : Type} (f : A -> option B) (l : list A) (x : A) :
  lastSome f (l ++ [x])
  = match f x with
    | Some b => Some b
    | None => lastSome f l
    end.
Proof. unfold lastSome. rewrite fold_left_app. reflexivity. Qed.

Lemma lastSome_none {A B : Type} (f : A -> option B) (l : list A) :
  Forall (fun x => f x = None) l -> lastSome f l = None.
Proof.
  induction l as [|x l IH] using rev_ind; intros H; [reflexivity|].
  rewrite lastSome_app. apply Forall_app in H. destruct H as [Hl Hx].
  inversion Hx as [|? ? E _]; subst. rewrite E. exact (IH Hl).
Qed.

Lemma lastSome_after {A B : Type} (f : A -> option B) (before after : list A)
  (x : A) (b : B) :
  f x = Some b -> Forall (fun y => f y = None) after ->
  lastSome f (before ++ x :: after) = Some b.
Proof.
  intros Hx. induction after as [|y after IH] using rev_ind; intros H.
  - rewrite lastSome_app, Hx. reflexivity.
  - apply Forall_app in H. destruct H as [Hafter Hy].
    inversion Hy as [|? ? E _]; subst.
    replace (before ++ x :: after ++ [y]) with ((before ++ x :: after) ++ [y])
      by (rewrite <- app_assoc; reflexivity).
    rewrite lastSome_app, E. exact (IH Hafter).
Qed.

Lemma run_app (outcomes : list App.Outcome) (o : App.Outcome) :
  App.run (outcomes ++ [o]) = App.fetchData (App.run outcomes) o.
Proof. unfold App.run. rewrite fold_left_app. reflexivity. Qed.

Lemma run_error (outcomes : list App.Outcome) :
  App.error (App.run outcomes) = lastSome failure outcomes.
Proof.
  induction outcomes as [|o outcomes IH] using rev_ind; [reflexivity|].
  rewrite run_app, lastSome_app, <- IH.
  destruct o as [message|status [message|data]]; simpl; [reflexivity| |];
    destruct (App.ok status); reflexivity.
Qed.

Lemma run_apiData (outcomes : list App.Outcome) :
  App.apiData (App.run outcomes)
  = match lastSome success outcomes with
    | Some data => data
    | None => App.BodyNull
    end.
Proof.
  induction outcomes as [|o outcomes IH] using rev_ind; [reflexivity|].
  rewrite run_app, lastSome_app.
  destruct o as [message|status [message|data]]; simpl; try exact IH;
    destruct (App.ok status); simpl; try exact IH; reflexivity.
Qed.

Lemma run_isLoading (outcomes : list App.Outcome) :
  App.isLoading (App.run outcomes)
  = match outcomes with
    | [] => true
    | _ => false
    end.
Proof.
  destruct outcomes as [|o outcomes] using rev_ind; [reflexivity|].
  rewrite run_app.
  replace (match outcomes ++ [o] with [] => true | _ => false end) with false
    by (destruct outcomes; reflexivity).
  destruct o as [message|status [message|data]]; simpl; [reflexivity| |];
    destruct (App.ok status); reflexivity.
Qed.

(** X15.  What the application holds after any number of calls: it is
    loading until the first call has ended and never again; its error is the
    message of the last call that failed, and no call that succeeds clears
    it; its data are the body of the last call that succeeded, [null] before
    there is one, and no call that fails touches them. *)
Theorem state_after_the_calls (outcomes : list App.Outcome) :
  App.isLoading (App.run outcomes)
  = match outcomes with
    | [] => true
    | _ => false
    end /\
  App.error (App.run outcomes) = lastSome failure outcomes /\
  App.apiData (App.run outcomes)
  = match lastSome success outcomes with
    | Some data => data
    | None => App.BodyNull
    end.
Proof.
  split; [apply run_isLoading|]. split; [apply run_error|apply run_apiData].
Qed.

Section Views.
Variable LocalTZA : Z -> bool -> Z.
Variable parse : string -> option Z.
Variable now : Z.
Variables today yesterday : string.
Variable cardView : CardView.
Variable consumptionFilter : option ConsumptionFilter.
Variable timeFrame : Z.

Lemma render_of_run (outcomes : list App.Outcome) :
  App.render LocalTZA parse now today yesterday cardView consumptionFilter timeFrame
    (App.run outcomes)
  = match outcomes with
    | [] => App.Loading
    | _ =>
        match App.shownError (lastSome failure outcomes) with
        | Some message => App.Failed message
        | None =>
            let data := match lastSome success outcomes with
                        | Some data => data
                        | None => App.BodyNull
                        end in
            if negb (App.truthy data) || (App.keysLength data =? 0)%nat
            then App.NoData
            else App.Board
                   (Dashboard LocalTZA parse now today yesterday (App.fieldsOf data)
                      cardView consumptionFilter timeFrame)
        end
    end.
Proof.
  unfold App.render. rewrite run_isLoading, run_error, run_apiData.
  destruct outcomes; reflexivity.
Qed.

Lemma Dashboard_noKeys :
  Dashboard LocalTZA parse now today yesterday noKeys cardView consumptionFilter
    timeFrame = Normal nothing.
Proof. destruct cardView, consumptionFilter as [[]|]; reflexivity. Qed.
End Views.

(** X16.  An error stays on the screen.  Once a call has failed with a
    message that is not empty, the application shows that message after
    every later call that succeeds, whatever those calls bring. *)
Theorem error_stays_after_later_successes (LocalTZA : Z -> bool -> Z)
  (parse : string -> option Z) (now : Z) (today yesterday : string)
  (cardView : CardView) (consumptionFilter : option ConsumptionFilter)
  (timeFrame : Z) (before after : list App.Outcome) (o : App.Outcome)
  (message : string) :
  failure o = Some message ->
  message <> EmptyString ->
  Forall (fun o' => failure o' = None) after ->
  App.render LocalTZA parse now today yesterday cardView consumptionFilter timeFrame
    (App.run (before ++ o :: after))
  = App.Failed message.
Proof.
  intros Ho Hmessage Hafter. rewrite render_of_run.
  rewrite (lastSome_after failure before after o message Ho Hafter).
  destruct (before ++ o :: after) eqn:E; [destruct before; discriminate E|].
  unfold App.shownError.
  destruct (String.eqb message EmptyString) eqn:Em; [|reflexivity].
  apply String.eqb_eq in Em. contradiction.
Qed.

Lemma error_stays_after_later_successes_witness :
  App.render Sample.utc Sample.parse Sample.now "2024-01-01" "2023-12-31"
    view_date None 1
    (App.run ([Payloads.answered] ++ Payloads.unavailable
                :: [Payloads.answered; Payloads.unknownKeys]))
  = App.Failed "HTTP error! status: 503".
Proof.
  apply (error_stays_after_later_successes Sample.utc Sample.parse Sample.now
           "2024-01-01" "2023-12-31" view_date None 1
           [Payloads.answered] [Payloads.answered; Payloads.unknownKeys]
           Payloads.unavailable "HTTP error! status: 503").
  - reflexivity.
  - discriminate.
  - repeat constructor.
Defined.

(** X17.  The application shows the loading notice exactly as long as no
    call has come to its end. *)
Theorem loading_until_the_first_call_ends (LocalTZA : Z -> bool -> Z)
  (parse : string -> option Z) (now : Z) (today yesterday : string)
  (cardView : CardView) (consumptionFilter : option ConsumptionFilter)
  (timeFrame : Z) (outcomes : list App.Outcome) :
  App.render LocalTZA parse now today yesterday cardView consumptionFilter timeFrame
    (App.run outcomes) = App.Loading
  <-> outcomes = [].
Proof.
  rewrite render_of_run. split.
  - destruct outcomes as [|o outcomes]; [reflexivity|].
    destruct (App.shownError _); [discriminate|].
    cbv zeta. destruct (negb _ || _); discriminate.
  - intros ->. reflexivity.
Qed.

(** X18.  A body that has none of the four keys: when no call has failed
    and the last body is an object without them, the application shows the
    no-data notice if the object has no key at all, and the dashboard with
    nothing in it if the object has keys of another name. *)
Theorem body_without_the_four_keys (LocalTZA : Z -> bool -> Z)
  (parse : string -> option Z) (now : Z) (today yesterday : string)
  (cardView : CardView) (consumptionFilter : option ConsumptionFilter)
  (timeFrame : Z) (outcomes : list App.Outcome) (others : nat) :
  lastSome failure outcomes = None ->
  lastSome success outcomes = Some (App.BodyObject noKeys others) ->
  App.render LocalTZA parse now today yesterday cardView consumptionFilter timeFrame
    (App.run outcomes)
  = match others with
    | O => App.NoData
    | S _ => App.Board (Normal nothing)
    end.
Proof.
  intros Hfailure Hsuccess. rewrite render_of_run, Hfailure, Hsuccess.
  destruct outcomes as [|o outcomes]; [discriminate Hsuccess|].
  cbv zeta. cbn [App.shownError App.truthy negb orb App.keysLength App.fieldsOf].
  destruct others as [|others]; [reflexivity|].
  rewrite <- (Dashboard_noKeys LocalTZA parse now today yesterday cardView
                consumptionFilter timeFrame).
  reflexivity.
Qed.

Lemma body_without_the_four_keys_witness :
  App.render Sample.utc Sample.parse Sample.now "2024-01-01" "2023-12-31"
    view_date None 1 (App.run [Payloads.answered; Payloads.unknownKeys])
  = App.Board (Normal nothing).
Proof.
  apply (body_without_the_four_keys Sample.utc Sample.parse Sample.now
           "2024-01-01" "2023-12-31" view_date None 1
           [Payloads.answered; Payloads.unknownKeys] 2%nat).
  - reflexivity.
  - reflexivity.
Defined.

(** ** The suggestion rule and the controls *)

(** X19.  The rule is monotone: a greater consumption never gets the advice
    of a lower category, and equal consumptions get the same advice. *)
Theorem suggestion_is_monotone (x y : Q) :
  x <= y ->
  exists s t,
    generateSmartSuggestion x = advice s /\
    generateSmartSuggestion y = advice t /\
    (rank s <= rank t)%nat /\
    (x == y -> s = t).
Proof.
  intros Hxy.
  destruct (Qlt_le_dec 5 x) as [Hx5|Hx5].
  - exists HighUsage, HighUsage. split; [apply suggestion_high; exact Hx5|].
    split; [apply suggestion_high; apply Qlt_le_trans with x; assumption|].
    split; [apply Nat.le_refl|reflexivity].
  - destruct (Qlt_le_dec x 2) as [Hx2|Hx2].
    + destruct (Qlt_le_dec 5 y) as [Hy5|Hy5].
      * exists LowUsage, HighUsage. split; [apply suggestion_low; exact Hx2|].
        split; [apply suggestion_high; exact Hy5|]. split; [simpl; lia|].
        intros E. rewrite E in Hx2. exfalso.
        apply (Qlt_irrefl y). apply Qlt_trans with 2; [exact Hx2|].
        apply Qlt_trans with 5; [reflexivity|exact Hy5].
      * destruct (Qlt_le_dec y 2) as [Hy2|Hy2].
        -- exists LowUsage, LowUsage. split; [apply suggestion_low; exact Hx2|].
           split; [apply suggestion_low; exact Hy2|].
           split; [apply Nat.le_refl|reflexivity].
        -- exists LowUsage, ModerateUsage. split; [apply suggestion_low; exact Hx2|].
           split; [apply suggestion_moderate; assumption|]. split; [simpl; lia|].
           intros E. rewrite E in Hx2. exfalso.
           apply (Qlt_irrefl y). apply Qlt_le_trans with 2; assumption.
    + destruct (Qlt_le_dec 5 y) as [Hy5|Hy5].
      * exists ModerateUsage, HighUsage.
        split; [apply suggestion_moderate; assumption|].
        split; [apply suggestion_high; exact Hy5|]. split; [simpl; lia|].
        intros E. rewrite E in Hx5. exfalso.
        apply (Qlt_irrefl y). apply Qle_lt_trans with 5; assumption.
      * exists ModerateUsage, ModerateUsage.
        split; [apply suggestion_moderate; assumption|].
        split; [apply suggestion_moderate;
                [apply Qle_trans with x; assumption|exact Hy5]|].
        split; [apply Nat.le_refl|reflexivity].
Qed.

Lemma suggestion_is_monotone_witness :
  exists s t,
    generateSmartSuggestion (199 # 100) = advice s /\
    generateSmartSuggestion 2 = advice t /\
    (rank s <= rank t)%nat /\
    ((199 # 100) == 2 -> s = t).
Proof.
  apply (suggestion_is_monotone (199 # 100) 2).
  unfold Qle. simpl. lia.
Defined.

Lemma controls_run_app (clicks : list Controls.Button) (b : Controls.Button) :
  Controls.run (clicks ++ [b]) = Controls.click (Controls.run clicks) b.
Proof. unfold Controls.run. rewrite fold_left_app. reflexivity. Qed.

Lemma click_keeps_filter (s : Controls.State) (b : Controls.Button) :
  Controls.consumptionFilter s <> None ->
  Controls.consumptionFilter (Controls.click s b) <> None.
Proof.
  intros H. unfold Controls.click.
  destruct (Controls.rendered s b); [|exact H].
  destruct b; simpl; [exact H|exact H|discriminate].
Qed.

Lemma clicks_keep_filter (clicks : list Controls.Button) (s : Controls.State) :
  Controls.consumptionFilter s <> None ->
  Controls.consumptionFilter (fold_left Controls.click clicks s) <> None.
Proof.
  revert s. induction clicks as [|b clicks IH]; intros s H; simpl; [exact H|].
  apply IH. apply click_keeps_filter. exact H.
Qed.

(** X20.  What the controls can reach.  Whatever is clicked, the time frame
    is one of 1, 3, 6, 12 and 24 hours, and there is a consumption filter
    only if the consumption view has been chosen at some point. *)
Theorem states_the_controls_reach (clicks : list Controls.Button) :
  In (Controls.timeFrame (Controls.run clicks)) [1; 3; 6; 12; 24]%Z /\
  (Controls.consumptionFilter (Controls.run clicks) <> None ->
   In (Controls.ViewButton view_consumption) clicks).
Proof.
  induction clicks as [|b clicks [IHt IHf]] using rev_ind.
  - split; [left; reflexivity|]. intros H. exfalso. apply H. reflexivity.
  - rewrite controls_run_app. unfold Controls.click.
    destruct (Controls.rendered (Controls.run clicks) b) eqn:Er.
    + destruct b as [choice|view|tier]; cbn [Controls.onClick Controls.timeFrame
                                               Controls.consumptionFilter].
      * split; [destruct choice; simpl; tauto|].
        intros H. apply in_or_app. left. exact (IHf H).
      * split; [exact IHt|].
        intros H. apply in_or_app. left. exact (IHf H).
      * split; [exact IHt|]. intros _.
        cbn [Controls.rendered] in Er.
        destruct (Controls.cardView (Controls.run clicks)) eqn:Ev; try discriminate Er.
        clear IHt IHf Er. apply in_or_app.
        induction clicks as [|b' clicks IH'] using rev_ind; [discriminate Ev|].
        rewrite controls_run_app in Ev. unfold Controls.click in Ev.
        destruct (Controls.rendered (Controls.run clicks) b').
        -- destruct b' as [choice|view|tier']; cbn [Controls.onClick Controls.cardView] in Ev.
           ++ destruct (IH' Ev) as [H|[H|[]]]; [|discriminate H].
              left. apply in_or_app. left. exact H.
           ++ subst view. left. apply in_or_app. right. left. reflexivity.
           ++ destruct (IH' Ev) as [H|[H|[]]]; [|discriminate H].
              left. apply in_or_app. left. exact H.
        -- destruct (IH' Ev) as [H|[H|[]]]; [|discriminate H].
           left. apply in_or_app. left. exact H.
    + split; [exact IHt|]. intros H. apply in_or_app. left. exact (IHf H).
Qed.

(** X21.  No control clears the consumption filter, and the filter outlives
    its buttons: once a tier is chosen there is a filter after every
    further click, and after a change of view the readings shown are still
    those of the tier chosen in the consumption view. *)
Theorem filter_is_never_cleared (parse : string -> option Z)
  (readings : list Reading) (before after : list Controls.Button)
  (f : ConsumptionFilter) (view : CardView) :
  Controls.consumptionFilter (Controls.run before) <> None ->
  Controls.consumptionFilter (Controls.run (before ++ after)) <> None /\
  let s := Controls.run (before ++ [Controls.ViewButton view_consumption;
                                     Controls.ConsumptionButton f;
                                     Controls.ViewButton view]) in
  Controls.cardView s = view /\
  Controls.consumptionFilter s = Some f /\
  Forall (fun item => tier f item = true)
    (getFilteredReadings parse readings (Controls.cardView s)
       (Controls.consumptionFilter s)).
Proof.
  intros H. split.
  - unfold Controls.run. rewrite fold_left_app. apply clicks_keep_filter. exact H.
  - cbv zeta. unfold Controls.run. rewrite fold_left_app.
    cbn [fold_left]. unfold Controls.click.
    cbn [Controls.rendered Controls.onClick Controls.cardView Controls.consumptionFilter].
    split; [reflexivity|]. split; [reflexivity|].
    rewrite getFilteredReadings_tier. apply Forall_forall.
    intros item Hin. apply filter_In in Hin. apply Hin.
Qed.

Lemma filter_is_never_cleared_witness :
  Controls.consumptionFilter
    (Controls.run ([Controls.ViewButton view_consumption; Controls.ConsumptionButton low]
                   ++ [Controls.ViewButton view_date;
                       Controls.TimeFrameButton Controls.hours6])) <> None /\
  let s := Controls.run ([Controls.ViewButton view_consumption;
                          Controls.ConsumptionButton low]
                         ++ [Controls.ViewButton view_consumption;
                             Controls.ConsumptionButton high;
                             Controls.ViewButton view_anomalies]) in
  Controls.cardView s = view_anomalies /\
  Controls.consumptionFilter s = Some high /\
  Forall (fun item => tier high item = true)
    (getFilteredReadings Sample.parse Sample.readings (Controls.cardView s)
       (Controls.consumptionFilter s)).
Proof.
  apply (filter_is_never_cleared Sample.parse Sample.readings
           [Controls.ViewButton view_consumption; Controls.ConsumptionButton low]
           [Controls.ViewButton view_date; Controls.TimeFrameButton Controls.hours6]
           high view_anomalies).
  vm_compute. discriminate.
Defined.
